(** * Thought graph and heuristic cognitive analysis engine

    A shallow embedding of [enhanced_sequential_thinking_server.py]:
    the quality analyzer, the cognitive validator, the thought store
    with its sessions, the session and metacognitive reports, the
    strategy recommendation heuristic and the two server tools that add
    behaviour of their own ([enhanced_thinking], [export_thinking_session]).

    Conventions of the embedding.
    - Python [float] values are rationals ([Q]); [int / int] is rational
      division, [min]/[max] are [Qmin]/[Qmax].  The arithmetic is exact:
      where binary64 rounding puts a value on the other side of a
      threshold (0.5, 0.6, 0.7) the branch taken here can differ from
      the one the interpreter takes.
    - A Python [str] is a [string] that holds its UTF-8 bytes;
      [len(s)], [s.split()], [s.strip()], [c.isspace()], [c.isdigit()]
      go by character, [x in s], [s.endswith(x)] and
      [re.split(r'[.!?]+', s)] by byte, which is the same on UTF-8.
    - Library functions whose body is not part of the repository
      ([str.lower], [re.search], [textstat.flesch_reading_ease], the
      TF-IDF cosine similarity) and the marker tables of
      [localization_markers.py] are the fields of the class [Environment].
    - Mutable objects are threaded explicitly: every operation of the
      processor returns the new processor next to its result.
    - [datetime.now()] is an argument of the operations that read it.
    - The one unbounded loop, in [get_thinking_path], is given the
      number of iterations it may run; running out of them is [None]. *)

From Stdlib Require Import Ascii String QArith Qminmax Qabs Lqa DecimalString DecimalNat.
From stdpp Require Import gmap strings list.

Local Open Scope string_scope.
Local Open Scope list_scope.

(* ================================================================== *)
(** * Text primitives                                                  *)
(* ================================================================== *)

Module Text.

(** A [str] is held as the bytes of its UTF-8 encoding.  The operations
    that go by character ([len], [isspace], [isdigit], [split],
    [strip]) first cut the bytes into characters: a character starts at
    every byte that is not a continuation byte [10xxxxxx]. *)

Definition is_empty (s : string) : bool :=
  match s with "" => true | _ => false end.

Definition snoc (s : string) (c : ascii) : string := s +:+ String c "".

Definition is_continuation (c : ascii) : bool :=
  let n := nat_of_ascii c in Nat.leb 128 n && Nat.ltb n 192.

(** [s] goes on with the character before it. *)
Definition continues (s : string) : bool :=
  match s with
  | "" => false
  | String c _ => is_continuation c
  end.

(** The characters of [s] in order, each as its own bytes. *)
Fixpoint chars (s : string) : list string :=
  match s with
  | "" => []
  | String c s' =>
      match chars s' with
      | ch :: chs =>
          if continues s' then String c ch :: chs else String c "" :: ch :: chs
      | [] => [String c ""]
      end
  end.

(** ["".join(chs)]. *)
Definition join (chs : list string) : string := foldr String.append "" chs.

(** [len(s)]: the number of characters. *)
Definition len (s : string) : nat := List.length (chars s).

Fixpoint continuation_bits (acc : N) (s : string) : N :=
  match s with
  | "" => acc
  | String c s' => continuation_bits (acc * 64 + N_of_ascii c mod 64)%N s'
  end.

(** [ord(ch)] of a character given by its bytes. *)
Definition codepoint (ch : string) : N :=
  match ch with
  | "" => 0%N
  | String c rest =>
      let n := N_of_ascii c in
      let lead := (if n <? 128 then n
                   else if n <? 224 then n mod 32
                   else if n <? 240 then n mod 16
                   else n mod 8)%N in
      continuation_bits lead rest
  end.

Definition between (lo hi n : N) : bool := ((lo <=? n) && (n <=? hi))%N.

(** [ch.isspace()]: the characters that [str.split()] and [str.strip()]
    take for white space. *)
Definition isspace (ch : string) : bool :=
  let n := codepoint ch in
  between 9 13 n || between 28 32 n || (n =? 133)%N || (n =? 160)%N
  || (n =? 5760)%N || between 8192 8202 n || (n =? 8232)%N || (n =? 8233)%N
  || (n =? 8239)%N || (n =? 8287)%N || (n =? 12288)%N.

(** The code points of the characters with [ch.isdigit()], as the
    inclusive ranges of the Unicode character database, version 14. *)
Definition digit_ranges : list (N * N) :=
  [(48, 57); (178, 179); (185, 185); (1632, 1641); (1776, 1785);
   (1984, 1993); (2406, 2415); (2534, 2543); (2662, 2671); (2790, 2799);
   (2918, 2927); (3046, 3055); (3174, 3183); (3302, 3311); (3430, 3439);
   (3558, 3567); (3664, 3673); (3792, 3801); (3872, 3881); (4160, 4169);
   (4240, 4249); (4969, 4977); (6112, 6121); (6160, 6169); (6470, 6479);
   (6608, 6618); (6784, 6793); (6800, 6809); (6992, 7001); (7088, 7097);
   (7232, 7241); (7248, 7257); (8304, 8304); (8308, 8313); (8320, 8329);
   (9312, 9320); (9332, 9340); (9352, 9360); (9450, 9450); (9461, 9469);
   (9471, 9471); (10102, 10110); (10112, 10120); (10122, 10130);
   (42528, 42537); (43216, 43225); (43264, 43273); (43472, 43481);
   (43504, 43513); (43600, 43609); (44016, 44025); (65296, 65305);
   (66720, 66729); (68160, 68163); (68912, 68921); (69216, 69224);
   (69714, 69722); (69734, 69743); (69872, 69881); (69942, 69951);
   (70096, 70105); (70384, 70393); (70736, 70745); (70864, 70873);
   (71248, 71257); (71360, 71369); (71472, 71481); (71904, 71913);
   (72016, 72025); (72784, 72793); (73040, 73049); (73120, 73129);
   (92768, 92777); (92864, 92873); (93008, 93017); (120782, 120831);
   (123200, 123209); (123632, 123641); (125264, 125273); (127232, 127242);
   (130032, 130041)]%N.

Definition isdigit (ch : string) : bool :=
  let n := codepoint ch in
  existsb (fun '(lo, hi) => between lo hi n) digit_ranges.

(** [s.split()]: maximal runs of non-whitespace characters. *)
Fixpoint split_go (cur : string) (chs : list string) : list string :=
  match chs with
  | [] => if is_empty cur then [] else [cur]
  | ch :: chs' =>
      if isspace ch
      then (if is_empty cur then split_go "" chs' else cur :: split_go "" chs')
      else split_go (cur +:+ ch) chs'
  end.

Definition split (s : string) : list string := split_go "" (chars s).

Fixpoint lstrip_chars (chs : list string) : list string :=
  match chs with
  | [] => []
  | ch :: chs' => if isspace ch then lstrip_chars chs' else chs
  end.

Fixpoint rstrip_chars (chs : list string) : list string :=
  match chs with
  | [] => []
  | ch :: chs' =>
      match rstrip_chars chs' with
      | [] => if isspace ch then [] else [ch]
      | r => ch :: r
      end
  end.

(** [s.strip()]. *)
Definition strip (s : string) : string :=
  join (rstrip_chars (lstrip_chars (chars s))).

(** [needle in hay] on strings. *)
Fixpoint contains (needle hay : string) : bool :=
  String.prefix needle hay ||
  match hay with
  | "" => false
  | String _ hay' => contains needle hay'
  end.

(** [s.endswith(suffix)]. *)
Definition endswith (s suffix : string) : bool :=
  String.prefix (String.rev suffix) (String.rev s).

Definition is_sentence_end (c : ascii) : bool :=
  (Ascii.eqb c "."%char) || (Ascii.eqb c "!"%char) || (Ascii.eqb c "?"%char).

(** [re.split(r'[.!?]+', s)]: the pieces between maximal runs of
    sentence punctuation, empty pieces at both ends included. *)
Fixpoint re_split_go (cur : string) (in_run : bool) (s : string) : list string :=
  match s with
  | "" => [cur]
  | String c s' =>
      if is_sentence_end c
      then (if in_run then re_split_go "" true s'
            else cur :: re_split_go "" true s')
      else re_split_go (snoc cur c) false s'
  end.

Definition re_split_sentences (s : string) : list string := re_split_go "" false s.

(** [any(c.isdigit() for c in s)]. *)
Definition any_digit (s : string) : bool := existsb isdigit (chars s).

(** ASCII lowering, the instance of [str.lower] used on ASCII examples. *)
Definition ascii_lower_char (c : ascii) : ascii :=
  let n := nat_of_ascii c in
  if Nat.leb 65 n && Nat.leb n 90 then ascii_of_nat (n + 32)%nat else c.

Fixpoint ascii_lower (s : string) : string :=
  match s with
  | "" => ""
  | String c s' => String (ascii_lower_char c) (ascii_lower s')
  end.

End Text.

(** [sum(1 for x in l if p x)]. *)
Fixpoint count_if {A : Type} (p : A -> bool) (l : list A) : nat :=
  match l with
  | [] => 0%nat
  | x :: l' => ((if p x then 1 else 0) + count_if p l')%nat
  end.

(** [set(l)] as the list of the distinct elements of [l]; its length is
    [len(set(l))]. *)
Fixpoint distinct {A : Type} `{EqDecision A} (l : list A) : list A :=
  match l with
  | [] => []
  | x :: l' => if decide (x ∈ l') then distinct l' else x :: distinct l'
  end.

(** A count or a length used as a float. *)
Definition Qnat (n : nat) : Q := inject_Z (Z.of_nat n).

(** [x < y] on floats. *)
Definition Qltb (x y : Q) : bool := negb (Qle_bool y x).

(** [sum(l)] on floats: the running total starts at zero and takes the
    elements from the left. *)
Definition Qsum (l : list Q) : Q := foldl Qplus 0%Q l.

(** The [n] most recent entries, [l[-n:]] for a positive [n]. *)
Definition last_n {A : Type} (n : nat) (l : list A) : list A :=
  drop (List.length l - n)%nat l.

(* ================================================================== *)
(** * Data models and enums                                            *)
(* ================================================================== *)

Inductive ThinkingStrategy :=
| LINEAR | TREE | DIALECTICAL | SYSTEMATIC | CREATIVE | ANALYTICAL
| METACOGNITIVE | CRITICAL | SYSTEMIC | LATERAL | STRATEGIC | EMPATHETIC
| ABSTRACT | PRACTICAL | INTEGRATIVE | EVOLUTIONARY | CONVERGENT
| DIVERGENT | REFLECTIVE.

Inductive ThoughtType :=
| OBSERVATION | HYPOTHESIS | ANALYSIS | SYNTHESIS | EVALUATION
| CONCLUSION | QUESTION | ASSUMPTION | COUNTERARGUMENT | METACOGNITION.

Inductive ConfidenceLevel := VERY_LOW | LOW | MEDIUM | HIGH | VERY_HIGH.

Global Instance ThinkingStrategy_eq_dec : EqDecision ThinkingStrategy.
Proof. solve_decision. Defined.

Global Instance ThoughtType_eq_dec : EqDecision ThoughtType.
Proof. solve_decision. Defined.

Global Instance ConfidenceLevel_eq_dec : EqDecision ConfidenceLevel.
Proof. solve_decision. Defined.

(** The languages that have an entry in every table of
    [localization_markers.py] and in [TRANSLATIONS]. *)
Inductive Language := En | Ru.

(** The dataclass [ThoughtMetrics]. *)
Record ThoughtMetrics := {
  clarity_score : Q;
  logical_coherence : Q;
  evidence_strength : Q;
  novelty_score : Q;
  complexity_score : Q;
  confidence_level : ConfidenceLevel;
  critical_thinking_score : Q;
  systemic_thinking_score : Q;
  lateral_thinking_score : Q;
  strategic_score : Q;
  empathy_score : Q;
  abstraction_score : Q;
  practicality_score : Q;
  integration_score : Q;
  evolution_score : Q;
  convergence_score : Q;
  divergence_score : Q;
  reflection_score : Q
}.

(** [ThoughtMetrics()]: the dataclass defaults. *)
Definition default_metrics : ThoughtMetrics := {|
  clarity_score := 0; logical_coherence := 0; evidence_strength := 0;
  novelty_score := 0; complexity_score := 0; confidence_level := MEDIUM;
  critical_thinking_score := 0; systemic_thinking_score := 0;
  lateral_thinking_score := 0; strategic_score := 0; empathy_score := 0;
  abstraction_score := 0; practicality_score := 0; integration_score := 0;
  evolution_score := 0; convergence_score := 0; divergence_score := 0;
  reflection_score := 0
|}.

(** What one operation reads from [datetime.now()]: the [%H%M%S] text
    that ends a generated identifier and the ISO text kept as the
    creation (or export) time. *)
Record Clock := { hhmmss : string; isoformat : string }.

(** The dataclass [EnhancedThought]. *)
Record EnhancedThought := {
  thought_id : string;                  (* field [id] *)
  content : string;
  thought_type : ThoughtType;
  strategy : ThinkingStrategy;
  parent_id : option string;
  children_ids : list string;
  branch_id : option string;
  revision_of : option string;
  timestamp : string;
  metrics : ThoughtMetrics;
  cognitive_biases : list string;
  tags : list string;
  supports : list string;
  contradicts : list string;
  builds_on : list string
}.

(** The request of the tool [enhanced_thinking].  The fields that share
    their name with a field of [EnhancedThought] are prefixed [in_]. *)
Record EnhancedThinkingInput := {
  thought : string;
  in_thought_type : ThoughtType;
  in_strategy : ThinkingStrategy;
  parent_thought_id : option string;
  revision_of_id : option string;
  in_branch_id : option string;
  supports_thoughts : list string;
  contradicts_thoughts : list string;
  builds_on_thoughts : list string;
  in_tags : list string;
  confidence : option ConfidenceLevel;
  response_language : option string;
  request_analysis : bool;
  request_validation : bool
}.

(** One entry of [COGNITIVE_BIAS_MARKERS[lang]]. *)
Record BiasData := { markers : list string; context : list string }.

(** One of the per-strategy marker dictionaries.  The categories are the
    entries whose value is a list of words, in dictionary order; the only
    entry whose value is a list of pairs, ["structure_keywords"], has its
    own field (its key ends in ["_keywords"], so the scoring loop skips
    it wherever it stands). *)
Record StrategyMarkers := {
  categories : list (string * list string);
  structure_keywords : option (list (string * string))
}.

(** [EMOTIONAL_WORDS[lang]] with its keys ["positive"] and ["negative"]. *)
Record EmotionalWords := { positive_words : list string; negative_words : list string }.

(** What the engine takes from outside the repository's logic: library
    functions, the optional analysis capability and the marker tables. *)
Class Environment := {
  lower : string -> string;
  re_search : string -> string -> bool;
  (** [None] stands for an exception raised by the library. *)
  flesch_reading_ease : string -> option Q;
  HAS_ANALYSIS_LIBS : bool;
  (** [cosine_similarity(TfidfVectorizer(...).fit_transform(texts))];
      [None] stands for an exception raised on the way. *)
  tfidf_cosine_similarity : list string -> option (list (list Q));
  COGNITIVE_BIAS_MARKERS : Language -> list (string * BiasData);
  CONTRADICTION_WORDS : Language -> list (string * string);
  LOGICAL_CONNECTORS : Language -> list string;
  EVIDENCE_PATTERNS : Language -> list string;
  UNCERTAINTY_MARKERS : Language -> list string;
  CERTAINTY_MARKERS : Language -> list string;
  CRITICAL_MARKERS : Language -> StrategyMarkers;
  SYSTEMIC_MARKERS : Language -> StrategyMarkers;
  LATERAL_MARKERS : Language -> StrategyMarkers;
  STRATEGIC_MARKERS : Language -> StrategyMarkers;
  EMPATHETIC_MARKERS : Language -> StrategyMarkers;
  ABSTRACT_MARKERS : Language -> StrategyMarkers;
  PRACTICAL_MARKERS : Language -> StrategyMarkers;
  INTEGRATIVE_MARKERS : Language -> StrategyMarkers;
  EVOLUTIONARY_MARKERS : Language -> StrategyMarkers;
  CONVERGENT_MARKERS : Language -> StrategyMarkers;
  DIVERGENT_MARKERS : Language -> StrategyMarkers;
  REFLECTIVE_MARKERS : Language -> StrategyMarkers;
  DOMAIN_KEYWORDS : Language -> list (string * list string);
  EMOTIONAL_WORDS : Language -> EmotionalWords;
  AMBIGUITY_MARKERS : Language -> list string
}.

(** [d.get(key)] on a dictionary kept as an association list. *)
Fixpoint dict_get {V : Type} (key : string) (d : list (string * V)) : option V :=
  match d with
  | [] => None
  | (k, v) :: d' => if decide (k = key) then Some v else dict_get key d'
  end.

(* ================================================================== *)
(** * Thought quality analyzer                                         *)
(* ================================================================== *)

(** The optional keyword arguments of [_analyze_specific_strategy]. *)
Record BonusArgs := {
  bonus_structure_keywords : option (list (string * string));
  bonus_causal_keywords : option (list string);
  bonus_question_phrases : option (list string);
  bonus_priority_keywords : option (list string);
  bonus_people_refs : option (list string * list string);
  bonus_specific_examples_negators : option (list string);
  bonus_action_verbs : option (list string);
  bonus_keywords : option (list string);
  bonus_logical_connectors_conclusion : option (list string)
}.

Definition no_bonus : BonusArgs := {|
  bonus_structure_keywords := None; bonus_causal_keywords := None;
  bonus_question_phrases := None; bonus_priority_keywords := None;
  bonus_people_refs := None; bonus_specific_examples_negators := None;
  bonus_action_verbs := None; bonus_keywords := None;
  bonus_logical_connectors_conclusion := None
|}.

(** [arg and any(test(x) for x in arg)] for an optional list: [None] and
    the empty list are both falsy. *)
Definition truthy_any {A : Type} (arg : option (list A)) (test : A -> bool) : bool :=
  match arg with
  | None => false
  | Some l => existsb test l
  end.

(** [bool(arg)] for an optional list. *)
Definition truthy {A : Type} (arg : option (list A)) : bool :=
  match arg with
  | None | Some [] => false
  | Some _ => true
  end.

(** The categories that the scoring loop skips. *)
Definition is_bonus_category (category : string) : bool :=
  Text.endswith category "_keywords" || Text.endswith category "_phrases"
  || Text.endswith category "_negators" || Text.endswith category "_verbs"
  || bool_decide (category = "pronouns") || bool_decide (category = "people_refs").

Section Analyzer.
Context `{Environment}.

(** The sub-scores of the counted categories, in dictionary order. *)
Fixpoint category_scores (thought_lower : string) (word_count : nat)
    (items : list (string * list string)) : list Q :=
  match items with
  | [] => []
  | (category, ms) :: items' =>
      if is_bonus_category category
      then category_scores thought_lower word_count items'
      else
        let count := count_if (fun marker => Text.contains marker thought_lower) ms in
        Qmin 1 (Qnat count / (Qnat word_count * 0.1))
        :: category_scores thought_lower word_count items'
  end.

(** The chain of [if] statements that set [bonus_score]: a later rule
    that fires overwrites an earlier one. *)
Definition bonus_score_of (text : string) (b : BonusArgs) : Q :=
  let thought_lower := lower text in
  let has := fun w => Text.contains w thought_lower in
  let s0 := 0%Q in
  let s1 := if truthy_any (bonus_structure_keywords b)
                 (fun '(m1, m2) => has m1 && has m2) then 0.2%Q else s0 in
  let s2 := if truthy_any (bonus_causal_keywords b) has then 0.1%Q else s1 in
  let s3 := if truthy_any (bonus_question_phrases b) has then 0.15%Q else s2 in
  let s4 := if truthy_any (bonus_priority_keywords b) has then 0.1%Q else s3 in
  let s5 := match bonus_people_refs b with
            | Some (pronouns, people_refs) =>
                if existsb has pronouns && existsb has people_refs
                then 0.1%Q else s4
            | None => s4
            end in
  let s6 := if truthy (bonus_specific_examples_negators b)
               && negb (Text.any_digit text)
               && negb (truthy_any (bonus_specific_examples_negators b) has)
            then 0.1%Q else s5 in
  let s7 := if truthy_any (bonus_action_verbs b) has then 0.1%Q else s6 in
  let s8 := if truthy_any (bonus_keywords b) has
            then (if truthy_any (bonus_keywords b)
                       (fun k => bool_decide (k = "win-win") || bool_decide (k = "synergy"))
                  then 0.15%Q else 0.1%Q)
            else s7 in
  let s9 := if truthy_any (bonus_logical_connectors_conclusion b) has
            then 0.1%Q else s8 in
  s9.

Definition _analyze_specific_strategy (text : string)
    (markers_data : StrategyMarkers) (b : BonusArgs) : Q :=
  let thought_lower := lower text in
  let word_count := List.length (Text.split text) in
  if Nat.eqb word_count 0 then 0%Q
  else
    let scores := category_scores thought_lower word_count (categories markers_data) in
    let bonus_score := bonus_score_of text b in
    let scores := if Qltb 0 bonus_score then scores ++ [bonus_score] else scores in
    match scores with
    | [] => 0%Q
    | _ => Qsum scores / Qnat (List.length scores)
    end.

Definition words_of (md : StrategyMarkers) (key : string) : option (list string) :=
  dict_get key (categories md).

Definition _analyze_critical_thinking (lang : Language) (text : string) : Q :=
  let md := CRITICAL_MARKERS lang in
  _analyze_specific_strategy text md
    {| bonus_structure_keywords := structure_keywords md;
       bonus_causal_keywords := None; bonus_question_phrases := None;
       bonus_priority_keywords := None; bonus_people_refs := None;
       bonus_specific_examples_negators := None; bonus_action_verbs := None;
       bonus_keywords := None; bonus_logical_connectors_conclusion := None |}.

Definition _analyze_systemic_thinking (lang : Language) (text : string) : Q :=
  let md := SYSTEMIC_MARKERS lang in
  _analyze_specific_strategy text md
    {| bonus_structure_keywords := None;
       bonus_causal_keywords := words_of md "causal_keywords";
       bonus_question_phrases := None;
       bonus_priority_keywords := None; bonus_people_refs := None;
       bonus_specific_examples_negators := None; bonus_action_verbs := None;
       bonus_keywords := None; bonus_logical_connectors_conclusion := None |}.

Definition _analyze_lateral_thinking (lang : Language) (text : string) : Q :=
  let md := LATERAL_MARKERS lang in
  _analyze_specific_strategy text md
    {| bonus_structure_keywords := None; bonus_causal_keywords := None;
       bonus_question_phrases := words_of md "question_phrases";
       bonus_priority_keywords := None; bonus_people_refs := None;
       bonus_specific_examples_negators := None; bonus_action_verbs := None;
       bonus_keywords := None; bonus_logical_connectors_conclusion := None |}.

Definition _analyze_strategic_thinking (lang : Language) (text : string) : Q :=
  let md := STRATEGIC_MARKERS lang in
  _analyze_specific_strategy text md
    {| bonus_structure_keywords := None; bonus_causal_keywords := None;
       bonus_question_phrases := None;
       bonus_priority_keywords := words_of md "priority_keywords";
       bonus_people_refs := None;
       bonus_specific_examples_negators := None; bonus_action_verbs := None;
       bonus_keywords := None; bonus_logical_connectors_conclusion := None |}.

Definition _analyze_empathetic_thinking (lang : Language) (text : string) : Q :=
  let md := EMPATHETIC_MARKERS lang in
  _analyze_specific_strategy text md
    {| bonus_structure_keywords := None; bonus_causal_keywords := None;
       bonus_question_phrases := None; bonus_priority_keywords := None;
       bonus_people_refs :=
         Some (default [] (words_of md "pronouns"),
               default [] (words_of md "people_refs"));
       bonus_specific_examples_negators := None; bonus_action_verbs := None;
       bonus_keywords := None; bonus_logical_connectors_conclusion := None |}.

Definition _analyze_abstract_thinking (lang : Language) (text : string) : Q :=
  let md := ABSTRACT_MARKERS lang in
  _analyze_specific_strategy text md
    {| bonus_structure_keywords := None; bonus_causal_keywords := None;
       bonus_question_phrases := None; bonus_priority_keywords := None;
       bonus_people_refs := None;
       bonus_specific_examples_negators := words_of md "specific_examples_negators";
       bonus_action_verbs := None;
       bonus_keywords := None; bonus_logical_connectors_conclusion := None |}.

Definition _analyze_practical_thinking (lang : Language) (text : string) : Q :=
  let md := PRACTICAL_MARKERS lang in
  _analyze_specific_strategy text md
    {| bonus_structure_keywords := None; bonus_causal_keywords := None;
       bonus_question_phrases := None; bonus_priority_keywords := None;
       bonus_people_refs := None; bonus_specific_examples_negators := None;
       bonus_action_verbs := words_of md "action_verbs";
       bonus_keywords := None; bonus_logical_connectors_conclusion := None |}.

Definition with_bonus_keywords (md : StrategyMarkers) : BonusArgs :=
  {| bonus_structure_keywords := None; bonus_causal_keywords := None;
     bonus_question_phrases := None; bonus_priority_keywords := None;
     bonus_people_refs := None; bonus_specific_examples_negators := None;
     bonus_action_verbs := None;
     bonus_keywords := words_of md "bonus_keywords";
     bonus_logical_connectors_conclusion := None |}.

Definition _analyze_integrative_thinking (lang : Language) (text : string) : Q :=
  let md := INTEGRATIVE_MARKERS lang in
  _analyze_specific_strategy text md (with_bonus_keywords md).

Definition _analyze_evolutionary_thinking (lang : Language) (text : string) : Q :=
  let md := EVOLUTIONARY_MARKERS lang in
  _analyze_specific_strategy text md (with_bonus_keywords md).

Definition _analyze_convergent_thinking (lang : Language) (text : string) : Q :=
  let md := CONVERGENT_MARKERS lang in
  _analyze_specific_strategy text md
    {| bonus_structure_keywords := None; bonus_causal_keywords := None;
       bonus_question_phrases := None; bonus_priority_keywords := None;
       bonus_people_refs := None; bonus_specific_examples_negators := None;
       bonus_action_verbs := None; bonus_keywords := None;
       bonus_logical_connectors_conclusion :=
         words_of md "logical_connectors_leading_to_conclusion" |}.

Definition _analyze_divergent_thinking (lang : Language) (text : string) : Q :=
  let md := DIVERGENT_MARKERS lang in
  _analyze_specific_strategy text md
    {| bonus_structure_keywords := None; bonus_causal_keywords := None;
       bonus_question_phrases := words_of md "question_phrases";
       bonus_priority_keywords := None; bonus_people_refs := None;
       bonus_specific_examples_negators := None; bonus_action_verbs := None;
       bonus_keywords := None; bonus_logical_connectors_conclusion := None |}.

Definition _analyze_reflective_thinking (lang : Language) (text : string) : Q :=
  let md := REFLECTIVE_MARKERS lang in
  _analyze_specific_strategy text md (with_bonus_keywords md).

End Analyzer.

Section QualityAndValidation.
Context `{Environment}.

(** The clarity and complexity scores: the readability library when it
    is present and does not fail, the word-count heuristics otherwise. *)
Definition clarity_and_complexity (text : string) : Q * Q :=
  let word_count := List.length (Text.split text) in
  if HAS_ANALYSIS_LIBS then
    match flesch_reading_ease text with
    | Some flesch_score =>
        let sentence_count :=
          count_if (fun s => negb (Text.is_empty (Text.strip s)))
                   (Text.re_split_sentences text) in
        let avg_sentence_length := (Qnat word_count / Qnat (Nat.max sentence_count 1))%Q in
        (Qmin 1 (Qmax 0 (flesch_score / 100)), Qmin 1 (avg_sentence_length / 20))
    | None =>
        (Qmin 1 (Qmax 0.1 (1 - inject_Z (Z.of_nat word_count - 10) / 100)),
         Qmin 1 (Qnat word_count / 50))
    end
  else
    (Qmin 1 (Qmax 0.1 (1 - Qabs (inject_Z (Z.of_nat word_count - 15)) / 30)),
     Qmin 1 (Qnat word_count / 50)).

Definition derived_confidence (lang : Language) (text : string) : ConfidenceLevel :=
  let has := fun marker => Text.contains marker (lower text) in
  let uncertainty_count := count_if has (UNCERTAINTY_MARKERS lang) in
  let certainty_count := count_if has (CERTAINTY_MARKERS lang) in
  if Nat.ltb uncertainty_count certainty_count then HIGH
  else if Nat.ltb certainty_count uncertainty_count then LOW
  else MEDIUM.

Definition novelty_of (text : string) : Q :=
  let unique_words := List.length (distinct (Text.split (lower text))) in
  let total_words := List.length (Text.split text) in
  if Nat.ltb 0 total_words
  then Qmin 1 (Qnat unique_words / Qnat total_words)
  else 0%Q.

(** [ThoughtQualityAnalyzer.analyze_thought_quality]. *)
Definition analyze_thought_quality (lang : Language) (text : string)
    (strat : ThinkingStrategy) : ThoughtMetrics :=
  if Text.is_empty (Text.strip text) then default_metrics
  else
    let has := fun marker => Text.contains marker (lower text) in
    let connector_count := count_if has (LOGICAL_CONNECTORS lang) in
    let evidence_count :=
      count_if (fun pattern => re_search pattern (lower text)) (EVIDENCE_PATTERNS lang) in
    {| clarity_score := fst (clarity_and_complexity text);
       complexity_score := snd (clarity_and_complexity text);
       logical_coherence := Qmin 1 (Qnat connector_count / 3);
       evidence_strength := Qmin 1 (Qnat evidence_count / 3);
       novelty_score := novelty_of text;
       confidence_level := derived_confidence lang text;
       critical_thinking_score :=
         match strat with CRITICAL => _analyze_critical_thinking lang text | _ => 0 end;
       systemic_thinking_score :=
         match strat with SYSTEMIC => _analyze_systemic_thinking lang text | _ => 0 end;
       lateral_thinking_score :=
         match strat with LATERAL => _analyze_lateral_thinking lang text | _ => 0 end;
       strategic_score :=
         match strat with STRATEGIC => _analyze_strategic_thinking lang text | _ => 0 end;
       empathy_score :=
         match strat with EMPATHETIC => _analyze_empathetic_thinking lang text | _ => 0 end;
       abstraction_score :=
         match strat with ABSTRACT => _analyze_abstract_thinking lang text | _ => 0 end;
       practicality_score :=
         match strat with PRACTICAL => _analyze_practical_thinking lang text | _ => 0 end;
       integration_score :=
         match strat with INTEGRATIVE => _analyze_integrative_thinking lang text | _ => 0 end;
       evolution_score :=
         match strat with EVOLUTIONARY => _analyze_evolutionary_thinking lang text | _ => 0 end;
       convergence_score :=
         match strat with CONVERGENT => _analyze_convergent_thinking lang text | _ => 0 end;
       divergence_score :=
         match strat with DIVERGENT => _analyze_divergent_thinking lang text | _ => 0 end;
       reflection_score :=
         match strat with REFLECTIVE => _analyze_reflective_thinking lang text | _ => 0 end
    |}.

(* ---------------------------------------------------------------- *)
(** ** Cognitive validation                                          *)
(* ---------------------------------------------------------------- *)

Definition marker_count (thought_lower : string) (bias_data : BiasData) : nat :=
  count_if (fun marker => Text.contains marker thought_lower) (markers bias_data).

Definition context_matches (thought_lower : string) (bias_data : BiasData) : bool :=
  existsb (fun cue => Text.contains cue thought_lower) (context bias_data).

Definition bias_fires (thought_lower : string) (bias_data : BiasData) : bool :=
  Nat.leb 2 (marker_count thought_lower bias_data)
  && context_matches thought_lower bias_data.

(** [CognitiveValidation.detect_cognitive_biases]: one pass over the
    catalog in dictionary order. *)
Fixpoint detect_in (thought_lower : string)
    (biases : list (string * BiasData)) : list string :=
  match biases with
  | [] => []
  | (bias_name, bias_data) :: biases' =>
      if bias_fires thought_lower bias_data
      then bias_name :: detect_in thought_lower biases'
      else detect_in thought_lower biases'
  end.

Definition detect_cognitive_biases (lang : Language) (text : string) : list string :=
  detect_in (lower text) (COGNITIVE_BIAS_MARKERS lang).

(** One recorded conflict; its ["type"] is the fixed label
    [t("semantic_contradiction")]. *)
Record Conflict := { conflict_thoughts : nat * nat; conflict_confidence : Q }.

Record ConsistencyAnalysis := {
  consistent : bool;
  conflicts : list Conflict;
  similarity_matrix : list (list Q)
}.

Definition no_conflicts : ConsistencyAnalysis :=
  {| consistent := true; conflicts := []; similarity_matrix := [] |}.

(** The innermost loop, over the (negative, positive) word pairs.
    [None] is an [IndexError] from [similarity_matrix[i][j]]. *)
Fixpoint pair_conflicts (matrix : list (list Q)) (i j : nat) (thought1 thought2 : string)
    (words : list (string * string)) : option (list Conflict) :=
  match words with
  | [] => Some []
  | (neg, pos) :: words' =>
      if Text.contains neg (lower thought1) && Text.contains pos (lower thought2)
      then
        row ← matrix !! i;
        sim ← row !! j;
        rest ← pair_conflicts matrix i j thought1 thought2 words';
        Some (if Qltb sim 0.3
              then {| conflict_thoughts := (i, j); conflict_confidence := (1 - sim)%Q |} :: rest
              else rest)
      else pair_conflicts matrix i j thought1 thought2 words'
  end.

(** The loop over [enumerate(thoughts[i+1:], i+1)]. *)
Fixpoint conflicts_with (matrix : list (list Q)) (words : list (string * string))
    (i : nat) (thought1 : string) (j : nat) (later : list string)
    : option (list Conflict) :=
  match later with
  | [] => Some []
  | thought2 :: later' =>
      here ← pair_conflicts matrix i j thought1 thought2 words;
      rest ← conflicts_with matrix words i thought1 (S j) later';
      Some (here ++ rest)
  end.

(** The loop over [enumerate(thoughts)], started at index [i]. *)
Fixpoint conflicts_from (matrix : list (list Q)) (words : list (string * string))
    (i : nat) (thoughts : list string) : option (list Conflict) :=
  match thoughts with
  | [] => Some []
  | thought1 :: later =>
      here ← conflicts_with matrix words i thought1 (S i) later;
      rest ← conflicts_from matrix words (S i) later;
      Some (here ++ rest)
  end.

(** [CognitiveValidation.check_logical_consistency]. *)
Definition check_logical_consistency (lang : Language) (thoughts : list string)
    : ConsistencyAnalysis :=
  if negb HAS_ANALYSIS_LIBS || Nat.ltb (List.length thoughts) 2 then no_conflicts
  else
    match tfidf_cosine_similarity thoughts with
    | None => no_conflicts
    | Some matrix =>
        match conflicts_from matrix (CONTRADICTION_WORDS lang) 0 thoughts with
        | None => no_conflicts
        | Some found =>
            {| consistent := Nat.eqb (List.length found) 0;
               conflicts := found;
               similarity_matrix := matrix |}
        end
    end.

End QualityAndValidation.

(* ================================================================== *)
(** * The thinking processor                                           *)
(* ================================================================== *)

(** The state of [EnhancedThinkingProcessor].  The analyzer and the
    validator it owns hold nothing but the language, which
    [set_language] keeps equal to the processor's. *)
Record EnhancedThinkingProcessor := {
  language : Language;
  thoughts : gmap string EnhancedThought;
  thought_sessions : gmap string (list string);   (* a [defaultdict(list)] *)
  current_session_id : string;
  strategy_history : list (ThinkingStrategy * Q);
  global_thought_counter : nat
}.

(** [EnhancedThinkingProcessor(language)]. *)
Definition new_processor (lang : Language) : EnhancedThinkingProcessor := {|
  language := lang;
  thoughts := ∅;
  thought_sessions := ∅;
  current_session_id := "default";
  strategy_history := [];
  global_thought_counter := 0
|}.

Definition set_language (p : EnhancedThinkingProcessor) (lang : Language)
    : EnhancedThinkingProcessor :=
  {| language := lang;
     thoughts := thoughts p;
     thought_sessions := thought_sessions p;
     current_session_id := current_session_id p;
     strategy_history := strategy_history p;
     global_thought_counter := global_thought_counter p |}.

(** [str(n)] for a natural number. *)
Definition decimal (n : nat) : string := NilEmpty.string_of_uint (Nat.to_uint n).

(** [f"thought_{counter}_{now:%H%M%S}"]. *)
Definition format_thought_id (counter : nat) (now : Clock) : string :=
  "thought_" +:+ decimal counter +:+ "_" +:+ hhmmss now.

(** [generate_thought_id]: the counter after the increment and the id. *)
Definition generate_thought_id (p : EnhancedThinkingProcessor) (now : Clock)
    : nat * string :=
  let counter := S (global_thought_counter p) in
  (counter, format_thought_id counter now).

Definition with_children (t : EnhancedThought) (children : list string)
    : EnhancedThought :=
  {| thought_id := thought_id t; content := content t;
     thought_type := thought_type t; strategy := strategy t;
     parent_id := parent_id t; children_ids := children;
     branch_id := branch_id t; revision_of := revision_of t;
     timestamp := timestamp t; metrics := metrics t;
     cognitive_biases := cognitive_biases t; tags := tags t;
     supports := supports t; contradicts := contradicts t;
     builds_on := builds_on t |}.

Definition with_confidence (m : ThoughtMetrics) (c : ConfidenceLevel)
    : ThoughtMetrics :=
  {| clarity_score := clarity_score m;
     logical_coherence := logical_coherence m;
     evidence_strength := evidence_strength m;
     novelty_score := novelty_score m;
     complexity_score := complexity_score m;
     confidence_level := c;
     critical_thinking_score := critical_thinking_score m;
     systemic_thinking_score := systemic_thinking_score m;
     lateral_thinking_score := lateral_thinking_score m;
     strategic_score := strategic_score m;
     empathy_score := empathy_score m;
     abstraction_score := abstraction_score m;
     practicality_score := practicality_score m;
     integration_score := integration_score m;
     evolution_score := evolution_score m;
     convergence_score := convergence_score m;
     divergence_score := divergence_score m;
     reflection_score := reflection_score m |}.

(** [bool(s)] for an optional string: [None] and [""] are falsy. *)
Definition truthy_id (s : option string) : option string :=
  match s with
  | Some x => if Text.is_empty x then None else Some x
  | None => None
  end.

(** [_update_thought_relationships]: the store after the parent of
    [thought], when it is in the store, has learnt of its new child. *)
Definition _update_thought_relationships
    (store : gmap string EnhancedThought) (t : EnhancedThought)
    : gmap string EnhancedThought :=
  match truthy_id (parent_id t) with
  | Some pid =>
      match store !! pid with
      | Some parent =>
          if bool_decide (thought_id t ∈ children_ids parent) then store
          else <[pid := with_children parent (children_ids parent ++ [thought_id t])]> store
      | None => store
      end
  | None => store
  end.

(** [thought_sessions[name].append(id)] on the [defaultdict]. *)
Definition session_append (sessions : gmap string (list string))
    (name id : string) : gmap string (list string) :=
  <[name := default [] (sessions !! name) ++ [id]]> sessions.

Section Creation.
Context `{Environment}.

(** The record built by [create_thought] before it is linked and stored. *)
Definition build_thought (p : EnhancedThinkingProcessor)
    (input_data : EnhancedThinkingInput) (now : Clock) : EnhancedThought :=
  {| thought_id := snd (generate_thought_id p now);
     content := thought input_data;
     thought_type := in_thought_type input_data;
     strategy := in_strategy input_data;
     parent_id := parent_thought_id input_data;
     children_ids := [];
     branch_id := in_branch_id input_data;
     revision_of := revision_of_id input_data;
     timestamp := isoformat now;
     metrics :=
       if request_analysis input_data then
         let m := analyze_thought_quality (language p) (thought input_data)
                    (in_strategy input_data) in
         match confidence input_data with
         | Some c => with_confidence m c
         | None => m
         end
       else default_metrics;
     cognitive_biases :=
       if request_validation input_data
       then detect_cognitive_biases (language p) (thought input_data)
       else [];
     tags := in_tags input_data;
     supports := supports_thoughts input_data;
     contradicts := contradicts_thoughts input_data;
     builds_on := builds_on_thoughts input_data |}.

(** [EnhancedThinkingProcessor.create_thought]. *)
Definition create_thought (p : EnhancedThinkingProcessor)
    (input_data : EnhancedThinkingInput) (now : Clock)
    : EnhancedThinkingProcessor * EnhancedThought :=
  let t := build_thought p input_data now in
  let linked := _update_thought_relationships (thoughts p) t in
  ({| language := language p;
      thoughts := <[thought_id t := t]> linked;
      thought_sessions :=
        session_append (thought_sessions p) (current_session_id p) (thought_id t);
      current_session_id := current_session_id p;
      strategy_history := strategy_history p;
      global_thought_counter := fst (generate_thought_id p now) |},
   t).

End Creation.

(** The [while] loop of [get_thinking_path]; one unit of fuel pays for
    one iteration, [None] is fuel running out. *)
Fixpoint walk_parents (fuel : nat) (store : gmap string EnhancedThought)
    (current_thought : EnhancedThought) (path : list EnhancedThought)
    : option (list EnhancedThought) :=
  match fuel with
  | O => None
  | S fuel' =>
      let path' := current_thought :: path in
      match truthy_id (parent_id current_thought) with
      | Some pid =>
          match store !! pid with
          | Some parent => walk_parents fuel' store parent path'
          | None => Some path'
          end
      | None => Some path'
      end
  end.

(** [EnhancedThinkingProcessor.get_thinking_path]. *)
Definition get_thinking_path (fuel : nat) (p : EnhancedThinkingProcessor)
    (id : string) : option (list EnhancedThought) :=
  match thoughts p !! id with
  | None => Some []
  | Some t => walk_parents fuel (thoughts p) t []
  end.

(* ================================================================== *)
(** * Session coherence                                                *)
(* ================================================================== *)

(** Keys of the localized texts that the modelled operations return;
    [t(key, lang)] is kept as the key. *)
Inductive MessageKey :=
| ERROR_SESSION_NOT_FOUND
| ANALYSIS_NO_THOUGHTS
| ERROR_EMPTY_THOUGHT_CONTENT
| ERROR_INIT_TIMEOUT
| EXPORT_UNSUPPORTED_FORMAT
| RECOMMENDATION_BREAK_DOWN_TASK
| RECOMMENDATION_BIASES_ATTENTION
| RECOMMENDATION_STRATEGY_INEFFECTIVE.

Record SessionAnalysis := {
  coherence_score : Q;
  consistency_analysis : ConsistencyAnalysis;
  quality_trend : Q;
  average_quality : Q;
  thought_count : nat;
  cognitive_biases_detected : nat
}.

(** The three shapes of the dictionary returned by
    [analyze_session_coherence]. *)
Inductive CoherenceReport :=
| CoherenceError (error : MessageKey)
| CoherenceNoThoughts (score : Q) (analysis : MessageKey)
| CoherenceAnalysis (a : SessionAnalysis).

(** [[self.thoughts[tid] for tid in ids if tid in self.thoughts]]. *)
Definition resolve (store : gmap string EnhancedThought) (ids : list string)
    : list EnhancedThought :=
  omap (fun tid => store !! tid) ids.

Definition avg_quality (t : EnhancedThought) : Q :=
  ((clarity_score (metrics t) + logical_coherence (metrics t)
    + evidence_strength (metrics t)) / 3)%Q.

Section Coherence.
Context `{Environment}.

(** [EnhancedThinkingProcessor.analyze_session_coherence]. *)
Definition analyze_session_coherence (p : EnhancedThinkingProcessor)
    (session_id : option string) : CoherenceReport :=
  let session_id := default (current_session_id p) session_id in
  match thought_sessions p !! session_id with
  | None => CoherenceError ERROR_SESSION_NOT_FOUND
  | Some thought_ids =>
      let session_thoughts := resolve (thoughts p) thought_ids in
      let thoughts_content := content <$> session_thoughts in
      match thoughts_content with
      | [] => CoherenceNoThoughts 0 ANALYSIS_NO_THOUGHTS
      | _ =>
          let analysis := check_logical_consistency (language p) thoughts_content in
          let quality_scores := avg_quality <$> session_thoughts in
          let trend :=
            if Nat.ltb 1 (List.length quality_scores)
            then (List.last quality_scores 0 - List.hd 0 quality_scores)%Q
            else 0%Q in
          CoherenceAnalysis
            {| coherence_score :=
                 (1 - Qnat (List.length (conflicts analysis))
                      / Qnat (Nat.max (List.length thoughts_content) 1))%Q;
               consistency_analysis := analysis;
               quality_trend := trend;
               average_quality :=
                 match quality_scores with
                 | [] => 0%Q
                 | _ => (Qsum quality_scores / Qnat (List.length quality_scores))%Q
                 end;
               thought_count := List.length thoughts_content;
               cognitive_biases_detected :=
                 foldr Nat.add 0%nat
                   ((fun t => List.length (cognitive_biases t)) <$> session_thoughts) |}
      end
  end.

End Coherence.

(* ================================================================== *)
(** * Strategy recommendation                                          *)
(* ================================================================== *)

Inductive Reason :=
| HIGH_COMPLEXITY_REASON
| DETAILED_ANALYSIS_NEEDED_REASON
| AMBIGUITY_CRITICAL_ANALYSIS_REASON
| OPPOSING_VIEWPOINTS_REASON
| EMOTIONAL_CONTEXT_EMPATHETIC_REASON
| REFLECTION_NEEDED_REASON
| STRATEGY_EFFECTIVE_PREVIOUSLY_REASON
| EXPLORE_ALTERNATIVES_REASON
| ANALYZE_APPROACH_REASON
| USE_SYSTEMATIC_ANALYSIS_REASON
| APPLY_STRICT_LOGIC_REASON
| TRY_CREATIVE_APPROACH_REASON
| GENERATE_MORE_ALTERNATIVES_REASON.

Global Instance Reason_eq_dec : EqDecision Reason.
Proof. solve_decision. Defined.

(** The label returned by [_detect_domain]: [t("TEXT_DOMAIN_<NAME>")]
    for the first matching category, [t("TEXT_DOMAIN_GENERAL")] else. *)
Inductive DomainLabel := DomainOf (category : string) | DomainGeneral.

Record ContextAnalysis := {
  complexity : Q;
  ambiguity : Q;
  emotional_tone : Q;
  domain : DomainLabel
}.

Record StrategySuggestions := {
  context_analysis : ContextAnalysis;
  current_effectiveness : Q;
  suggested_strategies : list (ThinkingStrategy * Reason)
  (* ["reasoning"] is the fixed text [t("RECOMMENDATION_REASONING_SUFFIX")] *)
}.

(** The first two statements of [suggest_next_thinking_strategy]:
    [append], then [pop(0)] once the list is longer than 20. *)
Definition record_effectiveness (history : list (ThinkingStrategy * Q))
    (current_strategy : ThinkingStrategy) (effectiveness : Q)
    : list (ThinkingStrategy * Q) :=
  let history := history ++ [(current_strategy, effectiveness)] in
  if Nat.ltb 20 (List.length history) then List.tl history else history.

(** [_analyze_strategy_history]: [self.strategy_history[-5:]]. *)
Definition _analyze_strategy_history (history : list (ThinkingStrategy * Q))
    : list (ThinkingStrategy * Q) :=
  last_n 5 history.

(** Branch 4 of the recommendation assembly. *)
Definition previously_effective (analyzed : list (ThinkingStrategy * Q))
    : list (ThinkingStrategy * Reason) :=
  let successful_strategies :=
    fst <$> List.filter (fun '(_, eff) => Qltb 0.7 eff) analyzed in
  (fun strat => (strat, STRATEGY_EFFECTIVE_PREVIOUSLY_REASON))
    <$> take 2 successful_strategies.

(** Branch 5, taken only when nothing was recommended before it. *)
Definition fallback_strategies (effectiveness : Q) : list (ThinkingStrategy * Reason) :=
  if Qltb effectiveness 0.5 then
    [(TREE, EXPLORE_ALTERNATIVES_REASON); (DIALECTICAL, OPPOSING_VIEWPOINTS_REASON);
     (METACOGNITIVE, ANALYZE_APPROACH_REASON)]
  else if Qltb effectiveness 0.7 then
    [(SYSTEMATIC, USE_SYSTEMATIC_ANALYSIS_REASON); (ANALYTICAL, APPLY_STRICT_LOGIC_REASON)]
  else
    [(CREATIVE, TRY_CREATIVE_APPROACH_REASON); (DIVERGENT, GENERATE_MORE_ALTERNATIVES_REASON)].

Section Recommendation.
Context `{Environment}.

Definition _analyze_complexity (text : string) : Q :=
  if Text.is_empty (Text.strip text) then 0%Q
  else
    let word_count := List.length (Text.split text) in
    let long_word_count :=
      count_if (fun word => Nat.ltb 7 (Text.len word)) (Text.split text) in
    let sentence_count := List.length (Text.re_split_sentences text) in
    if Nat.eqb sentence_count 0 then 0%Q
    else
      let c := if Nat.ltb 0 word_count
               then ((Qnat long_word_count / Qnat word_count)
                     * (Qnat word_count / Qnat sentence_count))%Q
               else 0%Q in
      Qmin 1 (c / 5).

Definition _analyze_ambiguity (lang : Language) (text : string) : Q :=
  let count := count_if (fun marker => Text.contains marker (lower text))
                        (AMBIGUITY_MARKERS lang) in
  let word_count := List.length (Text.split text) in
  Qmin 1 (if Nat.ltb 0 word_count
          then (Qnat count / (Qnat word_count * 0.1))%Q else 0%Q).

Definition _analyze_emotional_tone (lang : Language) (text : string) : Q :=
  let text_lower := lower text in
  let has := fun word => Text.contains word text_lower in
  let positive_score := count_if has (positive_words (EMOTIONAL_WORDS lang)) in
  let negative_score := count_if has (negative_words (EMOTIONAL_WORDS lang)) in
  let total_score := (positive_score + negative_score)%nat in
  if Nat.eqb total_score 0 then 0%Q
  else (Qabs (inject_Z (Z.of_nat positive_score - Z.of_nat negative_score))
        / Qnat total_score)%Q.

Fixpoint first_domain (text_lower : string) (items : list (string * list string))
    : DomainLabel :=
  match items with
  | [] => DomainGeneral
  | (category, keywords) :: items' =>
      if existsb (fun keyword => Text.contains keyword text_lower) keywords
      then DomainOf category
      else first_domain text_lower items'
  end.

Definition _detect_domain (lang : Language) (text : string) : DomainLabel :=
  first_domain (lower text) (DOMAIN_KEYWORDS lang).

Definition analyze_context (lang : Language) (text : string) : ContextAnalysis :=
  {| complexity := _analyze_complexity text;
     ambiguity := _analyze_ambiguity lang text;
     emotional_tone := _analyze_emotional_tone lang text;
     domain := _detect_domain lang text |}.

(** Branches 1 to 3, driven by the context analysis. *)
Definition context_strategies (ca : ContextAnalysis) : list (ThinkingStrategy * Reason) :=
  (if Qltb 0.7 (complexity ca)
   then [(SYSTEMIC, HIGH_COMPLEXITY_REASON); (ANALYTICAL, DETAILED_ANALYSIS_NEEDED_REASON)]
   else [])
  ++ (if Qltb 0.6 (ambiguity ca)
      then [(CRITICAL, AMBIGUITY_CRITICAL_ANALYSIS_REASON);
            (DIALECTICAL, OPPOSING_VIEWPOINTS_REASON)]
      else [])
  ++ (if Qltb 0.5 (emotional_tone ca)
      then [(EMPATHETIC, EMOTIONAL_CONTEXT_EMPATHETIC_REASON);
            (REFLECTIVE, REFLECTION_NEEDED_REASON)]
      else []).

(** [EnhancedThinkingProcessor.suggest_next_thinking_strategy]. *)
Definition suggest_next_thinking_strategy (p : EnhancedThinkingProcessor)
    (context_text : string) (effectiveness : Q) (current_strategy : ThinkingStrategy)
    : EnhancedThinkingProcessor * StrategySuggestions :=
  let history := record_effectiveness (strategy_history p) current_strategy effectiveness in
  let ca := analyze_context (language p) context_text in
  let recommendations :=
    context_strategies ca
    ++ previously_effective (_analyze_strategy_history history) in
  let recommendations :=
    match recommendations with
    | [] => fallback_strategies effectiveness
    | _ => recommendations
    end in
  ({| language := language p;
      thoughts := thoughts p;
      thought_sessions := thought_sessions p;
      current_session_id := current_session_id p;
      strategy_history := history;
      global_thought_counter := global_thought_counter p |},
   {| context_analysis := ca;
      current_effectiveness := effectiveness;
      suggested_strategies := recommendations |}).

End Recommendation.

(* ================================================================== *)
(** * Metacognitive analysis                                           *)
(* ================================================================== *)

(** [d[k] += 1] on a [defaultdict(int)] kept in insertion order. *)
Fixpoint bump {K : Type} `{EqDecision K} (k : K) (d : list (K * nat)) : list (K * nat) :=
  match d with
  | [] => [(k, 1%nat)]
  | (k', n) :: d' => if decide (k' = k) then (k', S n) :: d' else (k', n) :: bump k d'
  end.

(** [max(d.items(), key=lambda x: x[1])]: the first entry of greatest count. *)
Fixpoint dominant {K : Type} (d : list (K * nat)) : option (K * nat) :=
  match d with
  | [] => None
  | (k, n) :: d' =>
      match dominant d' with
      | Some (k', n') => if Nat.ltb n n' then Some (k', n') else Some (k, n)
      | None => Some (k, n)
      end
  end.

Record ThinkingPatterns := {
  thought_type_distribution : list (ThoughtType * nat);
  strategy_distribution : list (ThinkingStrategy * nat);
  dominant_type : option ThoughtType;
  dominant_strategy : option ThinkingStrategy
}.

Record BiasAssessment := {
  total_biases : nat;
  unique_biases : nat;
  detected_biases : gset string;          (* [list(set(all_biases))] *)
  bias_distribution : list (string * nat);
  bias_density : Q
}.

Record MetacognitiveAnalysis := {
  focus_area : string;
  thinking_patterns : ThinkingPatterns;
  strategy_effectiveness : Q;
  cognitive_load : Q;
  bias_assessment : BiasAssessment;
  recommendations : list MessageKey
}.

Inductive MetacognitiveReport :=
| MetaNoThoughts (analysis : MessageKey)    (* with ["recommendations": []] *)
| MetaAnalysis (a : MetacognitiveAnalysis).

(** Called on a non-empty list only; the guard [if not thoughts] of the
    source is the empty distribution here. *)
Definition _analyze_thinking_patterns (ts : list EnhancedThought) : ThinkingPatterns :=
  let type_distribution := foldl (fun d t => bump (thought_type t) d) [] ts in
  let strategy_dist := foldl (fun d t => bump (strategy t) d) [] ts in
  {| thought_type_distribution := type_distribution;
     strategy_distribution := strategy_dist;
     dominant_type := fst <$> dominant type_distribution;
     dominant_strategy := fst <$> dominant strategy_dist |}.

Definition _evaluate_strategy_effectiveness (ts : list EnhancedThought) : Q :=
  match ts with
  | [] => 0%Q
  | _ =>
      let quality := fun t =>
        ((clarity_score (metrics t) + logical_coherence (metrics t)
          + evidence_strength (metrics t) + novelty_score (metrics t)) / 4)%Q in
      (foldl (fun total t => total + quality t) 0 ts / Qnat (List.length ts))%Q
  end.

Definition _assess_cognitive_load (ts : list EnhancedThought) : Q :=
  match ts with
  | [] => 0%Q
  | _ =>
      let total_complexity := Qsum ((fun t => complexity_score (metrics t)) <$> ts) in
      let avg_complexity := (total_complexity / Qnat (List.length ts))%Q in
      let connections := fun t =>
        (List.length (supports t) + List.length (contradicts t)
         + List.length (builds_on t))%nat in
      let connection_complexity :=
        foldl (fun total t => total + Qnat (connections t) / 10)%Q 0%Q ts in
      let avg_connection_complexity := (connection_complexity / Qnat (List.length ts))%Q in
      Qmin 1 ((avg_complexity + avg_connection_complexity) / 2)
  end.

Definition _assess_cognitive_biases (ts : list EnhancedThought) : BiasAssessment :=
  let all_biases := ts ≫= cognitive_biases in
  {| total_biases := List.length all_biases;
     unique_biases := size (list_to_set all_biases : gset string);
     detected_biases := list_to_set all_biases;
     bias_distribution := foldl (fun d b => bump b d) [] all_biases;
     bias_density :=
       match ts with
       | [] => 0%Q
       | _ => (Qnat (List.length all_biases) / Qnat (List.length ts))%Q
       end |}.

(** Reading [thought_sessions[name]] on the [defaultdict]: a missing
    name is entered with an empty list. *)
Definition session_touch (sessions : gmap string (list string)) (name : string)
    : gmap string (list string) :=
  match sessions !! name with
  | Some _ => sessions
  | None => <[name := []]> sessions
  end.

(** [EnhancedThinkingProcessor.perform_metacognitive_analysis]. *)
Definition perform_metacognitive_analysis (p : EnhancedThinkingProcessor)
    (focus : string) (depth : Z) : EnhancedThinkingProcessor * MetacognitiveReport :=
  let p' := {| language := language p;
               thoughts := thoughts p;
               thought_sessions := session_touch (thought_sessions p) (current_session_id p);
               current_session_id := current_session_id p;
               strategy_history := strategy_history p;
               global_thought_counter := global_thought_counter p |} in
  let session_thoughts :=
    resolve (thoughts p) (default [] (thought_sessions p !! current_session_id p)) in
  (p',
   match session_thoughts with
   | [] => MetaNoThoughts ANALYSIS_NO_THOUGHTS
   | _ =>
       let patterns := _analyze_thinking_patterns session_thoughts in
       let effectiveness := _evaluate_strategy_effectiveness session_thoughts in
       let load := _assess_cognitive_load session_thoughts in
       let biases := _assess_cognitive_biases session_thoughts in
       MetaAnalysis
         {| focus_area := focus;
            thinking_patterns := patterns;
            strategy_effectiveness := effectiveness;
            cognitive_load := load;
            bias_assessment := biases;
            recommendations :=
              (if Qltb 0.7 load then [RECOMMENDATION_BREAK_DOWN_TASK] else [])
              ++ (if Nat.ltb 3 (size (detected_biases biases))
                  then [RECOMMENDATION_BIASES_ATTENTION] else [])
              ++ (if Qltb effectiveness 0.5
                  then [RECOMMENDATION_STRATEGY_INEFFECTIVE] else []) |}
   end).

(* ================================================================== *)
(** * The server tools                                                 *)
(* ================================================================== *)

(** The state of [EnhancedThinkingServer].  The output formatter only
    renders text for the console; of it the model keeps the language,
    which every tool restores before it returns. *)
Record EnhancedThinkingServer := {
  server_language : Language;
  _initialized : bool;
  thinking_processor : EnhancedThinkingProcessor;
  formatter_language : Language
}.

Definition with_processor (srv : EnhancedThinkingServer)
    (p : EnhancedThinkingProcessor) : EnhancedThinkingServer :=
  {| server_language := server_language srv;
     _initialized := _initialized srv;
     thinking_processor := p;
     formatter_language := formatter_language srv |}.

(** [ensure_initialized]: [true] when the tool may go on, [false] when
    the wait of ten seconds ends in [RuntimeError(ERROR_INIT_TIMEOUT)].
    [event_in_time] tells whether the initialization event arrives
    during the wait. *)
Definition ensure_initialized (srv : EnhancedThinkingServer) (event_in_time : bool) : bool :=
  _initialized srv || event_in_time.

(** The payload of [enhanced_thinking]: the fields of the created
    thought, or [{"input": {"error": ..., "status": "failed"}}]. *)
Inductive ThinkingResult :=
| ThoughtCreated (t : EnhancedThought)
| ThinkingFailed (error : MessageKey).

Record ExportedThought := {
  ex_id : string;
  ex_content : string;
  ex_type : ThoughtType;
  ex_strategy : ThinkingStrategy;
  ex_timestamp : string;
  ex_metrics : ThoughtMetrics;
  ex_biases : list string;
  ex_parent : option string;
  ex_children : list string;
  ex_supports : list string;
  ex_contradicts : list string;
  ex_tags : list string
}.

Definition export_thought (t : EnhancedThought) : ExportedThought :=
  {| ex_id := thought_id t; ex_content := content t; ex_type := thought_type t;
     ex_strategy := strategy t; ex_timestamp := timestamp t;
     ex_metrics := metrics t; ex_biases := cognitive_biases t;
     ex_parent := parent_id t; ex_children := children_ids t;
     ex_supports := supports t; ex_contradicts := contradicts t;
     ex_tags := tags t |}.

Record SessionSummary := {
  summary_session_id : string;
  total_thoughts : nat;
  summary_coherence_score : Q;
  summary_quality_trend : Q;
  summary_average_quality : Q;
  summary_cognitive_biases_detected : nat
}.

(** The payloads of [export_thinking_session]. *)
Inductive ExportResult :=
| ExportError (error : MessageKey)                       (* [{"error": ...}] *)
| ExportJson (session_id export_timestamp : string)
             (thought_count : nat) (exported : list ExportedThought)
| ExportMarkdown (session_id date : string) (rendered : list EnhancedThought)
| ExportSummary (s : SessionSummary)
| ExportFailed (error : MessageKey).  (* [{"input": {"error": ..., "status": "failed"}}] *)

(** [not text or len(text.strip()) == 0]. *)
Definition is_blank (text : string) : bool :=
  Text.is_empty text || Nat.eqb (Text.len (Text.strip text)) 0.

Section Tools.
Context `{Environment}.

(** The tool [enhanced_thinking]. *)
Definition enhanced_thinking (srv : EnhancedThinkingServer)
    (input : EnhancedThinkingInput) (now : Clock) (event_in_time : bool)
    : EnhancedThinkingServer * ThinkingResult :=
  if negb (ensure_initialized srv event_in_time)
  then (srv, ThinkingFailed ERROR_INIT_TIMEOUT)
  else if is_blank (thought input)
  then (srv, ThinkingFailed ERROR_EMPTY_THOUGHT_CONTENT)
  else
    let '(p, t) := create_thought (thinking_processor srv) input now in
    (with_processor srv p, ThoughtCreated t).

Definition summary_of (session_id : string) (total : nat) (r : CoherenceReport)
    : SessionSummary :=
  match r with
  | CoherenceAnalysis a =>
      {| summary_session_id := session_id; total_thoughts := total;
         summary_coherence_score := coherence_score a;
         summary_quality_trend := quality_trend a;
         summary_average_quality := average_quality a;
         summary_cognitive_biases_detected := cognitive_biases_detected a |}
  | CoherenceNoThoughts score _ =>
      {| summary_session_id := session_id; total_thoughts := total;
         summary_coherence_score := score;
         summary_quality_trend := 0; summary_average_quality := 0;
         summary_cognitive_biases_detected := 0 |}
  | CoherenceError _ =>
      {| summary_session_id := session_id; total_thoughts := total;
         summary_coherence_score := 0;
         summary_quality_trend := 0; summary_average_quality := 0;
         summary_cognitive_biases_detected := 0 |}
  end.

(** The tool [export_thinking_session]; it leaves the server as it is. *)
Definition export_thinking_session (srv : EnhancedThinkingServer)
    (session_id : option string) (format_type : string) (now : Clock)
    (event_in_time : bool) : ExportResult :=
  if negb (ensure_initialized srv event_in_time) then ExportFailed ERROR_INIT_TIMEOUT
  else
    let p := thinking_processor srv in
    let session_id := default (current_session_id p) session_id in
    match thought_sessions p !! session_id with
    | None => ExportError ERROR_SESSION_NOT_FOUND
    | Some thought_ids =>
        let ts := resolve (thoughts p) thought_ids in
        if bool_decide (format_type = "json") then
          ExportJson session_id (isoformat now) (List.length ts) (export_thought <$> ts)
        else if bool_decide (format_type = "markdown") then
          ExportMarkdown session_id (isoformat now) ts
        else if bool_decide (format_type = "summary") then
          ExportSummary
            (summary_of session_id (List.length ts)
               (analyze_session_coherence p (Some session_id)))
        else ExportError EXPORT_UNSUPPORTED_FORMAT
    end.

(** The requests that change the processor, as the tools pass them on. *)
Inductive Request :=
| Think (input : EnhancedThinkingInput) (now : Clock)
| Reflect (focus : string) (depth : Z)
| Adapt (current_strategy : ThinkingStrategy) (effectiveness : Q) (context_text : string).

Definition serve (p : EnhancedThinkingProcessor) (r : Request)
    : EnhancedThinkingProcessor :=
  match r with
  | Think input now =>
      if is_blank (thought input) then p
      else fst (create_thought p input now)
  | Reflect focus depth => fst (perform_metacognitive_analysis p focus depth)
  | Adapt strat eff ctx => fst (suggest_next_thinking_strategy p ctx eff strat)
  end.

Definition run (p : EnhancedThinkingProcessor) (rs : list Request)
    : EnhancedThinkingProcessor :=
  foldl serve p rs.

(** The processors that a server started in some language can hold. *)
Definition reachable (p : EnhancedThinkingProcessor) : Prop :=
  exists lang rs, p = run (new_processor lang) rs.

(** The (strategy, effectiveness) pairs that a run of requests records. *)
Definition recorded (rs : list Request) : list (ThinkingStrategy * Q) :=
  rs ≫= fun r => match r with Adapt strat eff _ => [(strat, eff)] | _ => [] end.

End Tools.

(* ================================================================== *)
(** * The marker tables of [localization_markers.py]                   *)
(* ================================================================== *)

(** The tables as the source file has them, entry by entry and in its
    order.  Text outside ASCII is held as its UTF-8 bytes. *)
Module Markers.

Definition COGNITIVE_BIAS_MARKERS_en : list (string * BiasData) :=
  [("confirmation bias",
    {| markers := ["always"; "never"; "absolutely"; "definitely"; "undoubtedly";
                    "unquestionably"; "obviously"];
       context := ["assertion"; "without evidence"] |});
   ("black-and-white thinking",
    {| markers := ["either"; "or"; "only"; "exclusively"; "all"; "nothing";
                    "completely"];
       context := ["extremes"; "lack of nuance"] |});
   ("emotional reasoning",
    {| markers := ["feel"; "seems"; "sense"; "think"; "believe"; "hope"; "fear"];
       context := ["emotions"; "without facts"] |});
   ("hasty generalization",
    {| markers := ["all"; "every"; "no one"; "always"; "never"; "everywhere";
                    "nowhere"];
       context := ["generalization"; "few examples"] |})].

Definition COGNITIVE_BIAS_MARKERS_ru : list (string * BiasData) :=
  [("подтверждающее искажение",
    {| markers := ["всегда"; "никогда"; "абсолютно"; "точно"; "безусловно";
                    "несомненно"; "очевидно"];
       context := ["утверждение"; "без доказательств"] |});
   ("черно-белое мышление",
    {| markers := ["либо"; "или"; "только"; "исключительно"; "все"; "ничего";
                    "полностью"];
       context := ["крайности"; "отсутствие градаций"] |});
   ("эмоциональное рассуждение",
    {| markers := ["чувствую"; "кажется"; "ощущаю"; "думаю"; "верю"; "надеюсь";
                    "боюсь"];
       context := ["эмоции"; "без фактов"] |});
   ("поспешные обобщения",
    {| markers := ["все"; "каждый"; "никто"; "всегда"; "никогда"; "везде"; "нигде"];
       context := ["обобщение"; "мало примеров"] |})].

Definition CONTRADICTION_WORDS_en : list (string * string) :=
  [("not", "yes"); ("no", "yes"); ("bad", "good");
   ("impossible", "possible"); ("incorrect", "correct")].

Definition CONTRADICTION_WORDS_ru : list (string * string) :=
  [("не", "да"); ("нет", "да"); ("плохо", "хорошо");
   ("невозможно", "возможно"); ("неверно", "верно")].

Definition LOGICAL_CONNECTORS_en : list string :=
  ["therefore"; "consequently"; "thus"; "as a result"; "however";
   "but"; "nevertheless"; "on the other hand"; "firstly";
   "secondly"; "additionally"; "moreover"].

Definition LOGICAL_CONNECTORS_ru : list string :=
  ["поэтому"; "следовательно"; "таким образом"; "в результате";
   "однако"; "но"; "тем не менее"; "с другой стороны"; "во-первых";
   "во-вторых"; "кроме того"; "более того"].

Definition EVIDENCE_PATTERNS_en : list string :=
  ["\d+%"; "\d+\.\d+"; "research"; "data"; "statistics"; "fact";
   "evidence"; "example"; "case"].

Definition EVIDENCE_PATTERNS_ru : list string :=
  ["\d+%"; "\d+\.\d+"; "исследование"; "данные"; "статистика";
   "факт"; "доказательство"; "пример"; "случай"].

Definition UNCERTAINTY_MARKERS_en : list string :=
  ["possibly"; "probably"; "seems"; "might be"; "I assume"].

Definition UNCERTAINTY_MARKERS_ru : list string :=
  ["возможно"; "вероятно"; "кажется"; "может быть"; "предположу"].

Definition CERTAINTY_MARKERS_en : list string :=
  ["definitely"; "surely"; "undoubtedly"; "obviously";
   "unquestionably"].

Definition CERTAINTY_MARKERS_ru : list string :=
  ["определенно"; "точно"; "безусловно"; "очевидно"; "несомненно"].

Definition AMBIGUITY_MARKERS_en : list string :=
  ["unclear"; "undefined"; "may be"; "possibly"; "if"; "or";
   "ambiguous"; "vague"].

Definition AMBIGUITY_MARKERS_ru : list string :=
  ["неясно"; "неопределенно"; "может быть"; "возможно"; "если";
   "или"; "неоднозначно"; "смутно"].

Definition CRITICAL_MARKERS_en : StrategyMarkers :=
  {| categories :=
       [("argumentation",
        ["because"; "therefore"; "thus"; "this proves"; "based on";
         "stemming from"]);
        ("evaluation",
        ["reliability"; "validity"; "justification"; "verification";
         "confirmation"; "substantiation"]);
        ("analysis",
        ["consider"; "analyze"; "investigate"; "break down"; "examine";
         "evaluate"]);
        ("refutation",
        ["refutes"; "contradicts"; "inconsistent with"; "raises doubts";
         "requires verification"])];
     structure_keywords := Some [("if", "then"); ("although", "but"); ("despite", "yet")] |}.

Definition CRITICAL_MARKERS_ru : StrategyMarkers :=
  {| categories :=
       [("argumentation",
        ["потому что"; "следовательно"; "таким образом"; "это доказывает";
         "на основе"; "исходя из"]);
        ("оценка",
        ["надежность"; "достоверность"; "обоснованность"; "проверка";
         "верификация"; "подтверждение"]);
        ("анализ",
        ["рассмотрим"; "проанализируем"; "исследуем"; "разберем";
         "изучим"; "оценим"]);
        ("опровержение",
        ["опровергает"; "противоречит"; "не согласуется";
         "вызывает сомнения"; "требует проверки"])];
     structure_keywords := Some [("если", "то"); ("хотя", "но"); ("несмотря на", "все же")] |}.

Definition SYSTEMIC_MARKERS_en : StrategyMarkers :=
  {| categories :=
       [("interconnections",
        ["interconnection"; "link between"; "affects"; "depends on";
         "components"; "system elements"]);
        ("structure",
        ["structure"; "organization"; "hierarchy"; "subsystem"]);
        ("dynamics",
        ["cycle"; "feedback loop"; "system behavior"; "emergence"]);
        ("boundaries",
        ["system boundaries"; "external environment"; "internal factors"]);
        ("causal_keywords",
        ["cause"; "effect"; "leads to"])];
     structure_keywords := None |}.

Definition SYSTEMIC_MARKERS_ru : StrategyMarkers :=
  {| categories :=
       [("interconnections",
        ["взаимосвязь"; "связь между"; "влияет на"; "зависит от";
         "компоненты"; "элементы системы"]);
        ("structure",
        ["структура"; "организация"; "иерархия"; "подсистема"]);
        ("dynamics",
        ["цикл"; "обратная связь"; "поведение системы"; "эмерджентность"]);
        ("boundaries",
        ["границы системы"; "внешняя среда"; "внутренние факторы"]);
        ("causal_keywords",
        ["причина"; "следствие"; "приводит к"])];
     structure_keywords := None |}.

Definition LATERAL_MARKERS_en : StrategyMarkers :=
  {| categories :=
       [("analogies",
        ["analogy"; "similar to"; "as if"; "metaphor"]);
        ("re-framing",
        ["re-evaluate"; "new perspective"; "unconventional";
         "different view"]);
        ("provocation",
        ["what if"; "imagine"; "and if"]);
        ("random associations",
        ["random word"; "unrelated"; "sudden idea"]);
        ("question_phrases",
        ["why not"; "what if"])];
     structure_keywords := None |}.

Definition LATERAL_MARKERS_ru : StrategyMarkers :=
  {| categories :=
       [("аналогии",
        ["аналогия"; "похоже на"; "как будто"; "метафора"]);
        ("переосмысление",
        ["переосмыслить"; "по-новому"; "нестандартно"; "другой взгляд"]);
        ("провокация",
        ["что если"; "представим"; "а если бы"]);
        ("случайные ассоциации",
        ["случайное слово"; "не связано"; "внезапная идея"]);
        ("question_phrases",
        ["почему бы не"; "а что если"])];
     structure_keywords := None |}.

Definition STRATEGIC_MARKERS_en : StrategyMarkers :=
  {| categories :=
       [("goals",
        ["goal"; "objective"; "outcome"; "achieve"]);
        ("planning",
        ["plan"; "strategy"; "stages"; "actions"; "steps"]);
        ("future",
        ["long-term"; "perspective"; "future"; "forecast"; "scenario"]);
        ("resources",
        ["resources"; "budget"; "time"; "people"; "assets"]);
        ("risks_opportunities",
        ["risk"; "opportunity"; "threat"; "potential"]);
        ("priority_keywords",
        ["priority"; "choice"])];
     structure_keywords := None |}.

Definition STRATEGIC_MARKERS_ru : StrategyMarkers :=
  {| categories :=
       [("цели",
        ["цель"; "задача"; "результат"; "достичь"]);
        ("планирование",
        ["план"; "стратегия"; "этапы"; "действия"; "шаги"]);
        ("будущее",
        ["долгосрочный"; "перспектива"; "будущее"; "прогноз"; "сценарий"]);
        ("ресурсы",
        ["ресурсы"; "бюджет"; "время"; "люди"; "активы"]);
        ("риски_возможности",
        ["риск"; "возможность"; "угроза"; "потенциал"]);
        ("priority_keywords",
        ["приоритет"; "выбор"])];
     structure_keywords := None |}.

Definition EMPATHETIC_MARKERS_en : StrategyMarkers :=
  {| categories :=
       [("perspective",
        ["viewpoint"; "position"; "through someone's eyes"]);
        ("feelings",
        ["feelings"; "emotions"; "experiences"; "sensations"]);
        ("motivation",
        ["motivation"; "needs"; "desires"; "why"]);
        ("understanding",
        ["understand"; "see"; "realize"; "imagine"]);
        ("pronouns",
        ["we"; "they"; "their"]);
        ("people_refs",
        ["people"; "clients"; "users"])];
     structure_keywords := None |}.

Definition EMPATHETIC_MARKERS_ru : StrategyMarkers :=
  {| categories :=
       [("перспектива",
        ["точка зрения"; "позиция"; "глазами кого-то"]);
        ("чувства",
        ["чувства"; "эмоции"; "переживания"; "ощущения"]);
        ("мотивация",
        ["мотивация"; "потребности"; "желания"; "почему"]);
        ("понимание",
        ["понять"; "увидеть"; "осознать"; "представить"]);
        ("pronouns",
        ["мы"; "они"; "их"]);
        ("people_refs",
        ["люди"; "клиенты"; "пользователи"])];
     structure_keywords := None |}.

Definition ABSTRACT_MARKERS_en : StrategyMarkers :=
  {| categories :=
       [("concepts",
        ["concept"; "idea"; "principle"; "theory"; "model"]);
        ("generalization",
        ["generalization"; "abstraction"; "general"; "universal"]);
        ("classification",
        ["classification"; "category"; "type"; "kind"]);
        ("symbols",
        ["symbol"; "sign"; "representation"]);
        ("specific_examples_negators",
        ["for example"; "specifically"])];
     structure_keywords := None |}.

Definition ABSTRACT_MARKERS_ru : StrategyMarkers :=
  {| categories :=
       [("концепции",
        ["концепция"; "идея"; "принцип"; "теория"; "модель"]);
        ("обобщение",
        ["обобщение"; "абстракция"; "общий"; "универсальный"]);
        ("классификация",
        ["классификация"; "категория"; "тип"; "вид"]);
        ("символы",
        ["символ"; "знак"; "представление"]);
        ("specific_examples_negators",
        ["например"; "конкретно"])];
     structure_keywords := None |}.

Definition PRACTICAL_MARKERS_en : StrategyMarkers :=
  {| categories :=
       [("action",
        ["action"; "implementation"; "application"; "do"; "execute"]);
        ("result",
        ["result"; "effect"; "benefit"; "advantage"; "achievement"]);
        ("resources",
        ["resources"; "budget"; "time"; "tools"; "materials"]);
        ("constraints",
        ["constraint"; "obstacle"; "difficulty"; "opportunity"]);
        ("action_verbs",
        ["create"; "develop"; "implement"; "optimize"; "improve"])];
     structure_keywords := None |}.

Definition PRACTICAL_MARKERS_ru : StrategyMarkers :=
  {| categories :=
       [("действие",
        ["действие"; "реализация"; "применение"; "сделать"; "выполнить"]);
        ("результат",
        ["результат"; "эффект"; "польза"; "выгода"; "достижение"]);
        ("ресурсы",
        ["ресурсы"; "бюджет"; "время"; "инструменты"; "материалы"]);
        ("ограничения",
        ["ограничение"; "препятствие"; "сложность"; "возможность"]);
        ("action_verbs",
        ["создать"; "разработать"; "внедрить"; "оптимизировать"; "улучшить"])];
     structure_keywords := None |}.

Definition INTEGRATIVE_MARKERS_en : StrategyMarkers :=
  {| categories :=
       [("synthesis",
        ["integration"; "synthesis"; "combination"; "fusion"; "holistic";
         "unified"; "merger"]);
        ("diversity",
        ["different viewpoints"; "different approaches"; "multifaceted";
         "diversity"; "includes"]);
        ("balance",
        ["balance"; "harmony"; "compromise"; "coordination";
         "optimal combination"]);
        ("bonus_keywords",
        ["win-win"; "synergy"])];
     structure_keywords := None |}.

Definition INTEGRATIVE_MARKERS_ru : StrategyMarkers :=
  {| categories :=
       [("синтез",
        ["интеграция"; "синтез"; "объединение"; "комбинация"; "целостный";
         "единый"; "слияние"]);
        ("разнообразие",
        ["различные точки зрения"; "разные подходы"; "многосторонний";
         "разнообразие"; "включает в себя"]);
        ("баланс",
        ["баланс"; "гармония"; "компромисс"; "согласование";
         "оптимальное сочетание"]);
        ("bonus_keywords",
        ["win-win"; "синергия"])];
     structure_keywords := None |}.

Definition EVOLUTIONARY_MARKERS_en : StrategyMarkers :=
  {| categories :=
       [("development",
        ["development"; "evolution"; "progress"; "growth"; "change"]);
        ("adaptation",
        ["adaptation"; "adjustment"; "flexibility"; "response to changes"]);
        ("iteration",
        ["iteration"; "repetition"; "cycle"; "gradually"; "phases"]);
        ("feedback",
        ["feedback"; "lessons"; "experience"; "correction"]);
        ("bonus_keywords",
        ["learning"; "improvement"])];
     structure_keywords := None |}.

Definition EVOLUTIONARY_MARKERS_ru : StrategyMarkers :=
  {| categories :=
       [("развитие",
        ["развитие"; "эволюция"; "прогресс"; "рост"; "изменение"]);
        ("адаптация",
        ["адаптация"; "приспособление"; "гибкость"; "реакция на изменения"]);
        ("итерация",
        ["итерация"; "повторение"; "цикл"; "постепенно"; "фазы"]);
        ("обратная_связь",
        ["обратная связь"; "уроки"; "опыт"; "корректировка"]);
        ("bonus_keywords",
        ["обучение"; "улучшение"])];
     structure_keywords := None |}.

Definition CONVERGENT_MARKERS_en : StrategyMarkers :=
  {| categories :=
       [("choice",
        ["choice"; "decision"; "optimal"; "best"; "single"]);
        ("criteria",
        ["criteria"; "evaluation"; "comparison"; "analysis"; "filter"]);
        ("narrowing",
        ["narrowing"; "focus"; "specific"; "particular"]);
        ("conclusion",
        ["conclusion"; "inference"; "summary"; "result"]);
        ("logical_connectors_leading_to_conclusion",
        ["thus"; "therefore"; "consequently"])];
     structure_keywords := None |}.

Definition CONVERGENT_MARKERS_ru : StrategyMarkers :=
  {| categories :=
       [("выбор",
        ["выбор"; "решение"; "оптимальный"; "лучший"; "единственный"]);
        ("критерии",
        ["критерии"; "оценка"; "сравнение"; "анализ"; "фильтр"]);
        ("сужение",
        ["сужение"; "фокус"; "конкретный"; "специфический"]);
        ("заключение",
        ["заключение"; "вывод"; "итог"; "результат"]);
        ("logical_connectors_leading_to_conclusion",
        ["таким образом"; "следовательно"; "поэтому"])];
     structure_keywords := None |}.

Definition DIVERGENT_MARKERS_en : StrategyMarkers :=
  {| categories :=
       [("generation",
        ["generation"; "idea"; "option"; "alternative"; "suggestion"]);
        ("expansion",
        ["expansion"; "multitude"; "variety"; "more"; "new"]);
        ("brainstorming",
        ["brainstorming"; "creativity"; "unconventional"; "creative"]);
        ("exploration",
        ["exploration"; "study"; "search"; "discovery"]);
        ("question_phrases",
        ["how else can"; "what if"])];
     structure_keywords := None |}.

Definition DIVERGENT_MARKERS_ru : StrategyMarkers :=
  {| categories :=
       [("генерация",
        ["генерация"; "идея"; "вариант"; "альтернатива"; "предложение"]);
        ("расширение",
        ["расширение"; "множество"; "разнообразие"; "больше"; "новые"]);
        ("мозговой_штурм",
        ["мозговой штурм"; "креативность"; "нестандартный"; "творческий"]);
        ("исследование",
        ["исследование"; "изучение"; "поиск"; "открытие"]);
        ("question_phrases",
        ["как еще можно"; "что если"])];
     structure_keywords := None |}.

Definition REFLECTIVE_MARKERS_en : StrategyMarkers :=
  {| categories :=
       [("self_analysis",
        ["reflection"; "self-analysis"; "contemplation"; "my experience";
         "I think"]);
        ("lessons",
        ["lesson"; "conclusion"; "experience"; "extract"; "learn"]);
        ("process",
        ["thinking process"; "how I thought"; "my approach"; "strategy"]);
        ("reassessment",
        ["reassessment"; "re-evaluation"; "adjustment"; "change of mind"]);
        ("bonus_keywords",
        ["future improvement"; "reapplication"])];
     structure_keywords := None |}.

Definition REFLECTIVE_MARKERS_ru : StrategyMarkers :=
  {| categories :=
       [("самоанализ",
        ["рефлексия"; "самоанализ"; "осмысление"; "мой опыт"; "я думаю"]);
        ("уроки",
        ["урок"; "вывод"; "опыт"; "извлечь"; "научиться"]);
        ("процесс",
        ["процесс мышления"; "как я думал"; "мой подход"; "стратегия"]);
        ("переоценка",
        ["переоценка"; "переосмысление"; "корректировка";
         "изменение мнения"]);
        ("bonus_keywords",
        ["будущего улучшения"; "повторного применения"])];
     structure_keywords := None |}.

Definition DOMAIN_KEYWORDS_en : list (string * list string) :=
  [("programming",
    ["code"; "program"; "algorithm"; "software"; "development"; "bug";
     "feature"]);
   ("business",
    ["marketing"; "sales"; "client"; "revenue"; "profit"; "strategy";
     "market"]);
   ("science",
    ["science"; "research"; "data"; "experiment"; "theory";
     "hypothesis"; "analysis"]);
   ("general",
    ["general"])].

Definition DOMAIN_KEYWORDS_ru : list (string * list string) :=
  [("programming",
    ["код"; "программа"; "алгоритм"; "разработка"; "баг"; "фича"]);
   ("business",
    ["маркетинг"; "продажи"; "клиент"; "доход"; "прибыль";
     "стратегия"; "рынок"]);
   ("science",
    ["наука"; "исследование"; "данные"; "эксперимент"; "теория";
     "гипотеза"; "анализ"]);
   ("general",
    ["общее"])].

Definition EMOTIONAL_WORDS_en : EmotionalWords :=
  {| positive_words := ["good"; "excellent"; "great"; "success"; "joy"; "happy";
                       "positive"; "optimistic"];
     negative_words := ["bad"; "terrible"; "failure"; "sadness"; "problem"; "unhappy";
                       "negative"; "pessimistic"] |}.

Definition EMOTIONAL_WORDS_ru : EmotionalWords :=
  {| positive_words := ["хорошо"; "отлично"; "прекрасно"; "успех"; "радость"; "счастлив";
                       "позитивно"; "оптимистично"];
     negative_words := ["плохо"; "ужасно"; "провал"; "грусть"; "проблема"; "несчастлив";
                       "негативно"; "пессимистично"] |}.

End Markers.

(** ** An environment without the optional analysis libraries *)

Definition is_ascii_digit (c : ascii) : bool :=
  let n := nat_of_ascii c in Nat.leb 48 n && Nat.leb n 57.

(** A digit directly followed by the character [c]. *)
Fixpoint digit_before (c : ascii) (s : string) : bool :=
  match s with
  | String a ((String b _) as rest) =>
      (is_ascii_digit a && Ascii.eqb b c) || digit_before c rest
  | _ => false
  end.

(** A digit, a dot and a digit in a row. *)
Fixpoint digit_dot_digit (s : string) : bool :=
  match s with
  | String a ((String b (String c _)) as rest) =>
      (is_ascii_digit a && Ascii.eqb b "."%char && is_ascii_digit c)
      || digit_dot_digit rest
  | _ => false
  end.

(** [re.search] on the patterns that the tables contain: the two
    numeric expressions and plain words. *)
Definition table_re_search (pattern text : string) : bool :=
  if bool_decide (pattern = "\d+%") then digit_before "%"%char text
  else if bool_decide (pattern = "\d+\.\d+") then digit_dot_digit text
  else Text.contains pattern text.

(** The engine as it runs when [textstat] and [sklearn] are not
    installed, on ASCII text. *)
Definition plain_environment : Environment := {|
  lower := Text.ascii_lower;
  re_search := table_re_search;
  flesch_reading_ease := fun _ => None;
  HAS_ANALYSIS_LIBS := false;
  tfidf_cosine_similarity := fun _ => None;
  COGNITIVE_BIAS_MARKERS := fun lang => match lang with En => Markers.COGNITIVE_BIAS_MARKERS_en | Ru => Markers.COGNITIVE_BIAS_MARKERS_ru end;
  CONTRADICTION_WORDS := fun lang => match lang with En => Markers.CONTRADICTION_WORDS_en | Ru => Markers.CONTRADICTION_WORDS_ru end;
  LOGICAL_CONNECTORS := fun lang => match lang with En => Markers.LOGICAL_CONNECTORS_en | Ru => Markers.LOGICAL_CONNECTORS_ru end;
  EVIDENCE_PATTERNS := fun lang => match lang with En => Markers.EVIDENCE_PATTERNS_en | Ru => Markers.EVIDENCE_PATTERNS_ru end;
  UNCERTAINTY_MARKERS := fun lang => match lang with En => Markers.UNCERTAINTY_MARKERS_en | Ru => Markers.UNCERTAINTY_MARKERS_ru end;
  CERTAINTY_MARKERS := fun lang => match lang with En => Markers.CERTAINTY_MARKERS_en | Ru => Markers.CERTAINTY_MARKERS_ru end;
  CRITICAL_MARKERS := fun lang => match lang with En => Markers.CRITICAL_MARKERS_en | Ru => Markers.CRITICAL_MARKERS_ru end;
  SYSTEMIC_MARKERS := fun lang => match lang with En => Markers.SYSTEMIC_MARKERS_en | Ru => Markers.SYSTEMIC_MARKERS_ru end;
  LATERAL_MARKERS := fun lang => match lang with En => Markers.LATERAL_MARKERS_en | Ru => Markers.LATERAL_MARKERS_ru end;
  STRATEGIC_MARKERS := fun lang => match lang with En => Markers.STRATEGIC_MARKERS_en | Ru => Markers.STRATEGIC_MARKERS_ru end;
  EMPATHETIC_MARKERS := fun lang => match lang with En => Markers.EMPATHETIC_MARKERS_en | Ru => Markers.EMPATHETIC_MARKERS_ru end;
  ABSTRACT_MARKERS := fun lang => match lang with En => Markers.ABSTRACT_MARKERS_en | Ru => Markers.ABSTRACT_MARKERS_ru end;
  PRACTICAL_MARKERS := fun lang => match lang with En => Markers.PRACTICAL_MARKERS_en | Ru => Markers.PRACTICAL_MARKERS_ru end;
  INTEGRATIVE_MARKERS := fun lang => match lang with En => Markers.INTEGRATIVE_MARKERS_en | Ru => Markers.INTEGRATIVE_MARKERS_ru end;
  EVOLUTIONARY_MARKERS := fun lang => match lang with En => Markers.EVOLUTIONARY_MARKERS_en | Ru => Markers.EVOLUTIONARY_MARKERS_ru end;
  CONVERGENT_MARKERS := fun lang => match lang with En => Markers.CONVERGENT_MARKERS_en | Ru => Markers.CONVERGENT_MARKERS_ru end;
  DIVERGENT_MARKERS := fun lang => match lang with En => Markers.DIVERGENT_MARKERS_en | Ru => Markers.DIVERGENT_MARKERS_ru end;
  REFLECTIVE_MARKERS := fun lang => match lang with En => Markers.REFLECTIVE_MARKERS_en | Ru => Markers.REFLECTIVE_MARKERS_ru end;
  DOMAIN_KEYWORDS := fun lang => match lang with En => Markers.DOMAIN_KEYWORDS_en | Ru => Markers.DOMAIN_KEYWORDS_ru end;
  EMOTIONAL_WORDS := fun lang => match lang with En => Markers.EMOTIONAL_WORDS_en | Ru => Markers.EMOTIONAL_WORDS_ru end;
  AMBIGUITY_MARKERS := fun lang => match lang with En => Markers.AMBIGUITY_MARKERS_en | Ru => Markers.AMBIGUITY_MARKERS_ru end
|}.

(* ================================================================== *)
(** * Vocabulary of the properties                                     *)
(* ================================================================== *)

Definition unit_interval (x : Q) : Prop := (0 <= x /\ x <= 1)%Q.

(** [needle] occurs in [hay]: [hay] is some text, then [needle], then
    some text. *)
Definition occurs (needle hay : string) : Prop :=
  exists before after, hay = before +:+ needle +:+ after.

Definition metrics_in_unit_interval (m : ThoughtMetrics) : Prop :=
  unit_interval (clarity_score m) /\ unit_interval (logical_coherence m)
  /\ unit_interval (evidence_strength m) /\ unit_interval (novelty_score m)
  /\ unit_interval (complexity_score m)
  /\ unit_interval (critical_thinking_score m)
  /\ unit_interval (systemic_thinking_score m)
  /\ unit_interval (lateral_thinking_score m)
  /\ unit_interval (strategic_score m) /\ unit_interval (empathy_score m)
  /\ unit_interval (abstraction_score m) /\ unit_interval (practicality_score m)
  /\ unit_interval (integration_score m) /\ unit_interval (evolution_score m)
  /\ unit_interval (convergence_score m) /\ unit_interval (divergence_score m)
  /\ unit_interval (reflection_score m).

(** [chain_ends store t n]: following the parent links from the thought
    [t] visits [n] thoughts and then stops, at a thought without a
    parent or with a parent that the store does not know. *)
Inductive chain_ends (store : gmap string EnhancedThought)
    : EnhancedThought -> nat -> Prop :=
| chain_root t :
    truthy_id (parent_id t) = None -> chain_ends store t 1
| chain_unknown_parent t pid :
    truthy_id (parent_id t) = Some pid -> store !! pid = None ->
    chain_ends store t 1
| chain_parent t pid parent n :
    truthy_id (parent_id t) = Some pid -> store !! pid = Some parent ->
    chain_ends store parent n -> chain_ends store t (S n).

(** What every reachable processor satisfies: identifiers in the store
    were issued by the counter, children lists hold no identifier twice,
    and sessions list stored thoughts only. *)
Definition well_formed (p : EnhancedThinkingProcessor) : Prop :=
  (forall k t, thoughts p !! k = Some t ->
     exists n now, k = format_thought_id n now /\ (n <= global_thought_counter p)%nat)
  /\ (forall k t, thoughts p !! k = Some t -> NoDup (children_ids t))
  /\ (forall sid ids id, thought_sessions p !! sid = Some ids -> id ∈ ids ->
        is_Some (thoughts p !! id)).

(** No character of [s] is an underscore. *)
Fixpoint no_underscore (s : string) : bool :=
  match s with
  | "" => true
  | String c s' => negb (Ascii.eqb c "_"%char) && no_underscore s'
  end.

(* ================================================================== *)
(** * Example states                                                   *)
(* ================================================================== *)

Definition example_clock : Clock :=
  {| hhmmss := "120000"; isoformat := "2024-01-01T12:00:00" |}.

Definition example_input (text : string) (parent : option string) : EnhancedThinkingInput :=
  {| thought := text; in_thought_type := ANALYSIS; in_strategy := CRITICAL;
     parent_thought_id := parent; revision_of_id := None; in_branch_id := None;
     supports_thoughts := []; contradicts_thoughts := []; builds_on_thoughts := [];
     in_tags := []; confidence := None; response_language := None;
     request_analysis := true; request_validation := true |}.

(** A first thought whose caller names, as its parent, the identifier
    that the thought itself is about to receive. *)
Definition self_parent_processor : EnhancedThinkingProcessor :=
  fst (@create_thought plain_environment (new_processor En)
         (example_input "A thought that names itself as parent" (Some "thought_1_120000"))
         example_clock).

(** A root thought and one child of it. *)
Definition two_thought_processor : EnhancedThinkingProcessor :=
  let p1 := fst (@create_thought plain_environment (new_processor En)
                   (example_input "The data shows 95% improvement" None) example_clock) in
  fst (@create_thought plain_environment p1
         (example_input "Possibly this result is not reproducible"
            (Some "thought_1_120000")) example_clock).

(** Blank content that is not ASCII: a space, an em space (U+2003), a
    no-break space (U+00A0), an ideographic space (U+3000) and a tab. *)
Definition unicode_blank : string :=
  " " +:+ String "226" (String "128" (String "131" ""))
  +:+ String "194" (String "160" "")
  +:+ String "227" (String "128" (String "128" ""))
  +:+ String "009" "".

(** [EnhancedThinkingServer(language)] once [initialize] has run. *)
Definition started_server (lang : Language) : EnhancedThinkingServer :=
  {| server_language := lang; _initialized := true;
     thinking_processor := new_processor lang; formatter_language := lang |}.

(* ================================================================== *)
(** * The tool get_thinking_path                                     *)
(* ================================================================== *)

(** One entry of the ["path"] list returned by the tool
    [get_thinking_path]. *)
Record PathStep := {
  step : nat;
  step_thought_id : string;
  step_content : string;
  step_type : ThoughtType;
  step_strategy : ThinkingStrategy;
  step_quality_score : Q
}.

(** The payloads of the tool [get_thinking_path]:
    [{"error": t("THOUGHT_NOT_FOUND", thought_id=...), "path": []}],
    [{"thought_id": ..., "path_length": ..., "path": [...]}] and
    [{"input": {"error": ..., "status": "failed"}}]. *)
Inductive PathResult :=
| PathNotFound (requested : string)
| PathFound (requested : string) (path_length : nat) (steps : list PathStep)
| PathFailed (error : MessageKey).

Definition path_step (i : nat) (t : EnhancedThought) : PathStep :=
  {| step := S i; step_thought_id := thought_id t; step_content := content t;
     step_type := thought_type t; step_strategy := strategy t;
     step_quality_score := avg_quality t |}.

(** The tool [get_thinking_path]; [None] when the walk over the parent
    links does not end within [fuel] iterations. *)
Definition get_thinking_path_tool (fuel : nat) (srv : EnhancedThinkingServer)
    (id : string) (event_in_time : bool) : option PathResult :=
  if negb (ensure_initialized srv event_in_time) then Some (PathFailed ERROR_INIT_TIMEOUT)
  else
    path ← get_thinking_path fuel (thinking_processor srv) id;
    Some (match path with
          | [] => PathNotFound id
          | _ => PathFound id (List.length path) (imap path_step path)
          end).

(* ================================================================== *)
(** * Vocabulary of the further properties                           *)
(* ================================================================== *)

(** Every character of [s] is whitespace. *)
Definition all_space (s : string) : bool := forallb Text.isspace (Text.chars s).

(** The score that [format_thought_display] shows for a strategy: the
    attribute that [strategy_score_attr_map] names for it, [0.0] for a
    strategy that the map does not list. *)
Definition strategy_score (m : ThoughtMetrics) (strat : ThinkingStrategy) : Q :=
  match strat with
  | CRITICAL => critical_thinking_score m
  | SYSTEMIC => systemic_thinking_score m
  | LATERAL => lateral_thinking_score m
  | STRATEGIC => strategic_score m
  | EMPATHETIC => empathy_score m
  | ABSTRACT => abstraction_score m
  | PRACTICAL => practicality_score m
  | INTEGRATIVE => integration_score m
  | EVOLUTIONARY => evolution_score m
  | CONVERGENT => convergence_score m
  | DIVERGENT => divergence_score m
  | REFLECTIVE => reflection_score m
  | _ => 0%Q
  end.

(** [d.get(k, 0)] on a counting dictionary kept in insertion order. *)
Fixpoint count_of {K : Type} `{EqDecision K} (k : K) (d : list (K * nat)) : nat :=
  match d with
  | [] => 0%nat
  | (k', n) :: d' => if decide (k' = k) then n else count_of k d'
  end.

(** What a recorded conflict says of the texts [thoughts] and of the
    similarity matrix: it joins an earlier text holding a negative word
    with a later text holding the matching positive word, their
    similarity is below 0.3 and the confidence is one minus it. *)
Definition conflict_justified `{Environment} (lang : Language) (thoughts : list string)
    (matrix : list (list Q)) (c : Conflict) : Prop :=
  exists i j thought1 thought2 neg pos row sim,
    conflict_thoughts c = (i, j) /\ (i < j)%nat
    /\ thoughts !! i = Some thought1 /\ thoughts !! j = Some thought2
    /\ (neg, pos) ∈ CONTRADICTION_WORDS lang
    /\ Text.contains neg (lower thought1) = true
    /\ Text.contains pos (lower thought2) = true
    /\ matrix !! i = Some row /\ row !! j = Some sim
    /\ (sim < 0.3)%Q /\ conflict_confidence c = (1 - sim)%Q.

(** [later] is the thought [earlier] with, at most, more children at
    the end of its list. *)
Definition extends (earlier later : EnhancedThought) : Prop :=
  later = with_children earlier (children_ids later)
  /\ children_ids earlier `prefix_of` children_ids later.

(** Every thought is stored under its own identifier and all its float
    metrics lie in [0, 1]. *)
Definition filed_and_scored (p : EnhancedThinkingProcessor) : Prop :=
  forall k t, thoughts p !! k = Some t ->
    thought_id t = k /\ metrics_in_unit_interval (metrics t).

(** Every entry of a children list names a stored thought whose parent
    link points back. *)
Definition children_mirror_parents (p : EnhancedThinkingProcessor) : Prop :=
  forall k t c, thoughts p !! k = Some t -> c ∈ children_ids t ->
    exists child, thoughts p !! c = Some child /\ parent_id child = Some k.

(** The only session is ["default"]; it lists the thoughts in creation
    order, the entry at position [i] carrying the counter [i + 1], and
    the store holds as many thoughts as the counter has issued ids. *)
Definition single_session (p : EnhancedThinkingProcessor) : Prop :=
  current_session_id p = "default"
  /\ (forall sid, is_Some (thought_sessions p !! sid) -> sid = "default")
  /\ List.length (default [] (thought_sessions p !! "default")) = global_thought_counter p
  /\ size (thoughts p) = global_thought_counter p
  /\ (forall i id, default [] (thought_sessions p !! "default") !! i = Some id ->
        exists now, id = format_thought_id (S i) now).

(* ================================================================== *)
(** * Further example states                                         *)
(* ================================================================== *)

(** A similarity capability that finds every text like itself and
    unlike every other one. *)
Definition unrelated_similarity (texts : list string) : option (list (list Q)) :=
  Some (imap (fun i _ => imap (fun j _ => if Nat.eqb i j then 1%Q else 0%Q) texts) texts).

(** [plain_environment] with the analysis libraries present, the
    readability score failing and [unrelated_similarity] as the
    similarity. *)
Definition similarity_environment : Environment := {|
  lower := @lower plain_environment;
  re_search := @re_search plain_environment;
  flesch_reading_ease := fun _ => None;
  HAS_ANALYSIS_LIBS := true;
  tfidf_cosine_similarity := unrelated_similarity;
  COGNITIVE_BIAS_MARKERS := @COGNITIVE_BIAS_MARKERS plain_environment;
  CONTRADICTION_WORDS := @CONTRADICTION_WORDS plain_environment;
  LOGICAL_CONNECTORS := @LOGICAL_CONNECTORS plain_environment;
  EVIDENCE_PATTERNS := @EVIDENCE_PATTERNS plain_environment;
  UNCERTAINTY_MARKERS := @UNCERTAINTY_MARKERS plain_environment;
  CERTAINTY_MARKERS := @CERTAINTY_MARKERS plain_environment;
  CRITICAL_MARKERS := @CRITICAL_MARKERS plain_environment;
  SYSTEMIC_MARKERS := @SYSTEMIC_MARKERS plain_environment;
  LATERAL_MARKERS := @LATERAL_MARKERS plain_environment;
  STRATEGIC_MARKERS := @STRATEGIC_MARKERS plain_environment;
  EMPATHETIC_MARKERS := @EMPATHETIC_MARKERS plain_environment;
  ABSTRACT_MARKERS := @ABSTRACT_MARKERS plain_environment;
  PRACTICAL_MARKERS := @PRACTICAL_MARKERS plain_environment;
  INTEGRATIVE_MARKERS := @INTEGRATIVE_MARKERS plain_environment;
  EVOLUTIONARY_MARKERS := @EVOLUTIONARY_MARKERS plain_environment;
  CONVERGENT_MARKERS := @CONVERGENT_MARKERS plain_environment;
  DIVERGENT_MARKERS := @DIVERGENT_MARKERS plain_environment;
  REFLECTIVE_MARKERS := @REFLECTIVE_MARKERS plain_environment;
  DOMAIN_KEYWORDS := @DOMAIN_KEYWORDS plain_environment;
  EMOTIONAL_WORDS := @EMOTIONAL_WORDS plain_environment;
  AMBIGUITY_MARKERS := @AMBIGUITY_MARKERS plain_environment
|}.

(** A started server that holds [two_thought_processor]. *)
Definition two_thought_server : EnhancedThinkingServer :=
  with_processor (started_server En) two_thought_processor.

(* ================================================================== *)
(** * Properties                                                       *)
(* ================================================================== *)

(* ------------------------------------------------------------------ *)
(** ** Scores stay in the unit interval *)
(* ------------------------------------------------------------------ *)

Lemma unit_interval_0 : unit_interval 0.
Proof. split; lra. Qed.

Lemma Qnat_nonneg n : (0 <= Qnat n)%Q.
Proof. unfold Qnat. change 0%Q with (inject_Z 0). rewrite <- Zle_Qle. lia. Qed.

Lemma Qnat_S n : (Qnat (S n) == Qnat n + 1)%Q.
Proof. unfold Qnat. rewrite Nat2Z.inj_succ, <- Z.add_1_r, inject_Z_plus. reflexivity. Qed.

Lemma Qnat_pos n : (0 < n)%nat -> (0 < Qnat n)%Q.
Proof. intros Hn. unfold Qnat. change 0%Q with (inject_Z 0). rewrite <- Zlt_Qlt. lia. Qed.

Lemma Qdiv_nonneg (a b : Q) : (0 <= a -> 0 <= b -> 0 <= a / b)%Q.
Proof.
  intros Ha Hb. unfold Qdiv. apply Qmult_le_0_compat; [done|].
  by apply Qinv_le_0_compat.
Qed.

Lemma Qmin_1_unit (x : Q) : (0 <= x)%Q -> unit_interval (Qmin 1 x).
Proof.
  intros Hx. split.
  - apply Q.min_glb; [lra | done].
  - apply Q.le_min_l.
Qed.

Lemma Qltb_lt (x y : Q) : Qltb x y = true <-> (x < y)%Q.
Proof.
  unfold Qltb. rewrite negb_true_iff. split.
  - intros Hb. apply Qnot_le_lt. intros Hle. apply Qle_bool_iff in Hle. congruence.
  - intros Hlt. destruct (Qle_bool y x) eqn:E; [|done].
    apply Qle_bool_iff in E. apply Qlt_not_le in Hlt. contradiction.
Qed.

Section Bounds.
Context `{Environment}.

Lemma category_scores_unit thought_lower word_count items :
  Forall unit_interval (category_scores thought_lower word_count items).
Proof.
  induction items as [|[category ms] items IH]; simpl; [constructor|].
  destruct (is_bonus_category category); [done|].
  constructor; [|done].
  apply Qmin_1_unit, Qdiv_nonneg; [apply Qnat_nonneg|].
  apply Qmult_le_0_compat; [apply Qnat_nonneg | lra].
Qed.

Lemma bonus_score_of_unit text b : unit_interval (bonus_score_of text b).
Proof.
  unfold bonus_score_of, unit_interval.
  repeat case_match; lra.
Qed.

Lemma foldl_Qplus_bounds (l : list Q) (total : Q) :
  Forall unit_interval l ->
  (total <= foldl Qplus total l
   /\ foldl Qplus total l <= total + Qnat (List.length l))%Q.
Proof.
  intros Hl. revert total.
  induction Hl as [|x l [Hx0 Hx1] _ IH]; intros total; simpl.
  - change (Qnat 0) with 0%Q. lra.
  - destruct (IH (total + x)%Q) as [IH0 IH1].
    rewrite Qnat_S. lra.
Qed.

Lemma Qsum_bounds (l : list Q) :
  Forall unit_interval l -> (0 <= Qsum l /\ Qsum l <= Qnat (List.length l))%Q.
Proof.
  intros Hl. destruct (foldl_Qplus_bounds l 0 Hl) as [H0 H1].
  unfold Qsum. lra.
Qed.

Lemma mean_unit (l : list Q) :
  Forall unit_interval l -> l <> [] -> unit_interval (Qsum l / Qnat (List.length l)).
Proof.
  intros Hl Hne. destruct (Qsum_bounds l Hl) as [H0 H1].
  assert (0 < Qnat (List.length l))%Q as Hpos.
  { apply Qnat_pos. destruct l; [done | simpl; lia]. }
  split.
  - apply Qdiv_nonneg; [done | lra].
  - apply Qle_shift_div_r; [done | lra].
Qed.

Lemma _analyze_specific_strategy_unit text md b :
  unit_interval (_analyze_specific_strategy text md b).
Proof.
  unfold _analyze_specific_strategy.
  destruct (Nat.eqb _ 0); [apply unit_interval_0|].
  set (scores := category_scores _ _ _).
  assert (Forall unit_interval scores) as Hs by apply category_scores_unit.
  destruct (Qltb 0 (bonus_score_of text b)).
  - assert (Forall unit_interval (scores ++ [bonus_score_of text b])) as Hall.
    { apply Forall_app; split; [done|]. repeat constructor; apply bonus_score_of_unit. }
    destruct (scores ++ [bonus_score_of text b]) eqn:E; [apply unit_interval_0|].
    rewrite <- E in *. apply mean_unit; [done|]. rewrite E; done.
  - destruct scores eqn:E; [apply unit_interval_0|].
    apply mean_unit; done.
Qed.

Lemma clarity_and_complexity_unit text :
  unit_interval (fst (clarity_and_complexity text))
  /\ unit_interval (snd (clarity_and_complexity text)).
Proof.
  unfold clarity_and_complexity.
  destruct HAS_ANALYSIS_LIBS; [destruct (flesch_reading_ease text)|]; simpl; split;
    try (apply Qmin_1_unit).
  - apply Q.le_max_l.
  - apply Qdiv_nonneg; [|lra].
    apply Qdiv_nonneg; apply Qnat_nonneg.
  - apply Qle_trans with 0.1%Q; [lra | apply Q.le_max_l].
  - apply Qdiv_nonneg; [apply Qnat_nonneg | lra].
  - apply Qle_trans with 0.1%Q; [lra | apply Q.le_max_l].
  - apply Qdiv_nonneg; [apply Qnat_nonneg | lra].
Qed.

Lemma novelty_of_unit text : unit_interval (novelty_of text).
Proof.
  unfold novelty_of. destruct (Nat.ltb 0 _); [|apply unit_interval_0].
  apply Qmin_1_unit, Qdiv_nonneg; apply Qnat_nonneg.
Qed.

Lemma default_metrics_unit : metrics_in_unit_interval default_metrics.
Proof. repeat split; simpl; lra. Qed.

(** C1.  For every text, language and strategy, each of the seventeen
    float fields of the metrics returned by the quality analysis
    (clarity, logical coherence, evidence strength, novelty,
    complexity and the twelve strategy scores) lies in [0, 1], and
    the confidence level is one of the five ordinal values.  Text
    that is blank after trimming gets the defaults, which satisfy the
    same bounds. *)
Theorem analyze_thought_quality_bounds (lang : Language) (text : string)
    (strat : ThinkingStrategy) :
  let m := analyze_thought_quality lang text strat in
  metrics_in_unit_interval m
  /\ confidence_level m ∈ [VERY_LOW; LOW; MEDIUM; HIGH; VERY_HIGH].
Proof.
  simpl. split.
  - unfold analyze_thought_quality.
    destruct (Text.is_empty (Text.strip text)); [apply default_metrics_unit|].
    unfold metrics_in_unit_interval; simpl.
    pose proof (clarity_and_complexity_unit text) as [Hc1 Hc2].
    repeat split;
      try (by apply Hc1); try (by apply Hc2);
      try (by apply novelty_of_unit);
      try (apply Qmin_1_unit, Qdiv_nonneg; [apply Qnat_nonneg | lra]);
      try (destruct strat; first [apply unit_interval_0 | apply _analyze_specific_strategy_unit ]).
  - destruct (confidence_level _); set_solver.
Qed.
End Bounds.

(* ------------------------------------------------------------------ *)
(** ** Bias detection *)
(* ------------------------------------------------------------------ *)

Lemma prefix_app (needle hay : string) :
  String.prefix needle hay = true <-> exists rest, hay = needle +:+ rest.
Proof.
  revert hay. induction needle as [|a needle IH]; intros hay.
  - destruct hay; simpl; (split; [by eexists | done]).
  - destruct hay as [|b hay]; simpl; [split; [done | by intros (? & ?)]|].
    destruct (ascii_dec a b) as [->|Hne].
    + rewrite IH. split; intros (rest & Hrest); exists rest.
      * by rewrite Hrest.
      * change (String b hay = String b (needle +:+ rest)) in Hrest.
        by injection Hrest.
    + split; [done|]. intros (rest & Hrest).
      change (String b hay = String a (needle +:+ rest)) in Hrest. congruence.
Qed.

Lemma contains_occurs (needle hay : string) :
  Text.contains needle hay = true <-> occurs needle hay.
Proof.
  unfold occurs. induction hay as [|c hay IH].
  - change (Text.contains needle "") with (String.prefix needle "" || false).
    rewrite orb_false_r, prefix_app. split.
    + intros (rest & Hrest). by exists "", rest.
    + intros (before & after & Heq). destruct before; [by exists after|done].
  - change (Text.contains needle (String c hay))
      with (String.prefix needle (String c hay) || Text.contains needle hay).
    rewrite orb_true_iff, prefix_app, IH. split.
    + intros [(rest & Hrest) | (before & after & ->)].
      * by exists "", rest.
      * by exists (String c before), after.
    + intros ([|d before] & after & Heq).
      * left. by exists after.
      * right.
        change (String c hay = String d (before +:+ needle +:+ after)) in Heq.
        injection Heq as -> ->. by exists before, after.
Qed.

Lemma count_if_one {A} (p : A -> bool) (l : list A) :
  (1 <= count_if p l)%nat <-> exists i x, l !! i = Some x /\ p x = true.
Proof.
  induction l as [|a l IH]; simpl.
  - split; [lia | by intros (i & x & ? & _)].
  - split.
    + destruct (p a) eqn:E; [by exists 0%nat, a|].
      intros Hc. apply IH in Hc as (i & x & Hi & Hx). by exists (S i), x.
    + intros ([|i] & x & Hi & Hx); simpl in Hi.
      * injection Hi as ->. rewrite Hx. lia.
      * assert (1 <= count_if p l)%nat by (apply IH; by exists i, x). lia.
Qed.

Lemma count_if_two {A} (p : A -> bool) (l : list A) :
  (2 <= count_if p l)%nat <->
  exists i j x y, (i < j)%nat /\ l !! i = Some x /\ l !! j = Some y
                  /\ p x = true /\ p y = true.
Proof.
  induction l as [|a l IH]; simpl.
  - split; [lia | by intros (i & j & x & y & _ & ? & _)].
  - split.
    + destruct (p a) eqn:E.
      * intros Hc. assert (1 <= count_if p l)%nat as Hone by lia.
        apply count_if_one in Hone as (j & y & Hj & Hy).
        exists 0%nat, (S j), a, y. split; [lia | done].
      * intros Hc. apply IH in Hc as (i & j & x & y & Hij & Hi & Hj & Hx & Hy).
        exists (S i), (S j), x, y. split; [lia | done].
    + intros (i & j & x & y & Hij & Hi & Hj & Hx & Hy).
      destruct j as [|j]; [lia|]. simpl in Hj. destruct i as [|i]; simpl in Hi.
      * injection Hi as ->. rewrite Hx.
        assert (1 <= count_if p l)%nat by (apply count_if_one; by exists j, y). lia.
      * assert (2 <= count_if p l)%nat; [|lia].
        apply IH. exists i, j, x, y. split; [lia | done].
Qed.

Section Biases.
Context `{Environment}.

Lemma count_if_none {A} (p : A -> bool) (l : list A) :
  (forall x, x ∈ l -> p x = false) -> count_if p l = 0%nat.
Proof.
  induction l as [|x l IH]; intros Hl; simpl; [done|].
  rewrite (Hl x) by set_solver. rewrite IH; [done|].
  intros y Hy. apply Hl. set_solver.
Qed.

Lemma existsb_elem_of {A} (p : A -> bool) (l : list A) :
  existsb p l = true <-> exists x, x ∈ l /\ p x = true.
Proof.
  rewrite existsb_exists. split; intros (x & Hx & Hp); exists x; split; try done.
  - by apply list_elem_of_In.
  - by apply list_elem_of_In.
Qed.

Lemma bias_fires_spec thought_lower bias_data :
  bias_fires thought_lower bias_data = true <->
  (2 <= marker_count thought_lower bias_data)%nat
  /\ exists cue, cue ∈ context bias_data /\ Text.contains cue thought_lower = true.
Proof.
  unfold bias_fires, context_matches.
  rewrite andb_true_iff, Nat.leb_le, existsb_elem_of. done.
Qed.

Lemma detect_in_spec thought_lower biases bias_name :
  bias_name ∈ detect_in thought_lower biases <->
  exists bias_data, (bias_name, bias_data) ∈ biases
                    /\ bias_fires thought_lower bias_data = true.
Proof.
  induction biases as [|[name data] biases IH]; simpl.
  - split; [by intros ?%elem_of_nil | by intros (? & ?%elem_of_nil & _)].
  - destruct (bias_fires thought_lower data) eqn:E.
    + rewrite elem_of_cons, IH. split.
      * intros [-> | (d & Hd & Hf)].
        -- exists data. split; [apply list_elem_of_here | done].
        -- exists d. split; [by apply list_elem_of_further | done].
      * intros (d & [Heq | Hin]%elem_of_cons & Hf).
        -- left. congruence.
        -- right. by exists d.
    + rewrite IH. split.
      * intros (d & Hd & Hf). exists d.
        split; [by apply list_elem_of_further | done].
      * intros (d & [Heq | Hin]%elem_of_cons & Hf).
        -- congruence.
        -- by exists d.
Qed.

(** C6.  A bias of the catalog is reported if and only if at least two
    of its markers (two positions of its marker list) occur in the
    lowercased text and at least one of its contextual cues occurs
    there; hence a text in which no marker of the catalog occurs
    yields the empty list. *)
Theorem detect_cognitive_biases_iff (lang : Language) (text : string) :
  (forall bias_name,
     bias_name ∈ detect_cognitive_biases lang text <->
     exists bias_data,
       (bias_name, bias_data) ∈ COGNITIVE_BIAS_MARKERS lang
       /\ (exists i j first second,
             (i < j)%nat
             /\ markers bias_data !! i = Some first
             /\ markers bias_data !! j = Some second
             /\ occurs first (lower text) /\ occurs second (lower text))
       /\ exists cue, cue ∈ context bias_data /\ occurs cue (lower text))
  /\ ((forall bias_name bias_data marker,
         (bias_name, bias_data) ∈ COGNITIVE_BIAS_MARKERS lang ->
         marker ∈ markers bias_data ->
         ~ occurs marker (lower text)) ->
      detect_cognitive_biases lang text = []).
Proof.
  assert (forall bias_data,
            bias_fires (lower text) bias_data = true <->
            (exists i j first second,
               (i < j)%nat
               /\ markers bias_data !! i = Some first
               /\ markers bias_data !! j = Some second
               /\ occurs first (lower text) /\ occurs second (lower text))
            /\ exists cue, cue ∈ context bias_data /\ occurs cue (lower text))
    as Hfires.
  { intros bias_data. rewrite bias_fires_spec. unfold marker_count.
    rewrite count_if_two. split.
    - intros [(i & j & x & y & Hij & Hi & Hj & Hx & Hy) (cue & Hcue & Hc)].
      apply contains_occurs in Hx, Hy, Hc. split; [|by exists cue].
      by exists i, j, x, y.
    - intros [(i & j & x & y & Hij & Hi & Hj & Hx & Hy) (cue & Hcue & Hc)].
      apply contains_occurs in Hx, Hy, Hc. split; [|by exists cue].
      by exists i, j, x, y. }
  split.
  - intros bias_name. unfold detect_cognitive_biases.
    rewrite detect_in_spec. by setoid_rewrite Hfires.
  - intros Hnone. apply elem_of_nil_inv. intros bias_name Hin.
    unfold detect_cognitive_biases in Hin.
    apply detect_in_spec in Hin as (d & Hd & Hf).
    apply Hfires in Hf as [(i & _ & first & _ & _ & Hi & _ & Ho & _) _].
    apply (Hnone bias_name d first Hd); [|done].
    by apply list_elem_of_lookup_2 in Hi.
Qed.
End Biases.

(* ------------------------------------------------------------------ *)
(** ** Walking the parent links *)
(* ------------------------------------------------------------------ *)

Lemma chain_ends_pos store t n : chain_ends store t n -> (1 <= n)%nat.
Proof. destruct 1; lia. Qed.

Lemma chain_ends_det store t n m :
  chain_ends store t n -> chain_ends store t m -> n = m.
Proof.
  intros Hn. revert m. induction Hn as [t Hr|t pid Hp Hs|t pid parent n Hp Hs Hn IH];
    intros m Hm; inversion Hm; subst; try congruence.
  f_equal. apply IH. congruence.
Qed.

Lemma walk_parents_chain store t n :
  chain_ends store t n ->
  forall fuel path, (n <= fuel)%nat ->
    exists visited, walk_parents fuel store t path = Some (visited ++ path)
                    /\ List.length visited = n.
Proof.
  induction 1 as [t Hr|t pid Hp Hs|t pid parent n Hp Hs Hn IH]; intros fuel path Hfuel.
  - destruct fuel as [|fuel]; [lia|]. simpl. rewrite Hr. by exists [t].
  - destruct fuel as [|fuel]; [lia|]. simpl. rewrite Hp, Hs. by exists [t].
  - destruct fuel as [|fuel]; [lia|]. simpl. rewrite Hp, Hs.
    destruct (IH fuel (t :: path)) as (visited & Hw & Hlen); [lia|].
    exists (visited ++ [t]). rewrite <- app_assoc. split; [done|].
    rewrite length_app. simpl. lia.
Qed.

(** The keys met on a chain that ends are pairwise distinct and all in
    the store. *)
Lemma chain_ends_keys store t n :
  chain_ends store t n ->
  forall k, store !! k = Some t ->
    exists ks : list string,
      List.length ks = n /\ NoDup ks
      /\ forall k', k' ∈ ks ->
           exists t' m, store !! k' = Some t' /\ chain_ends store t' m /\ (m <= n)%nat.
Proof.
  induction 1 as [t Hr|t pid Hp Hs|t pid parent n Hp Hs Hn IH]; intros k Hk.
  - exists [k]. split; [done|]. split; [apply NoDup_singleton|].
    intros k' ->%list_elem_of_singleton. exists t, 1%nat. split; [done|].
    split; [by constructor | lia].
  - exists [k]. split; [done|]. split; [apply NoDup_singleton|].
    intros k' ->%list_elem_of_singleton. exists t, 1%nat. split; [done|].
    split; [by econstructor 2 | lia].
  - destruct (IH pid Hs) as (ks & Hlen & Hnd & Hks).
    exists (k :: ks). split; [simpl; lia|]. split.
    + constructor; [|done]. intros Hin.
      destruct (Hks k Hin) as (t' & m & Hk' & Hm & Hle).
      assert (t' = t) as -> by congruence.
      assert (m = S n) by (eapply chain_ends_det; [done | by econstructor 3]).
      lia.
    + intros k' [-> | Hin]%elem_of_cons.
      * exists t, (S n). split; [done|]. split; [by econstructor 3 | lia].
      * destruct (Hks k' Hin) as (t' & m & Hk' & Hm & Hle).
        exists t', m. split; [done|]. split; [done | lia].
Qed.

Lemma chain_ends_size store t n k :
  chain_ends store t n -> store !! k = Some t -> (n <= size store)%nat.
Proof.
  intros Hc Hk. destruct (chain_ends_keys store t n Hc k Hk) as (ks & <- & Hnd & Hks).
  rewrite <- size_dom, <- (size_list_to_set (C := gset string) ks) by done.
  apply subseteq_size. intros k' Hk'. apply elem_of_list_to_set in Hk'.
  destruct (Hks k' Hk') as (t' & m & Hl & _). apply elem_of_dom. by exists t'.
Qed.

Section Paths.
Context `{Environment}.

(** C3, as amended.  On an unknown id the path is empty.  When the
    parent links followed from a stored thought end after [n]
    thoughts (so they do not run into a cycle), [n] is at most the
    number of stored thoughts and every run of the loop that is given
    [n] iterations or more returns a path of exactly [n] thoughts.
    A thought created without a parent has the path that holds
    exactly that thought. *)
Theorem get_thinking_path_acyclic (p : EnhancedThinkingProcessor) :
  (forall id fuel, thoughts p !! id = None -> get_thinking_path fuel p id = Some [])
  /\ (forall id t n,
        thoughts p !! id = Some t -> chain_ends (thoughts p) t n ->
        (n <= size (thoughts p))%nat
        /\ forall fuel, (n <= fuel)%nat ->
             exists path, get_thinking_path fuel p id = Some path
                          /\ List.length path = n)
  /\ (forall input now fuel,
        truthy_id (parent_thought_id input) = None -> (1 <= fuel)%nat ->
        let created := create_thought p input now in
        get_thinking_path fuel (fst created) (thought_id (snd created))
        = Some [snd created]).
Proof.
  split; [|split].
  - intros id fuel Hid. unfold get_thinking_path. by rewrite Hid.
  - intros id t n Hid Hc. split; [by eapply chain_ends_size|].
    intros fuel Hfuel. unfold get_thinking_path. rewrite Hid.
    destruct (walk_parents_chain _ _ _ Hc fuel [] Hfuel) as (visited & Hw & Hlen).
    exists (visited ++ []). split; [done|]. by rewrite app_nil_r.
  - intros input now fuel Hroot Hfuel. simpl.
    unfold get_thinking_path. simpl. rewrite lookup_insert_eq.
    destruct fuel as [|fuel]; [lia|]. simpl. by rewrite Hroot.
Qed.
End Paths.

(* ------------------------------------------------------------------ *)
(** ** Reachable processors *)
(* ------------------------------------------------------------------ *)

(* ---- identifiers ---- *)

Lemma string_of_uint_no_underscore d :
  no_underscore (NilEmpty.string_of_uint d) = true.
Proof. induction d; simpl; auto. Qed.

Lemma underscore_split (a b c d : string) :
  no_underscore a = true -> no_underscore b = true ->
  a +:+ String "_"%char c = b +:+ String "_"%char d -> a = b.
Proof.
  revert b. induction a as [|x a IH]; intros [|y b] Ha Hb Heq; simpl in *.
  - done.
  - injection Heq as <- _. by rewrite Ascii.eqb_refl in Hb.
  - injection Heq as -> _. by rewrite Ascii.eqb_refl in Ha.
  - injection Heq as -> Heq. f_equal.
    apply andb_true_iff in Ha as [_ Ha]. apply andb_true_iff in Hb as [_ Hb].
    by apply IH.
Qed.

Lemma decimal_inj n m : decimal n = decimal m -> n = m.
Proof.
  unfold decimal. intros Heq.
  assert (Some (Nat.to_uint n) = Some (Nat.to_uint m)) as Hu.
  { rewrite <- !NilEmpty.usu. by rewrite Heq. }
  injection Hu as Hu. rewrite <- (Unsigned.of_to n), <- (Unsigned.of_to m). by rewrite Hu.
Qed.

Lemma format_thought_id_inj n m now now' :
  format_thought_id n now = format_thought_id m now' -> n = m.
Proof.
  unfold format_thought_id. intros Heq. simpl in Heq.
  injection Heq as Heq.
  apply decimal_inj. eapply underscore_split; [| |exact Heq];
    apply string_of_uint_no_underscore.
Qed.

Lemma format_thought_id_truthy n now :
  truthy_id (Some (format_thought_id n now)) = Some (format_thought_id n now).
Proof. reflexivity. Qed.

(* ---- linking ---- *)

Lemma link_lookup store t k :
  _update_thought_relationships store t !! k = store !! k
  \/ (exists parent,
        truthy_id (parent_id t) = Some k /\ (store !! k = Some parent)
        /\ (thought_id t ∉ children_ids parent)
        /\ (_update_thought_relationships store t !! k
            = Some (with_children parent (children_ids parent ++ [thought_id t])))).
Proof.
  unfold _update_thought_relationships.
  destruct (truthy_id (parent_id t)) as [pid|]; [|by left].
  destruct (store !! pid) as [parent|] eqn:Hp; [|by left].
  case_bool_decide as Hin; [by left|].
  destruct (decide (pid = k)) as [->|Hne].
  - right. exists parent. by rewrite lookup_insert_eq.
  - left. by rewrite lookup_insert_ne.
Qed.

Lemma link_is_Some store t k :
  is_Some (_update_thought_relationships store t !! k) <-> is_Some (store !! k).
Proof.
  destruct (link_lookup store t k) as [-> | (parent & _ & Hs & _ & ->)]; [done|].
  rewrite Hs. split; eauto.
Qed.

Lemma link_children_NoDup store t k t' :
  (forall k t, store !! k = Some t -> NoDup (children_ids t)) ->
  _update_thought_relationships store t !! k = Some t' -> NoDup (children_ids t').
Proof.
  intros Hnd Hk.
  destruct (link_lookup store t k) as [Heq | (parent & _ & Hs & Hnotin & Heq)].
  - rewrite Heq in Hk. by eapply Hnd.
  - rewrite Heq in Hk. injection Hk as <-. simpl.
    apply NoDup_app. split; [by eapply Hnd|]. split; [|apply NoDup_singleton].
    intros x Hx ->%list_elem_of_singleton. done.
Qed.

Section Invariant.
Context `{Environment}.

Lemma new_processor_well_formed lang : well_formed (new_processor lang).
Proof.
  repeat split; simpl; intros *; rewrite lookup_empty; done.
Qed.

Lemma create_thought_fresh p input now :
  well_formed p ->
  thoughts p !! thought_id (snd (create_thought p input now)) = None.
Proof.
  intros (Hids & _ & _). simpl.
  destruct (thoughts p !! _) as [t|] eqn:E; [|done].
  destruct (Hids _ _ E) as (n & now' & Heq & Hle).
  apply format_thought_id_inj in Heq. lia.
Qed.

Lemma create_thought_well_formed p input now :
  well_formed p -> well_formed (fst (create_thought p input now)).
Proof.
  intros Hwf. pose proof Hwf as (Hids & Hnd & Hsess).
  split; [|split]; simpl.
  - intros k t. destruct (decide (format_thought_id (S (global_thought_counter p)) now = k))
      as [<-|Hne].
    + intros _. by exists (S (global_thought_counter p)), now.
    + rewrite lookup_insert_ne by done. intros Hk.
      assert (is_Some (thoughts p !! k)) as [t0 Ht0].
      { apply (link_is_Some _ (build_thought p input now)). eauto. }
      destruct (Hids _ _ Ht0) as (n & now' & -> & Hle).
      exists n, now'. split; [done | lia].
  - intros k t. destruct (decide (format_thought_id (S (global_thought_counter p)) now = k))
      as [<-|Hne].
    + rewrite lookup_insert_eq. intros [= <-]. simpl. constructor.
    + rewrite lookup_insert_ne by done. by apply link_children_NoDup.
  - intros sid ids id. unfold session_append.
    destruct (decide (current_session_id p = sid)) as [<-|Hne].
    + rewrite lookup_insert_eq. intros [= <-] Hin.
      destruct (decide (format_thought_id (S (global_thought_counter p)) now = id))
        as [<-|Hne].
      * rewrite lookup_insert_eq. eauto.
      * rewrite lookup_insert_ne by done. apply link_is_Some.
        apply elem_of_app in Hin as [Hin | Hin%list_elem_of_singleton];
          [|congruence].
        destruct (thought_sessions p !! current_session_id p) as [ids0|] eqn:E;
          simpl in Hin; [by eapply Hsess | by apply elem_of_nil in Hin].
    + rewrite lookup_insert_ne by done. intros Hs Hin.
      destruct (decide (format_thought_id (S (global_thought_counter p)) now = id))
        as [<-|Hne'].
      * rewrite lookup_insert_eq. eauto.
      * rewrite lookup_insert_ne by done. apply link_is_Some. by eapply Hsess.
Qed.

Lemma serve_well_formed p r : well_formed p -> well_formed (serve p r).
Proof.
  intros Hwf. destruct r as [input now|focus depth|strat eff ctx]; simpl.
  - destruct (is_blank _); [done | by apply create_thought_well_formed].
  - destruct Hwf as (Hids & Hnd & Hsess).
    split; [exact Hids | split; [exact Hnd|]]; simpl.
    intros sid ids id. unfold session_touch.
    destruct (thought_sessions p !! current_session_id p) eqn:E; [by apply Hsess|].
    destruct (decide (current_session_id p = sid)) as [<-|Hne].
    + rewrite lookup_insert_eq. intros [= <-] Hin. by apply elem_of_nil in Hin.
    + rewrite lookup_insert_ne by done. by apply Hsess.
  - destruct Hwf as (Hids & Hnd & Hsess). by split; [|split].
Qed.

Lemma run_snoc p rs r : run p (rs ++ [r]) = serve (run p rs) r.
Proof. unfold run. by rewrite foldl_app. Qed.

Lemma run_well_formed p rs : well_formed p -> well_formed (run p rs).
Proof.
  intros Hwf. induction rs as [|r rs IH] using rev_ind; [done|].
  rewrite run_snoc. by apply serve_well_formed.
Qed.

Lemma reachable_well_formed p : reachable p -> well_formed p.
Proof.
  intros (lang & rs & ->). apply run_well_formed, new_processor_well_formed.
Qed.
End Invariant.

(* ------------------------------------------------------------------ *)
(** ** Parent and child links *)
(* ------------------------------------------------------------------ *)

Lemma count_occ_not_elem_of (l : list string) (x : string) :
  x ∉ l -> count_occ string_dec l x = 0%nat.
Proof. intros Hx. apply count_occ_not_In. by rewrite <- list_elem_of_In. Qed.

Lemma count_occ_NoDup_elem_of (l : list string) (x : string) :
  NoDup l -> x ∈ l -> count_occ string_dec l x = 1%nat.
Proof.
  intros Hnd Hx. apply NoDup_ListNoDup in Hnd.
  rewrite (NoDup_count_occ string_dec) in Hnd. specialize (Hnd x).
  apply list_elem_of_In, (count_occ_In string_dec) in Hx. lia.
Qed.

Section Links.
Context `{Environment}.

(** C7.  In every reachable processor, creating a thought whose parent
    id names a stored thought leaves the new id exactly once in that
    parent's children list; creating one whose parent id is unknown
    stores the link on the new thought and changes no other entry of
    the store. *)
Theorem create_thought_links (p : EnhancedThinkingProcessor)
    (input : EnhancedThinkingInput) (now : Clock) (pid : string) :
  reachable p ->
  parent_thought_id input = Some pid ->
  let created := create_thought p input now in
  (is_Some (thoughts p !! pid) ->
     exists parent,
       thoughts (fst created) !! pid = Some parent
       /\ count_occ string_dec (children_ids parent) (thought_id (snd created)) = 1%nat)
  /\ (thoughts p !! pid = None ->
        parent_id (snd created) = Some pid
        /\ thoughts (fst created) !! thought_id (snd created) = Some (snd created)
        /\ forall k, k <> thought_id (snd created) ->
             thoughts (fst created) !! k = thoughts p !! k).
Proof.
  intros Hreach Hparent created.
  pose proof (reachable_well_formed p Hreach) as Hwf.
  pose proof (create_thought_fresh p input now Hwf) as Hfresh.
  pose proof Hwf as (Hids & Hnd & _).
  subst created. simpl in *. split.
  - intros [parent Hp].
    assert (format_thought_id (S (global_thought_counter p)) now <> pid) as Hne
      by congruence.
    rewrite lookup_insert_ne by done.
    destruct (Hids _ _ Hp) as (n & now' & -> & _).
    unfold _update_thought_relationships. simpl.
    rewrite Hparent, format_thought_id_truthy, Hp.
    case_bool_decide as Hin.
    + exists parent. split; [done|].
      apply count_occ_NoDup_elem_of; [by eapply Hnd | done].
    + rewrite lookup_insert_eq. eexists. split; [done|]. simpl.
      rewrite count_occ_app, count_occ_not_elem_of by done. simpl.
      by destruct (string_dec _ _).
  - intros Hunknown. split; [done|]. split; [by rewrite lookup_insert_eq|].
    intros k Hk. rewrite lookup_insert_ne by done.
    unfold _update_thought_relationships. simpl. rewrite Hparent.
    destruct (truthy_id (Some pid)) as [pid'|] eqn:E; [|done].
    assert (pid' = pid) as ->.
    { simpl in E. destruct (Text.is_empty pid); congruence. }
    by rewrite Hunknown.
Qed.
End Links.

(* ------------------------------------------------------------------ *)
(** ** Coherence score *)
(* ------------------------------------------------------------------ *)

Lemma resolve_length store ids :
  (forall id, id ∈ ids -> is_Some (store !! id)) ->
  List.length (resolve store ids) = List.length ids.
Proof.
  induction ids as [|id ids IH]; intros Hall; [done|].
  unfold resolve in *. simpl.
  destruct (Hall id) as [t Ht]; [set_solver|]. rewrite Ht. simpl.
  f_equal. apply IH. intros id' Hid'. apply Hall. set_solver.
Qed.

Section CoherenceScore.
Context `{Environment}.

Lemma check_logical_consistency_single lang text :
  conflicts (check_logical_consistency lang [text]) = [].
Proof.
  unfold check_logical_consistency. simpl. by rewrite orb_true_r.
Qed.

(** C4.  For a known, non-empty session of a reachable processor the
    report is the full analysis, and its coherence score is one minus
    the number of conflicts found by the consistency check over the
    number of thoughts of the session; it is one whenever no conflict
    is found, which is the case for every session of one thought. *)
Theorem coherence_score_formula (p : EnhancedThinkingProcessor)
    (sid : string) (ids : list string) :
  reachable p ->
  thought_sessions p !! sid = Some ids ->
  ids <> [] ->
  exists a,
    analyze_session_coherence p (Some sid) = CoherenceAnalysis a
    /\ consistency_analysis a
       = check_logical_consistency (language p) (content <$> resolve (thoughts p) ids)
    /\ thought_count a = List.length ids
    /\ (coherence_score a
        == 1 - Qnat (List.length (conflicts (consistency_analysis a)))
               / Qnat (List.length ids))%Q
    /\ (conflicts (consistency_analysis a) = [] -> (coherence_score a == 1)%Q)
    /\ (List.length ids = 1%nat ->
          conflicts (consistency_analysis a) = [] /\ (coherence_score a == 1)%Q).
Proof.
  intros Hreach Hsid Hne.
  destruct (reachable_well_formed p Hreach) as (_ & _ & Hsess).
  assert (List.length (content <$> resolve (thoughts p) ids) = List.length ids) as Hlen.
  { rewrite length_fmap. apply resolve_length. intros id. by apply Hsess with sid. }
  unfold analyze_session_coherence. simpl. rewrite Hsid.
  destruct (content <$> resolve (thoughts p) ids) as [|c cs] eqn:E.
  { destruct ids; [done | simpl in Hlen; lia]. }
  eexists. split; [reflexivity|].
  cbn [consistency_analysis thought_count coherence_score].
  assert (Nat.max (List.length (c :: cs)) 1 = List.length ids) as ->.
  { rewrite Hlen. destruct ids; [done | simpl; lia]. }
  split; [done|]. split; [done|]. split; [reflexivity|].
  assert (0 < Qnat (List.length ids))%Q as Hpos.
  { apply Qnat_pos. destruct ids; [done | simpl; lia]. }
  split.
  - intros ->. cbn [List.length]. change (Qnat 0) with 0%Q. field. lra.
  - intros Hone.
    assert (cs = []) as ->.
    { rewrite <- Hlen in Hone. destruct cs; [done | simpl in Hone; lia]. }
    rewrite check_logical_consistency_single. split; [done|].
    cbn [List.length]. change (Qnat 0) with 0%Q. field. lra.
Qed.
End CoherenceScore.

(* ------------------------------------------------------------------ *)
(** ** Strategy history *)
(* ------------------------------------------------------------------ *)

Lemma last_n_length {A} n (l : list A) : (List.length (last_n n l) <= n)%nat.
Proof. unfold last_n. rewrite length_drop. lia. Qed.

Lemma last_n_elem_of {A} n (l : list A) x : x ∈ last_n n l -> x ∈ l.
Proof.
  unfold last_n. intros Hx. rewrite <- (take_drop (List.length l - n) l).
  apply elem_of_app. by right.
Qed.

Lemma last_n_lookup {A} n (l : list A) x :
  x ∈ last_n n l -> exists i, l !! i = Some x /\ (List.length l <= i + n)%nat.
Proof.
  unfold last_n. intros (j & Hj)%list_elem_of_lookup_1. rewrite lookup_drop in Hj.
  exists (List.length l - n + j)%nat. split; [done | lia].
Qed.

Lemma filter_none {A} (P : A -> Prop) `{!forall x, Decision (P x)} (l : list A) :
  (forall x, x ∈ l -> ~ P x) -> filter P l = [].
Proof.
  induction l as [|a l IH]; intros Hl; [done|].
  rewrite filter_cons_False by (apply Hl, list_elem_of_here).
  apply IH. intros x Hx. by apply Hl, list_elem_of_further.
Qed.

Lemma record_effectiveness_last_n (l : list (ThinkingStrategy * Q)) strat eff :
  record_effectiveness (last_n 20 l) strat eff = last_n 20 (l ++ [(strat, eff)]).
Proof.
  unfold record_effectiveness, last_n.
  rewrite !length_app, length_drop. simpl.
  destruct (decide (List.length l < 20)%nat) as [Hlt|Hge].
  - replace (List.length l - 20)%nat with 0%nat by lia.
    replace (List.length l + 1 - 20)%nat with 0%nat by lia.
    rewrite !drop_0.
    replace (Nat.ltb 20 (List.length l - 0 + 1)) with false; [done|].
    symmetry. apply Nat.ltb_ge. lia.
  - replace (Nat.ltb 20 (List.length l - (List.length l - 20) + 1)) with true.
    2:{ symmetry. apply Nat.ltb_lt. lia. }
    replace (List.length l + 1 - 20)%nat with (S (List.length l - 20)) by lia.
    rewrite <- drop_app_le by lia.
    generalize (l ++ [(strat, eff)]) (List.length l - 20)%nat. clear.
    intros l n. revert l. induction n as [|n IH]; intros [|x l]; simpl; done.
Qed.

Lemma record_effectiveness_last history strat eff :
  last (record_effectiveness history strat eff) = Some (strat, eff).
Proof.
  unfold record_effectiveness.
  destruct (Nat.ltb 20 _) eqn:E; [|apply last_snoc].
  apply Nat.ltb_lt in E. rewrite length_app in E. simpl in E.
  destruct history as [|x history]; [simpl in E; lia|].
  simpl. destruct history as [|y history]; [simpl in E; lia|].
  change (y :: history ++ [(strat, eff)]) with ((y :: history) ++ [(strat, eff)]).
  apply last_snoc.
Qed.

Lemma previously_effective_spec analyzed strat reason :
  (strat, reason) ∈ previously_effective analyzed ->
  reason = STRATEGY_EFFECTIVE_PREVIOUSLY_REASON
  /\ exists eff, (strat, eff) ∈ analyzed /\ (0.7 < eff)%Q.
Proof.
  unfold previously_effective. intros Hin.
  apply list_elem_of_fmap in Hin as (s & [= -> ->] & Hs).
  split; [done|].
  apply elem_of_take in Hs as (i & Hs & _).
  apply list_elem_of_lookup_2 in Hs.
  apply list_elem_of_fmap in Hs as ([s' eff] & -> & Hf).
  apply list_elem_of_In, filter_In in Hf as [Hin Heff].
  exists eff. split; [by apply list_elem_of_In | by apply Qltb_lt].
Qed.

Lemma previously_effective_length analyzed :
  (List.length (previously_effective analyzed) <= 2)%nat.
Proof. unfold previously_effective. rewrite length_fmap, length_take. lia. Qed.

Lemma branch_four_positions history strat reason :
  (strat, reason) ∈ previously_effective (_analyze_strategy_history history) ->
  exists i eff, history !! i = Some (strat, eff)
                /\ (List.length history <= i + 5)%nat /\ (0.7 < eff)%Q.
Proof.
  intros Hin. apply previously_effective_spec in Hin as (_ & eff & Hin & Heff).
  apply last_n_lookup in Hin as (i & Hi & Hlen). by exists i, eff.
Qed.

(** Refutes membership, [H], in a list written out as appended literals
    none of whose elements can equal the member. *)
Ltac not_in_literal H :=
  repeat (apply elem_of_app in H as [H | H]);
  repeat (apply elem_of_cons in H as [H | H]; [discriminate H|]);
  by apply elem_of_nil in H.

Section History.
Context `{Environment}.

Lemma context_strategies_reason ca strat :
  (strat, STRATEGY_EFFECTIVE_PREVIOUSLY_REASON) ∉ context_strategies ca.
Proof.
  unfold context_strategies. intros Hin.
  repeat case_match; not_in_literal Hin.
Qed.

Lemma fallback_strategies_reason eff strat :
  (strat, STRATEGY_EFFECTIVE_PREVIOUSLY_REASON) ∉ fallback_strategies eff.
Proof.
  unfold fallback_strategies. intros Hin.
  repeat case_match; not_in_literal Hin.
Qed.

Lemma run_strategy_history lang rs :
  strategy_history (run (new_processor lang) rs) = last_n 20 (recorded rs).
Proof.
  induction rs as [|r rs IH] using rev_ind; [done|].
  rewrite run_snoc. unfold recorded in *. rewrite bind_app.
  destruct r as [input now|focus depth|strat eff ctx]; simpl.
  - rewrite app_nil_r. by destruct (is_blank _).
  - by rewrite app_nil_r.
  - rewrite IH. apply record_effectiveness_last_n.
Qed.

Lemma suggested_from_branch_four p context_text effectiveness current_strategy strat :
  let served := suggest_next_thinking_strategy p context_text effectiveness
                  current_strategy in
  (strat, STRATEGY_EFFECTIVE_PREVIOUSLY_REASON) ∈ suggested_strategies (snd served) ->
  (strat, STRATEGY_EFFECTIVE_PREVIOUSLY_REASON)
    ∈ previously_effective (_analyze_strategy_history (strategy_history (fst served))).
Proof.
  simpl.
  set (recs := context_strategies _ ++ previously_effective _).
  destruct recs as [|r recs'] eqn:E.
  - intros Hin. by apply fallback_strategies_reason in Hin.
  - rewrite <- E. subst recs. intros [Hin | Hin]%elem_of_app; [|done].
    by apply context_strategies_reason in Hin.
Qed.

Lemma suggested_with_reason_count p context_text effectiveness current_strategy :
  let served := suggest_next_thinking_strategy p context_text effectiveness
                  current_strategy in
  (List.length (filter (fun sr => sr.2 = STRATEGY_EFFECTIVE_PREVIOUSLY_REASON)
                       (suggested_strategies (snd served))) <= 2)%nat.
Proof.
  simpl.
  set (recs := context_strategies _ ++ previously_effective _).
  destruct recs as [|r recs'] eqn:E.
  - rewrite filter_none; [simpl; lia|].
    intros [strat reason] Hin. simpl. intros ->.
    by apply fallback_strategies_reason in Hin.
  - rewrite <- E. subst recs. rewrite filter_app, length_app.
    rewrite filter_none.
    + simpl. etrans; [apply length_filter | apply previously_effective_length].
    + intros [strat reason] Hin. simpl. intros ->.
      by apply context_strategies_reason in Hin.
Qed.

(** C5.  After any run of requests from a new processor the strategy
    history is the last twenty recorded pairs in recording order; a
    further call records exactly its own pair at the end; every
    strategy that branch 4 proposes is the strategy of a history entry
    at one of the last five positions with effectiveness above 0.7,
    and branch 4 proposes at most two; in the result, the suggestions
    carrying the previously-effective reason are branch 4's, so they
    too sit at one of the last five positions with effectiveness above
    0.7 and are at most two. *)
Theorem strategy_history_rolling (lang : Language) (rs : list Request)
    (context_text : string) (effectiveness : Q) (current_strategy : ThinkingStrategy) :
  let p := run (new_processor lang) rs in
  let served := suggest_next_thinking_strategy p context_text effectiveness
                  current_strategy in
  let history := strategy_history (fst served) in
  let branch_four := previously_effective (_analyze_strategy_history history) in
  let among_last_five := fun strat =>
    exists i eff, history !! i = Some (strat, eff)
                  /\ (List.length history <= i + 5)%nat /\ (0.7 < eff)%Q in
  strategy_history p = last_n 20 (recorded rs)
  /\ (List.length (strategy_history p) <= 20)%nat
  /\ history = last_n 20 (recorded rs ++ [(current_strategy, effectiveness)])
  /\ last history = Some (current_strategy, effectiveness)
  /\ (forall strat reason, (strat, reason) ∈ branch_four -> among_last_five strat)
  /\ (List.length branch_four <= 2)%nat
  /\ (forall strat,
        (strat, STRATEGY_EFFECTIVE_PREVIOUSLY_REASON)
          ∈ suggested_strategies (snd served) ->
        (strat, STRATEGY_EFFECTIVE_PREVIOUSLY_REASON) ∈ branch_four
        /\ among_last_five strat)
  /\ (List.length (filter (fun sr => sr.2 = STRATEGY_EFFECTIVE_PREVIOUSLY_REASON)
                          (suggested_strategies (snd served))) <= 2)%nat.
Proof.
  intros p served history branch_four among_last_five.
  assert (strategy_history p = last_n 20 (recorded rs)) as Hp
    by apply run_strategy_history.
  split; [done|]. split; [rewrite Hp; apply last_n_length|].
  split.
  { subst history served. simpl. rewrite Hp. apply record_effectiveness_last_n. }
  split; [apply record_effectiveness_last|].
  split; [intros strat reason; apply branch_four_positions|].
  split; [apply previously_effective_length|].
  split.
  - intros strat Hin.
    apply suggested_from_branch_four in Hin.
    split; [done|]. by eapply branch_four_positions.
  - apply suggested_with_reason_count.
Qed.
End History.

(* ------------------------------------------------------------------ *)
(** ** Tools on sessions, blank input, depth and analysis switch *)
(* ------------------------------------------------------------------ *)

Section SessionTools.
Context `{Environment}.

(** C2, as amended.  With the server initialized, the json export of a
    session whose list is empty has thought count zero and no
    thoughts; the export of a name that is not a key of the session
    map is the session-not-found error.  The current session becomes
    a key with an empty list when a metacognitive analysis reads it. *)
Theorem export_never_populated_session (srv : EnhancedThinkingServer)
    (session_id : option string) (now : Clock) (event_in_time : bool) :
  ensure_initialized srv event_in_time = true ->
  let p := thinking_processor srv in
  let name := default (current_session_id p) session_id in
  (thought_sessions p !! name = Some [] ->
     export_thinking_session srv session_id "json" now event_in_time
     = ExportJson name (isoformat now) 0 [])
  /\ (thought_sessions p !! name = None ->
        export_thinking_session srv session_id "json" now event_in_time
        = ExportError ERROR_SESSION_NOT_FOUND)
  /\ (forall focus depth,
        thought_sessions p !! current_session_id p = None ->
        thought_sessions (fst (perform_metacognitive_analysis p focus depth))
          !! current_session_id p = Some []).
Proof.
  intros Hinit p name. unfold export_thinking_session. rewrite Hinit. simpl.
  fold p. fold name. split; [|split].
  - by intros ->.
  - by intros ->.
  - intros focus depth Hnone. simpl. unfold session_touch. rewrite Hnone.
    by rewrite lookup_insert_eq.
Qed.

(** C8.  A request whose content is blank after trimming is answered
    with an error payload and leaves the server, and so the store,
    the sessions and every children list, as they were; once the
    server is initialized the error is the empty-content one. *)
Theorem enhanced_thinking_rejects_blank (srv : EnhancedThinkingServer)
    (input : EnhancedThinkingInput) (now : Clock) (event_in_time : bool) :
  Text.strip (thought input) = "" ->
  exists error,
    enhanced_thinking srv input now event_in_time = (srv, ThinkingFailed error)
    /\ (ensure_initialized srv event_in_time = true ->
          error = ERROR_EMPTY_THOUGHT_CONTENT).
Proof.
  intros Hblank. unfold enhanced_thinking.
  destruct (ensure_initialized srv event_in_time); simpl.
  - unfold is_blank. rewrite Hblank. simpl. rewrite orb_true_r. by eexists.
  - eexists. split; [done|]. discriminate.
Qed.

(** C9.  The metacognitive analysis returns the same result, and the
    same processor, for any two depths between 1 and 5. *)
Theorem metacognitive_analysis_ignores_depth (p : EnhancedThinkingProcessor)
    (focus : string) (d1 d2 : Z) :
  (1 <= d1 <= 5)%Z -> (1 <= d2 <= 5)%Z ->
  perform_metacognitive_analysis p focus d1 = perform_metacognitive_analysis p focus d2.
Proof. reflexivity. Qed.

(** C10.  A thought created with [request_analysis] off is stored
    with the default metrics, confidence level [MEDIUM] included,
    whatever confidence the caller supplied. *)
Theorem create_thought_without_analysis (p : EnhancedThinkingProcessor)
    (input : EnhancedThinkingInput) (now : Clock) :
  request_analysis input = false ->
  let created := create_thought p input now in
  metrics (snd created) = default_metrics
  /\ thoughts (fst created) !! thought_id (snd created) = Some (snd created)
  /\ confidence_level (metrics (snd created)) = MEDIUM.
Proof.
  intros Hoff. simpl. rewrite Hoff.
  split; [done|]. split; [by rewrite lookup_insert_eq | done].
Qed.
End SessionTools.

(* ------------------------------------------------------------------ *)
(** ** The properties on the example states *)
(* ------------------------------------------------------------------ *)

Lemma detect_cognitive_biases_iff_witness :
  "confirmation bias"
    ∈ @detect_cognitive_biases plain_environment En
        "This assertion is ALWAYS right and never wrong"
  /\ @detect_cognitive_biases plain_environment En "The sky is blue today" = [].
Proof.
  split.
  - apply (@detect_cognitive_biases_iff plain_environment En
             "This assertion is ALWAYS right and never wrong").
    eexists. split; [apply list_elem_of_here|]. split.
    + exists 0%nat, 1%nat, "always", "never".
      split; [lia|]. split; [reflexivity|]. split; [reflexivity|]. split.
      * exists "this assertion is ", " right and never wrong". reflexivity.
      * exists "this assertion is always right and ", " wrong". reflexivity.
    + exists "assertion". split; [apply list_elem_of_here|].
      exists "this ", " is always right and never wrong". reflexivity.
  - apply (@detect_cognitive_biases_iff plain_environment En "The sky is blue today").
    intros bias_name bias_data marker Hb Hm Ho.
    apply contains_occurs in Ho. revert Ho.
    repeat (apply elem_of_cons in Hb as [Hb | Hb];
            [injection Hb as -> ->;
             repeat (apply elem_of_cons in Hm as [-> | Hm]; [vm_compute; discriminate|]);
             by apply elem_of_nil in Hm|]).
    by apply elem_of_nil in Hb.
Defined.

Lemma get_thinking_path_self_parent_diverges :
  ~ exists fuel path,
      get_thinking_path fuel self_parent_processor "thought_1_120000" = Some path.
Proof.
  intros (fuel & path & Hpath).
  unfold get_thinking_path in Hpath.
  assert (exists t, thoughts self_parent_processor !! "thought_1_120000" = Some t
                    /\ truthy_id (parent_id t) = Some "thought_1_120000")
    as (t & Hl & Hp).
  { eexists. split; [vm_compute; reflexivity | reflexivity]. }
  rewrite Hl in Hpath.
  remember (thoughts self_parent_processor) as store eqn:Hstore. clear Hstore.
  assert (forall n acc, walk_parents n store t acc = None) as Hloop.
  { induction n as [|n IH]; intros acc; simpl; [done|].
    rewrite Hp, Hl. apply IH. }
  by rewrite Hloop in Hpath.
Qed.

Lemma get_thinking_path_acyclic_witness :
  get_thinking_path 7 two_thought_processor "thought_9_120000" = Some []
  /\ ((2 <= size (thoughts two_thought_processor))%nat
      /\ exists path,
           get_thinking_path 2 two_thought_processor "thought_2_120000" = Some path
           /\ List.length path = 2%nat)
  /\ (let created := @create_thought plain_environment (new_processor En)
                       (example_input "The data shows 95% improvement" None)
                       example_clock in
      get_thinking_path 1 (fst created) (thought_id (snd created)) = Some [snd created]).
Proof.
  split.
  { apply (@get_thinking_path_acyclic plain_environment two_thought_processor).
    vm_compute. reflexivity. }
  split; cycle 1.
  { apply (@get_thinking_path_acyclic plain_environment (new_processor En));
      [reflexivity | lia]. }
  assert (exists t1 t2,
            thoughts two_thought_processor !! "thought_1_120000" = Some t1
            /\ thoughts two_thought_processor !! "thought_2_120000" = Some t2
            /\ truthy_id (parent_id t1) = None
            /\ truthy_id (parent_id t2) = Some "thought_1_120000")
    as (t1 & t2 & H1 & H2 & Hp1 & Hp2).
  { do 2 eexists. split; [vm_compute; reflexivity|].
    split; [vm_compute; reflexivity|]. split; reflexivity. }
  destruct (@get_thinking_path_acyclic plain_environment two_thought_processor)
    as (_ & Hchain & _).
  destruct (Hchain "thought_2_120000" t2 2%nat H2) as [Hsize Hpath].
  { eapply chain_parent; [exact Hp2 | exact H1 | by apply chain_root]. }
  split; [exact Hsize | apply Hpath; lia].
Defined.

Lemma create_thought_links_witness :
  (exists parent,
     thoughts two_thought_processor !! "thought_1_120000" = Some parent
     /\ count_occ string_dec (children_ids parent) "thought_2_120000" = 1%nat)
  /\ (let created := @create_thought plain_environment two_thought_processor
                       (example_input "A remark on something else"
                          (Some "thought_77_120000")) example_clock in
      parent_id (snd created) = Some "thought_77_120000"
      /\ thoughts (fst created) !! thought_id (snd created) = Some (snd created)
      /\ forall k, k <> thought_id (snd created) ->
           thoughts (fst created) !! k = thoughts two_thought_processor !! k).
Proof.
  set (first := Think (example_input "The data shows 95% improvement" None) example_clock).
  set (second := Think (example_input "Possibly this result is not reproducible"
                          (Some "thought_1_120000")) example_clock).
  split.
  - assert (@reachable plain_environment (@run plain_environment (new_processor En) [first]))
      as Hreach by (by exists En, [first]).
    destruct (@create_thought_links plain_environment _
                (example_input "Possibly this result is not reproducible"
                   (Some "thought_1_120000"))
                example_clock "thought_1_120000" Hreach eq_refl) as [Hknown _].
    apply Hknown. vm_compute. eauto.
  - assert (@reachable plain_environment two_thought_processor)
      as Hreach by (by exists En, [first; second]).
    destruct (@create_thought_links plain_environment two_thought_processor
                (example_input "A remark on something else" (Some "thought_77_120000"))
                example_clock "thought_77_120000" Hreach eq_refl) as [_ Hunknown].
    apply Hunknown. vm_compute. reflexivity.
Defined.

Lemma coherence_score_formula_witness :
  exists a,
    @analyze_session_coherence plain_environment two_thought_processor (Some "default")
    = CoherenceAnalysis a
    /\ (coherence_score a == 1)%Q.
Proof.
  assert (@reachable plain_environment two_thought_processor) as Hreach.
  { exists En, [Think (example_input "The data shows 95% improvement" None) example_clock;
                Think (example_input "Possibly this result is not reproducible"
                         (Some "thought_1_120000")) example_clock].
    reflexivity. }
  destruct (@coherence_score_formula plain_environment two_thought_processor "default"
              ["thought_1_120000"; "thought_2_120000"] Hreach)
    as (a & Ha & _ & _ & _ & Hzero & _).
  { vm_compute. reflexivity. }
  { discriminate. }
  exists a. split; [exact Ha|]. apply Hzero.
  injection Ha as <-. reflexivity.
Defined.

Lemma strategy_history_rolling_witness :
  let rs := [Adapt CRITICAL 0.9 "review the plan"; Adapt LINEAR 0.2 "review the plan";
             Adapt LINEAR 0.3 "review the plan"; Adapt LINEAR 0.4 "review the plan";
             Adapt TREE 0.8 "review the plan"] in
  let served := @suggest_next_thinking_strategy plain_environment
                  (@run plain_environment (new_processor En) rs)
                  "review the plan" 0.2 LINEAR in
  (exists i eff, strategy_history (fst served) !! i = Some (TREE, eff)
                 /\ (List.length (strategy_history (fst served)) <= i + 5)%nat
                 /\ (0.7 < eff)%Q)
  /\ (CRITICAL, STRATEGY_EFFECTIVE_PREVIOUSLY_REASON)
       ∉ suggested_strategies (snd served).
Proof.
  intros rs served.
  destruct (@strategy_history_rolling plain_environment En rs "review the plan" 0.2 LINEAR)
    as (_ & _ & _ & _ & _ & _ & Hresult & _).
  split.
  - apply (Hresult TREE). apply list_elem_of_In. vm_compute. left. reflexivity.
  - intros Hin. apply Hresult in Hin as [_ (i & eff & Hi & Hlen & Heff)].
    vm_compute in Hlen.
    do 6 (destruct i as [|i]; [vm_compute in Hi; first [discriminate Hi | lia]|]).
    vm_compute in Hi. discriminate Hi.
Defined.

Lemma export_fresh_session_is_error :
  @export_thinking_session plain_environment (started_server En) None "json"
    example_clock true
  = ExportError ERROR_SESSION_NOT_FOUND
  /\ ~ exists session_id export_timestamp,
         @export_thinking_session plain_environment (started_server En) None "json"
           example_clock true
         = ExportJson session_id export_timestamp 0 [].
Proof.
  split; [reflexivity|]. intros (sid & ts & Heq). discriminate Heq.
Qed.

Lemma export_never_populated_session_witness :
  @export_thinking_session plain_environment
    (with_processor (started_server En)
       (fst (perform_metacognitive_analysis (new_processor En) "planning" 3)))
    None "json" example_clock true
  = ExportJson "default" "2024-01-01T12:00:00" 0 []
  /\ @export_thinking_session plain_environment (started_server En)
       (Some "review") "json" example_clock true
     = ExportError ERROR_SESSION_NOT_FOUND.
Proof.
  split.
  - apply (@export_never_populated_session plain_environment
             (with_processor (started_server En)
                (fst (perform_metacognitive_analysis (new_processor En) "planning" 3)))
             None example_clock true eq_refl).
    reflexivity.
  - apply (@export_never_populated_session plain_environment (started_server En)
             (Some "review") example_clock true eq_refl).
    reflexivity.
Defined.

Lemma enhanced_thinking_rejects_blank_witness :
  exists error,
    @enhanced_thinking plain_environment (started_server En)
      (example_input unicode_blank None) example_clock true
    = (started_server En, ThinkingFailed error)
    /\ (ensure_initialized (started_server En) true = true ->
          error = ERROR_EMPTY_THOUGHT_CONTENT).
Proof.
  apply (@enhanced_thinking_rejects_blank plain_environment (started_server En)
           (example_input unicode_blank None) example_clock true).
  vm_compute. reflexivity.
Defined.

Lemma metacognitive_analysis_ignores_depth_witness :
  perform_metacognitive_analysis two_thought_processor "planning" 1
  = perform_metacognitive_analysis two_thought_processor "planning" 5.
Proof.
  apply (metacognitive_analysis_ignores_depth two_thought_processor "planning" 1 5); lia.
Defined.

Lemma create_thought_without_analysis_witness :
  let input :=
    {| thought := "Definitely the best plan"; in_thought_type := ANALYSIS;
       in_strategy := CRITICAL; parent_thought_id := None; revision_of_id := None;
       in_branch_id := None; supports_thoughts := []; contradicts_thoughts := [];
       builds_on_thoughts := []; in_tags := []; confidence := Some VERY_HIGH;
       response_language := None; request_analysis := false;
       request_validation := true |} in
  let created := @create_thought plain_environment (new_processor En) input example_clock in
  metrics (snd created) = default_metrics
  /\ thoughts (fst created) !! thought_id (snd created) = Some (snd created)
  /\ confidence_level (metrics (snd created)) = MEDIUM.
Proof.
  intros input.
  apply (@create_thought_without_analysis plain_environment (new_processor En) input
           example_clock).
  reflexivity.
Defined.

(* ================================================================== *)
(** * Further properties                                             *)
(* ================================================================== *)


(* ------------------------------------------------------------------ *)
(** ** Text primitives *)
(* ------------------------------------------------------------------ *)

(* ---- text ---- *)

(** The cut into characters loses nothing and yields no empty character. *)
Lemma chars_nonempty s : Forall (fun ch => ch <> "") (Text.chars s).
Proof.
  induction s as [|c s IH]; simpl; [constructor|].
  destruct (Text.chars s) as [|ch chs]; [by repeat constructor|].
  apply Forall_cons in IH as [Hch Hchs].
  destruct (Text.continues s); by repeat constructor.
Qed.

Lemma chars_nil s : Text.chars s = [] <-> s = "".
Proof.
  destruct s as [|c s]; [done|]. split; [|done]. simpl.
  destruct (Text.chars s); [done|]. by destruct (Text.continues s).
Qed.

Lemma join_chars s : Text.join (Text.chars s) = s.
Proof.
  induction s as [|c s IH]; [done|]. simpl.
  destruct (Text.chars s) as [|ch chs] eqn:E.
  { apply chars_nil in E. by subst. }
  destruct (Text.continues s).
  - change (String c (Text.join (ch :: chs)) = String c s). by rewrite IH.
  - change (String c (Text.join (ch :: chs)) = String c s). by rewrite IH.
Qed.

Lemma len_zero s : Text.len s = 0%nat <-> s = "".
Proof. unfold Text.len. rewrite length_zero_iff_nil. apply chars_nil. Qed.

Lemma join_nil chs : Forall (fun ch => ch <> "") chs -> Text.join chs = "" -> chs = [].
Proof.
  destruct 1 as [|ch chs Hch _]; [done|]. simpl. by destruct ch.
Qed.

Lemma append_not_empty cur ch : ch <> "" -> Text.is_empty (cur +:+ ch) = false.
Proof. destruct cur; [|done]. by destruct ch. Qed.

Lemma split_go_nil cur chs :
  Forall (fun ch => ch <> "") chs ->
  Text.split_go cur chs = [] <-> cur = "" /\ forallb Text.isspace chs = true.
Proof.
  intros Hne. revert cur. induction Hne as [|ch chs Hch _ IH]; intros cur; simpl.
  - destruct cur; simpl; split; try done; by intros [? _].
  - destruct (Text.isspace ch); simpl.
    + destruct cur; simpl; [rewrite IH; tauto|]. split; [done | by intros [? _]].
    + rewrite IH. split; [|by intros [_ ?]].
      intros [Hs _]. pose proof (append_not_empty cur ch Hch) as He.
      by rewrite Hs in He.
Qed.

Lemma lstrip_chars_nil chs :
  Text.lstrip_chars chs = [] <-> forallb Text.isspace chs = true.
Proof.
  induction chs as [|ch chs IH]; simpl; [done|].
  destruct (Text.isspace ch); simpl; [done|]. split; done.
Qed.

Lemma rstrip_chars_nil chs :
  Text.rstrip_chars chs = [] <-> forallb Text.isspace chs = true.
Proof.
  induction chs as [|ch chs IH]; simpl; [done|].
  destruct (Text.rstrip_chars chs) as [|d r] eqn:E.
  - destruct (Text.isspace ch); simpl; [tauto|]. split; done.
  - split; [done|]. intros [_ Hs]%andb_true_iff. apply IH in Hs. done.
Qed.

Lemma lstrip_chars_all_space chs :
  forallb Text.isspace (Text.lstrip_chars chs) = true -> forallb Text.isspace chs = true.
Proof.
  induction chs as [|ch chs IH]; simpl; [done|].
  destruct (Text.isspace ch) eqn:E; simpl; [done|]. by rewrite E.
Qed.

Lemma lstrip_chars_nonempty chs :
  Forall (fun ch => ch <> "") chs -> Forall (fun ch => ch <> "") (Text.lstrip_chars chs).
Proof.
  induction 1 as [|ch chs Hch Hchs IH]; simpl; [constructor|].
  destruct (Text.isspace ch); [done | by constructor].
Qed.

Lemma rstrip_chars_nonempty chs :
  Forall (fun ch => ch <> "") chs -> Forall (fun ch => ch <> "") (Text.rstrip_chars chs).
Proof.
  induction 1 as [|ch chs Hch Hchs IH]; simpl; [constructor|].
  destruct (Text.rstrip_chars chs) as [|d r].
  - destruct (Text.isspace ch); by repeat constructor.
  - by constructor.
Qed.

Lemma strip_empty s : Text.strip s = "" <-> all_space s = true.
Proof.
  unfold Text.strip, all_space. split.
  - intros Hj. apply join_nil in Hj.
    + apply lstrip_chars_all_space. by apply rstrip_chars_nil.
    + apply rstrip_chars_nonempty, lstrip_chars_nonempty, chars_nonempty.
  - intros Hs. apply lstrip_chars_nil in Hs. by rewrite Hs.
Qed.

(** The character functions on text outside ASCII: Cyrillic letters
    whose bytes include 0x85, 0xA0, 0xB2 or 0xB3 are neither white space
    nor digits, and white space outside ASCII separates words. *)
Example text_primitives_on_unicode :
  Text.split ("Решение хорошее" +:+ unicode_blank +:+ "привет") =
    ["Решение"; "хорошее"; "привет"]
  /\ Text.len "хорошее" = 7%nat
  /\ Text.any_digit "привет, Решение" = false
  /\ Text.any_digit "x²" = true
  /\ Text.strip (unicode_blank +:+ "мир" +:+ unicode_blank) = "мир".
Proof. vm_compute. by repeat split. Qed.

(** X1. Python's [needle in hay]: the check holds exactly when
    the text splits into a part before the needle, the needle and a part
    after it. *)
Theorem contains_iff_infix (needle hay : string) :
  Text.contains needle hay = true <->
  exists before after, hay = before +:+ needle +:+ after.
Proof.
  induction hay as [|c hay IH].
  - change (Text.contains needle "") with (String.prefix needle "" || false).
    rewrite orb_false_r, prefix_app. split.
    + intros (rest & Hrest). by exists "", rest.
    + intros (before & after & Heq). destruct before; [by exists after|done].
  - change (Text.contains needle (String c hay))
      with (String.prefix needle (String c hay) || Text.contains needle hay).
    rewrite orb_true_iff, prefix_app, IH. split.
    + intros [(rest & Hrest) | (before & after & ->)].
      * by exists "", rest.
      * by exists (String c before), after.
    + intros ([|d before] & after & Heq).
      * left. by exists after.
      * right.
        change (String c hay = String d (before +:+ needle +:+ after)) in Heq.
        injection Heq as -> ->. by exists before, after.
Qed.

(** X2.  The blank check of the tool rejects exactly the texts
    without a word. *)
Theorem is_blank_iff_no_words (text : string) :
  is_blank text = true <-> Text.split text = [].
Proof.
  unfold is_blank, Text.split.
  rewrite split_go_nil by apply chars_nonempty.
  fold (all_space text). rewrite <- strip_empty.
  rewrite orb_true_iff, Nat.eqb_eq, len_zero. split.
  - intros [He | Hs]; [|done]. destruct text; [done | discriminate].
  - intros [_ ->]. by right.
Qed.

(* ------------------------------------------------------------------ *)
(** ** Analyzer and validator *)
(* ------------------------------------------------------------------ *)

Section AnalyzerFacts.
Context `{Environment}.

(** X3.  Of the twelve strategy scores only the one of the declared
    strategy can differ from zero. *)
Theorem only_declared_strategy_scored (lang : Language) (text : string)
    (declared other : ThinkingStrategy) :
  other <> declared ->
  strategy_score (analyze_thought_quality lang text declared) other = 0%Q.
Proof.
  intros Hne. unfold analyze_thought_quality.
  destruct (Text.is_empty (Text.strip text)); [by destruct other|].
  destruct declared, other; try done.
Qed.

(** X4.  The analysis derives LOW, MEDIUM or HIGH only; a stored thought
    carries one of the two extreme levels only when the caller supplied
    it and asked for the analysis. *)
Theorem extreme_confidence_is_supplied (p : EnhancedThinkingProcessor)
    (input : EnhancedThinkingInput) (now : Clock) (level : ConfidenceLevel) :
  level = VERY_LOW \/ level = VERY_HIGH ->
  confidence_level (metrics (snd (create_thought p input now))) = level ->
  request_analysis input = true /\ confidence input = Some level.
Proof.
  intros Hlevel. simpl.
  destruct (request_analysis input); [|simpl; intros <-; by destruct Hlevel].
  destruct (confidence input) as [c|]; [by intros [= ->]|].
  unfold analyze_thought_quality.
  destruct (Text.is_empty _); simpl; [intros <-; by destruct Hlevel|].
  unfold derived_confidence. repeat case_match; intros <-; by destruct Hlevel.
Qed.

Lemma detect_in_sublist thought_lower biases :
  detect_in thought_lower biases `sublist_of` (fst <$> biases).
Proof.
  induction biases as [|[name data] biases IH]; simpl; [constructor|].
  destruct (bias_fires thought_lower data); by constructor.
Qed.

(** X5.  The detected biases are names of the catalog, in catalog order,
    each reported at most as often as the catalog lists it. *)
Theorem detected_biases_in_catalog_order (lang : Language) (text : string) :
  detect_cognitive_biases lang text `sublist_of` (fst <$> COGNITIVE_BIAS_MARKERS lang)
  /\ (List.length (detect_cognitive_biases lang text)
      <= List.length (COGNITIVE_BIAS_MARKERS lang))%nat
  /\ (NoDup (fst <$> COGNITIVE_BIAS_MARKERS lang) ->
      NoDup (detect_cognitive_biases lang text)).
Proof.
  pose proof (detect_in_sublist (lower text) (COGNITIVE_BIAS_MARKERS lang)) as Hsub.
  split; [done|]. split.
  - apply sublist_length in Hsub. by rewrite length_fmap in Hsub.
  - intros Hnd. by eapply sublist_NoDup.
Qed.

(* ---- consistency check ---- *)

Lemma pair_conflicts_sound matrix i j thought1 thought2 words found c :
  pair_conflicts matrix i j thought1 thought2 words = Some found ->
  c ∈ found ->
  exists neg pos row sim,
    conflict_thoughts c = (i, j)
    /\ (neg, pos) ∈ words
    /\ Text.contains neg (lower thought1) = true
    /\ Text.contains pos (lower thought2) = true
    /\ matrix !! i = Some row /\ row !! j = Some sim
    /\ (sim < 0.3)%Q /\ conflict_confidence c = (1 - sim)%Q.
Proof.
  revert found. induction words as [|[neg pos] words IH]; intros found; simpl.
  - intros [= <-] Hc. by apply elem_of_nil in Hc.
  - destruct (Text.contains neg (lower thought1) && Text.contains pos (lower thought2))
      eqn:Ehit.
    + destruct (matrix !! i) as [row|] eqn:Erow; simpl; [|done].
      rewrite <- Erow in IH |- *.
      destruct (row !! j) as [sim|] eqn:Esim; simpl; [|done].
      destruct (pair_conflicts matrix i j thought1 thought2 words) as [rest|] eqn:Erest;
        simpl; [|done].
      intros [= <-] Hc.
      assert (c ∈ rest ->
              exists neg0 pos0 row0 sim0,
                conflict_thoughts c = (i, j) /\ (neg0, pos0) ∈ (neg, pos) :: words
                /\ Text.contains neg0 (lower thought1) = true
                /\ Text.contains pos0 (lower thought2) = true
                /\ matrix !! i = Some row0 /\ row0 !! j = Some sim0
                /\ (sim0 < 0.3)%Q /\ conflict_confidence c = (1 - sim0)%Q) as Hrest.
      { intros Hin. destruct (IH rest eq_refl Hin)
          as (n & q & r & s & ? & ? & ? & ? & ? & ? & ? & ?).
        exists n, q, r, s.
        split_and!; first [done | congruence | by apply list_elem_of_further]. }
      destruct (Qltb sim 0.3) eqn:Elt; [|by apply Hrest].
      apply elem_of_cons in Hc as [-> | Hc]; [|by apply Hrest].
      apply andb_true_iff in Ehit as [Hneg Hpos].
      exists neg, pos, row, sim. simpl. split_and!; try done.
      * apply list_elem_of_here.
      * by apply Qltb_lt.
    + intros Hfound Hc.
      destruct (IH found Hfound Hc) as (n & q & r & s & ? & ? & ? & ? & ? & ? & ? & ?).
      exists n, q, r, s.
      split_and!; first [done | congruence | by apply list_elem_of_further].
Qed.

Lemma conflicts_with_sound matrix words i thought1 j later found c :
  conflicts_with matrix words i thought1 j later = Some found ->
  c ∈ found ->
  exists offset thought2 neg pos row sim,
    conflict_thoughts c = (i, (j + offset)%nat)
    /\ later !! offset = Some thought2
    /\ (neg, pos) ∈ words
    /\ Text.contains neg (lower thought1) = true
    /\ Text.contains pos (lower thought2) = true
    /\ matrix !! i = Some row /\ row !! (j + offset)%nat = Some sim
    /\ (sim < 0.3)%Q /\ conflict_confidence c = (1 - sim)%Q.
Proof.
  revert j found. induction later as [|thought2 later IH]; intros j found; simpl.
  - intros [= <-] Hc. by apply elem_of_nil in Hc.
  - destruct (pair_conflicts matrix i j thought1 thought2 words) as [here|] eqn:Ehere;
      simpl; [|done].
    destruct (conflicts_with matrix words i thought1 (S j) later) as [rest|] eqn:Erest;
      simpl; [|done].
    intros [= <-] [Hc | Hc]%elem_of_app.
    + destruct (pair_conflicts_sound _ _ _ _ _ _ _ _ Ehere Hc)
        as (n & q & r & s & ? & ? & ? & ? & ? & ? & ? & ?).
      exists 0%nat, thought2, n, q, r, s. rewrite Nat.add_0_r. by split_and!.
    + destruct (IH (S j) rest Erest Hc)
        as (o & t2 & n & q & r & s & Hidx & ? & ? & ? & ? & ? & Hsim & ? & ?).
      exists (S o), t2, n, q, r, s.
      replace (j + S o)%nat with (S j + o)%nat by lia. by split_and!.
Qed.

Lemma conflicts_from_sound matrix words start thoughts found c :
  conflicts_from matrix words start thoughts = Some found ->
  c ∈ found ->
  exists i j thought1 thought2 neg pos row sim,
    conflict_thoughts c = ((start + i)%nat, (start + j)%nat) /\ (i < j)%nat
    /\ thoughts !! i = Some thought1 /\ thoughts !! j = Some thought2
    /\ (neg, pos) ∈ words
    /\ Text.contains neg (lower thought1) = true
    /\ Text.contains pos (lower thought2) = true
    /\ matrix !! (start + i)%nat = Some row /\ row !! (start + j)%nat = Some sim
    /\ (sim < 0.3)%Q /\ conflict_confidence c = (1 - sim)%Q.
Proof.
  revert start found. induction thoughts as [|thought1 later IH]; intros start found; simpl.
  - intros [= <-] Hc. by apply elem_of_nil in Hc.
  - destruct (conflicts_with matrix words start thought1 (S start) later) as [here|] eqn:Ehere;
      simpl; [|done].
    destruct (conflicts_from matrix words (S start) later) as [rest|] eqn:Erest;
      simpl; [|done].
    intros [= <-] [Hc | Hc]%elem_of_app.
    + destruct (conflicts_with_sound _ _ _ _ _ _ _ _ Ehere Hc)
        as (o & t2 & n & q & r & s & Hidx & ? & ? & ? & ? & ? & Hsim & ? & ?).
      exists 0%nat, (S o), thought1, t2, n, q, r, s.
      rewrite Nat.add_0_r. replace (start + S o)%nat with (S start + o)%nat by lia.
      split_and!; try done. lia.
    + destruct (IH (S start) rest Erest Hc)
        as (i & j & t1 & t2 & n & q & r & s & Hidx & ? & ? & ? & ? & ? & ? & ? & ? & ? & ?).
      exists (S i), (S j), t1, t2, n, q, r, s.
      replace (start + S i)%nat with (S start + i)%nat by lia.
      replace (start + S j)%nat with (S start + j)%nat by lia.
      split_and!; try done. lia.
Qed.

(** X6.  The consistency check reports consistency exactly when it
    records no conflict; without the analysis libraries, with fewer than
    two texts or when the similarity computation fails it records none;
    and every conflict it records is justified by the texts and by the
    similarity matrix it returns. *)
Theorem check_logical_consistency_sound (lang : Language) (thoughts : list string) :
  let r := check_logical_consistency lang thoughts in
  (consistent r = true <-> conflicts r = [])
  /\ (HAS_ANALYSIS_LIBS = false \/ (List.length thoughts < 2)%nat
      \/ tfidf_cosine_similarity thoughts = None -> r = no_conflicts)
  /\ (forall c, c ∈ conflicts r ->
        conflict_justified lang thoughts (similarity_matrix r) c).
Proof.
  unfold check_logical_consistency.
  destruct HAS_ANALYSIS_LIBS; simpl;
    [|split; [done|]; split; [done|]; by intros c ?%elem_of_nil].
  destruct (Nat.ltb (List.length thoughts) 2) eqn:Elen;
    [split; [done|]; split; [done|]; by intros c ?%elem_of_nil|].
  apply Nat.ltb_ge in Elen.
  destruct (tfidf_cosine_similarity thoughts) as [matrix|];
    [|split; [done|]; split; [done|]; by intros c ?%elem_of_nil].
  destruct (conflicts_from matrix (CONTRADICTION_WORDS lang) 0 thoughts) as [found|] eqn:E;
    [|split; [done|]; split; [intros [?|[?|?]]; [done | lia | done]|];
      by intros c ?%elem_of_nil].
  simpl. split; [|split].
  - rewrite Nat.eqb_eq. by destruct found.
  - intros [?|[?|?]]; [done | lia | done].
  - intros c Hc.
    destruct (conflicts_from_sound _ _ _ _ _ _ E Hc)
      as (i & j & t1 & t2 & n & q & r & s & ? & ? & ? & ? & ? & ? & ? & ? & ? & ? & ?).
    exists i, j, t1, t2, n, q, r, s. by split_and!.
Qed.

(* ---- context analysis ---- *)

Lemma re_split_go_not_nil cur in_run s : Text.re_split_go cur in_run s <> [].
Proof.
  revert cur in_run. induction s as [|c s IH]; intros cur in_run; simpl; [done|].
  destruct (Text.is_sentence_end c); [destruct in_run|]; try done; apply IH.
Qed.

(** X7.  The three scores of the context analysis lie in [0, 1], and
    the sentence count that the complexity divides by is never zero. *)
Theorem context_analysis_bounds (lang : Language) (text : string) :
  unit_interval (complexity (analyze_context lang text))
  /\ unit_interval (ambiguity (analyze_context lang text))
  /\ unit_interval (emotional_tone (analyze_context lang text))
  /\ (1 <= List.length (Text.re_split_sentences text))%nat.
Proof.
  simpl. split; [|split; [|split]].
  - unfold _analyze_complexity.
    destruct (Text.is_empty _); [apply unit_interval_0|].
    destruct (Nat.eqb _ 0); [apply unit_interval_0|].
    apply Qmin_1_unit, Qdiv_nonneg; [|lra].
    destruct (Nat.ltb 0 _); [|lra].
    apply Qmult_le_0_compat; apply Qdiv_nonneg; apply Qnat_nonneg.
  - unfold _analyze_ambiguity. apply Qmin_1_unit.
    destruct (Nat.ltb 0 _); [|lra].
    apply Qdiv_nonneg; [apply Qnat_nonneg|].
    apply Qmult_le_0_compat; [apply Qnat_nonneg | lra].
  - unfold _analyze_emotional_tone.
    set (pos := count_if _ (positive_words _)).
    set (neg := count_if _ (negative_words _)).
    destruct (Nat.eqb (pos + neg) 0) eqn:E; [apply unit_interval_0|].
    apply Nat.eqb_neq in E.
    assert (0 < Qnat (pos + neg))%Q as Hpos by (apply Qnat_pos; lia).
    split.
    + apply Qdiv_nonneg; [apply Qabs_nonneg | lra].
    + apply Qle_shift_div_r; [done|]. rewrite Qmult_1_l.
      apply Qabs_Qle_condition. unfold Qnat.
      rewrite <- inject_Z_opp, <- !Zle_Qle. lia.
  - unfold Text.re_split_sentences.
    pose proof (re_split_go_not_nil "" false text) as Hne.
    destruct (Text.re_split_go "" false text); [done | simpl; lia].
Qed.

End AnalyzerFacts.

Lemma only_declared_strategy_scored_witness :
  strategy_score
    (@analyze_thought_quality plain_environment En
       "We should consider the plan because it saves time" CRITICAL) SYSTEMIC
  = 0%Q.
Proof.
  apply (@only_declared_strategy_scored plain_environment En
           "We should consider the plan because it saves time" CRITICAL SYSTEMIC).
  discriminate.
Defined.

Lemma extreme_confidence_is_supplied_witness :
  let input :=
    {| thought := "Surely this works"; in_thought_type := ANALYSIS;
       in_strategy := LINEAR; parent_thought_id := None; revision_of_id := None;
       in_branch_id := None; supports_thoughts := []; contradicts_thoughts := [];
       builds_on_thoughts := []; in_tags := []; confidence := Some VERY_HIGH;
       response_language := None; request_analysis := true;
       request_validation := true |} in
  request_analysis input = true /\ confidence input = Some VERY_HIGH.
Proof.
  intros input.
  apply (@extreme_confidence_is_supplied plain_environment (new_processor En) input
           example_clock VERY_HIGH); [by right | reflexivity].
Defined.

Lemma detected_biases_in_catalog_order_witness :
  NoDup (@detect_cognitive_biases plain_environment En
           "It is always and never an assertion without evidence").
Proof.
  apply (@detected_biases_in_catalog_order plain_environment En
           "It is always and never an assertion without evidence").
  vm_compute. repeat (constructor; [by vm_compute; intros ?%list_elem_of_In; simpl in *; intuition discriminate|]).
  constructor.
Defined.

(* ------------------------------------------------------------------ *)
(** ** The store of a reachable processor *)
(* ------------------------------------------------------------------ *)

Lemma extends_refl t : extends t t.
Proof. split; [by destruct t | done]. Qed.

Lemma extends_trans t1 t2 t3 : extends t1 t2 -> extends t2 t3 -> extends t1 t3.
Proof.
  intros [H12 P12] [H23 P23]. split; [|by etrans].
  rewrite H23 at 1. rewrite H12. reflexivity.
Qed.

Lemma with_confidence_unit m c :
  metrics_in_unit_interval m -> metrics_in_unit_interval (with_confidence m c).
Proof. done. Qed.

Lemma link_extends store t k t0 :
  store !! k = Some t0 ->
  exists t1, _update_thought_relationships store t !! k = Some t1 /\ extends t0 t1.
Proof.
  intros Hk. destruct (link_lookup store t k) as [Heq | (parent & _ & Hs & _ & Heq)].
  - exists t0. split; [congruence | apply extends_refl].
  - rewrite Heq. eexists. split; [done|].
    assert (parent = t0) as -> by congruence.
    split; [done|]. simpl. by apply prefix_app_r.
Qed.

Lemma link_dom store t :
  dom (_update_thought_relationships store t) = dom store.
Proof.
  apply set_eq. intros k. rewrite !elem_of_dom. apply link_is_Some.
Qed.

Section StoreFacts.
Context `{Environment}.

Lemma analyze_thought_quality_unit lang text strat :
  metrics_in_unit_interval (analyze_thought_quality lang text strat).
Proof.
  unfold analyze_thought_quality.
  destruct (Text.is_empty (Text.strip text)); [apply default_metrics_unit|].
  unfold metrics_in_unit_interval; simpl.
  pose proof (clarity_and_complexity_unit text) as [Hc1 Hc2].
  split_and!;
    try (by apply Hc1); try (by apply Hc2);
    try (by apply novelty_of_unit);
    try (apply Qmin_1_unit, Qdiv_nonneg; [apply Qnat_nonneg | lra]);
    try (destruct strat;
         first [apply unit_interval_0 | apply _analyze_specific_strategy_unit]).
Qed.

Lemma build_thought_unit p input now :
  metrics_in_unit_interval (metrics (build_thought p input now)).
Proof.
  simpl. destruct (request_analysis input); [|apply default_metrics_unit].
  destruct (confidence input); [apply with_confidence_unit|];
    apply analyze_thought_quality_unit.
Qed.

Lemma create_thought_lookup_old p input now k t0 :
  well_formed p -> thoughts p !! k = Some t0 ->
  exists t1, thoughts (fst (create_thought p input now)) !! k = Some t1 /\ extends t0 t1.
Proof.
  intros Hwf Hk. pose proof (create_thought_fresh p input now Hwf) as Hfresh.
  simpl in *. rewrite lookup_insert_ne by congruence. by apply link_extends.
Qed.

Lemma create_thought_filed p input now :
  filed_and_scored p -> filed_and_scored (fst (create_thought p input now)).
Proof.
  intros Hfs k t. simpl.
  destruct (decide (format_thought_id (S (global_thought_counter p)) now = k)) as [<-|Hne].
  - rewrite lookup_insert_eq. intros [= <-]. split; [done | apply build_thought_unit].
  - rewrite lookup_insert_ne by done. intros Hk.
    destruct (link_lookup (thoughts p) (build_thought p input now) k)
      as [Heq | (parent & _ & Hs & _ & Heq)].
    + apply Hfs. congruence.
    + rewrite Heq in Hk. injection Hk as <-. exact (Hfs k parent Hs).
Qed.

Lemma create_thought_mirror p input now :
  well_formed p -> children_mirror_parents p ->
  children_mirror_parents (fst (create_thought p input now)).
Proof.
  intros Hwf Hm k t c Hk Hc.
  pose proof (create_thought_fresh p input now Hwf) as Hfresh.
  assert (forall c0 k0 child0,
            thoughts p !! c0 = Some child0 -> parent_id child0 = Some k0 ->
            exists child, thoughts (fst (create_thought p input now)) !! c0 = Some child
                          /\ parent_id child = Some k0) as Hold.
  { intros c0 k0 child0 Hc0 Hp0.
    destruct (create_thought_lookup_old p input now c0 child0 Hwf Hc0)
      as (child & Hchild & [Heq _]).
    exists child. split; [done|]. by rewrite Heq. }
  simpl in *.
  destruct (decide (format_thought_id (S (global_thought_counter p)) now = k)) as [<-|Hne].
  { rewrite lookup_insert_eq in Hk. injection Hk as <-. by apply elem_of_nil in Hc. }
  rewrite lookup_insert_ne in Hk by done.
  destruct (link_lookup (thoughts p) (build_thought p input now) k)
    as [Heq | (parent & Hpid & Hs & _ & Heq)].
  - rewrite Heq in Hk. destruct (Hm k t c Hk Hc) as (child0 & Hc0 & Hp0).
    by eapply Hold.
  - rewrite Heq in Hk. injection Hk as <-. simpl in Hc.
    apply elem_of_app in Hc as [Hc | ->%list_elem_of_singleton].
    + destruct (Hm k parent c Hs Hc) as (child0 & Hc0 & Hp0). by eapply Hold.
    + simpl. rewrite lookup_insert_eq. eexists. split; [done|]. simpl.
      simpl in Hpid. destruct (parent_thought_id input) as [x|]; [|done].
      simpl in Hpid. destruct (Text.is_empty x); congruence.
Qed.

Lemma create_thought_size p input now :
  well_formed p ->
  size (thoughts (fst (create_thought p input now))) = S (size (thoughts p)).
Proof.
  intros Hwf. pose proof (create_thought_fresh p input now Hwf) as Hfresh. simpl in *.
  rewrite map_size_insert_None.
  - by rewrite <- !size_dom, link_dom.
  - apply eq_None_not_Some. rewrite link_is_Some. by rewrite Hfresh; intros [? ?].
Qed.

Lemma create_thought_single_session p input now :
  well_formed p -> single_session p -> single_session (fst (create_thought p input now)).
Proof.
  intros Hwf (Hcur & Hkeys & Hlen & Hsize & Hidx).
  split; [done|]. split; [|split; [|split]].
  - intros sid. simpl. unfold session_append. rewrite Hcur.
    destruct (decide ("default" = sid)) as [<-|Hne]; [done|].
    rewrite lookup_insert_ne by done. apply Hkeys.
  - simpl. unfold session_append. rewrite Hcur, lookup_insert_eq. simpl.
    rewrite length_app. simpl. lia.
  - rewrite create_thought_size by done. simpl. lia.
  - intros i id. simpl. unfold session_append. rewrite Hcur, lookup_insert_eq. simpl.
    intros Hi. apply lookup_app_Some in Hi as [Hi | [Hge Hi]]; [by apply Hidx|].
    apply list_lookup_singleton_Some in Hi as [Hi <-].
    exists now. f_equal. lia.
Qed.

Lemma serve_invariants p r :
  well_formed p ->
  filed_and_scored p /\ children_mirror_parents p /\ single_session p ->
  filed_and_scored (serve p r) /\ children_mirror_parents (serve p r)
  /\ single_session (serve p r).
Proof.
  intros Hwf (Hf & Hm & Hs). destruct r as [input now|focus depth|strat eff ctx]; simpl.
  - destruct (is_blank _); [done|].
    split; [by apply create_thought_filed|].
    split; [by apply create_thought_mirror | by apply create_thought_single_session].
  - split; [done|]. split; [done|].
    destruct Hs as (Hcur & Hkeys & Hlen & Hsize & Hidx).
    split; [done|]. simpl. unfold session_touch. rewrite Hcur.
    destruct (thought_sessions p !! "default") as [ids|] eqn:E; [by rewrite E|].
    rewrite lookup_insert_eq. split; [|done].
    intros sid. destruct (decide ("default" = sid)) as [<-|Hne]; [done|].
    rewrite lookup_insert_ne by done. apply Hkeys.
  - done.
Qed.

Lemma reachable_invariants p :
  reachable p ->
  filed_and_scored p /\ children_mirror_parents p /\ single_session p.
Proof.
  intros (lang & rs & ->).
  induction rs as [|r rs IH] using rev_ind.
  - split; [|split].
    + intros k t. simpl. by rewrite lookup_empty.
    + intros k t c. simpl. by rewrite lookup_empty.
    + split; [done|]. split; [|split; [done|split; [done|]]].
      * intros sid. simpl. rewrite lookup_empty. by intros [? ?].
      * intros i id. simpl. rewrite lookup_empty. simpl. by rewrite lookup_nil.
  - rewrite run_snoc. apply serve_invariants; [|done].
    apply run_well_formed, new_processor_well_formed.
Qed.

Lemma serve_extends p r k t0 :
  well_formed p -> thoughts p !! k = Some t0 ->
  exists t1, thoughts (serve p r) !! k = Some t1 /\ extends t0 t1.
Proof.
  intros Hwf Hk. destruct r as [input now|focus depth|strat eff ctx]; simpl.
  - destruct (is_blank _); [|by apply create_thought_lookup_old].
    exists t0. split; [done | apply extends_refl].
  - exists t0. split; [done | apply extends_refl].
  - exists t0. split; [done | apply extends_refl].
Qed.

Lemma run_extends p rs k t0 :
  well_formed p -> thoughts p !! k = Some t0 ->
  exists t1, thoughts (run p rs) !! k = Some t1 /\ extends t0 t1.
Proof.
  intros Hwf Hk. induction rs as [|r rs IH] using rev_ind.
  - exists t0. split; [done | apply extends_refl].
  - destruct IH as (t1 & H1 & E1). rewrite run_snoc.
    destruct (serve_extends (run p rs) r k t1) as (t2 & H2 & E2);
      [by apply run_well_formed | done|].
    exists t2. split; [done | by eapply extends_trans].
Qed.

(** X8.  In a reachable processor every thought is stored under its own
    id, each of its float metrics lies in [0, 1], and every id found in a
    children list names a stored thought whose parent link points back
    to the owner of the list. *)
Theorem reachable_store_consistent (p : EnhancedThinkingProcessor) :
  reachable p ->
  (forall k t, thoughts p !! k = Some t ->
     thought_id t = k /\ metrics_in_unit_interval (metrics t))
  /\ (forall k t c, thoughts p !! k = Some t -> c ∈ children_ids t ->
        exists child, thoughts p !! c = Some child /\ parent_id child = Some k).
Proof.
  intros Hreach. destruct (reachable_invariants p Hreach) as (Hf & Hm & _). by split.
Qed.

(** X9.  A reachable processor has no session but ["default"]; that
    session lists as many ids as the counter has issued and as the store
    holds thoughts, in creation order (position [i] holds the id with
    counter [i + 1]), so no id occurs twice in it. *)
Theorem reachable_single_session (p : EnhancedThinkingProcessor) :
  reachable p ->
  let ids := default [] (thought_sessions p !! "default") in
  current_session_id p = "default"
  /\ (forall sid, is_Some (thought_sessions p !! sid) -> sid = "default")
  /\ List.length ids = global_thought_counter p
  /\ size (thoughts p) = global_thought_counter p
  /\ (forall i id, ids !! i = Some id -> exists now, id = format_thought_id (S i) now)
  /\ NoDup ids.
Proof.
  intros Hreach ids.
  destruct (reachable_invariants p Hreach) as (_ & _ & Hcur & Hkeys & Hlen & Hsize & Hidx).
  split_and!; try done.
  apply NoDup_alt. intros i j id Hi Hj.
  destruct (Hidx i id Hi) as (now & ->). destruct (Hidx j _ Hj) as (now' & Heq).
  apply format_thought_id_inj in Heq. lia.
Qed.

(** X10.  Creating a thought in a reachable processor never overwrites:
    its id is new to the store, the store grows by exactly one entry,
    the new thought is stored as returned and is appended to the end of
    the current session, and the counter goes up by one. *)
Theorem create_thought_adds_one (p : EnhancedThinkingProcessor)
    (input : EnhancedThinkingInput) (now : Clock) :
  reachable p ->
  let created := create_thought p input now in
  thoughts p !! thought_id (snd created) = None
  /\ thoughts (fst created) !! thought_id (snd created) = Some (snd created)
  /\ size (thoughts (fst created)) = S (size (thoughts p))
  /\ thought_sessions (fst created) !! current_session_id p
     = Some (default [] (thought_sessions p !! current_session_id p)
             ++ [thought_id (snd created)])
  /\ global_thought_counter (fst created) = S (global_thought_counter p).
Proof.
  intros Hreach created. pose proof (reachable_well_formed p Hreach) as Hwf.
  split_and!.
  - by apply create_thought_fresh.
  - simpl. by rewrite lookup_insert_eq.
  - by apply create_thought_size.
  - simpl. unfold session_append. by rewrite lookup_insert_eq.
  - done.
Qed.

(** X11.  Whatever requests follow, a stored thought stays stored under
    its id and keeps every field; only its children list may grow, at
    its end. *)
Theorem stored_thoughts_only_gain_children (p : EnhancedThinkingProcessor)
    (rs : list Request) (k : string) (t : EnhancedThought) :
  reachable p ->
  thoughts p !! k = Some t ->
  exists t', thoughts (run p rs) !! k = Some t'
             /\ t' = with_children t (children_ids t')
             /\ children_ids t `prefix_of` children_ids t'.
Proof.
  intros Hreach Hk. pose proof (reachable_well_formed p Hreach) as Hwf.
  destruct (run_extends p rs k t Hwf Hk) as (t' & Ht' & Hext & Hpre). by exists t'.
Qed.

End StoreFacts.

(* ------------------------------------------------------------------ *)
(** ** Reports and recommendations *)
(* ------------------------------------------------------------------ *)

Lemma resolve_elem_of store ids t :
  t ∈ resolve store ids -> exists k, k ∈ ids /\ store !! k = Some t.
Proof. unfold resolve. by rewrite list_elem_of_omap. Qed.

Lemma Forall_unit_last (l : list Q) :
  Forall unit_interval l -> unit_interval (List.last l 0%Q).
Proof.
  induction 1 as [|x l Hx Hl IH]; [apply unit_interval_0|].
  destruct l; [done|]. exact IH.
Qed.

Lemma Forall_unit_hd (l : list Q) :
  Forall unit_interval l -> unit_interval (List.hd 0%Q l).
Proof. destruct 1; [apply unit_interval_0 | done]. Qed.

Lemma avg_quality_unit t :
  metrics_in_unit_interval (metrics t) -> unit_interval (avg_quality t).
Proof.
  intros (Hc & Hl & He & _). unfold avg_quality, unit_interval in *.
  split; [apply Qle_shift_div_l | apply Qle_shift_div_r]; lra.
Qed.

Lemma foldl_Qplus_fmap {A} (f : A -> Q) (l : list A) (total : Q) :
  foldl (fun acc x => acc + f x)%Q total l = foldl Qplus total (f <$> l).
Proof. by rewrite foldl_fmap. Qed.

Section ReportFacts.
Context `{Environment}.

Lemma resolve_scored p ids :
  filed_and_scored p ->
  Forall (fun t => metrics_in_unit_interval (metrics t)) (resolve (thoughts p) ids).
Proof.
  intros Hfs. apply Forall_forall. intros t Ht.
  apply resolve_elem_of in Ht as (k & _ & Hk). by apply Hfs in Hk as [_ ?].
Qed.

(** X12.  Every full coherence report of a reachable processor has an
    average quality in [0, 1], a quality trend in [-1, 1] that is zero
    for a session of one thought, a coherence score of at most one and a
    thought count of at least one. *)
Theorem coherence_report_bounds (p : EnhancedThinkingProcessor)
    (session_id : option string) (a : SessionAnalysis) :
  reachable p ->
  analyze_session_coherence p session_id = CoherenceAnalysis a ->
  unit_interval (average_quality a)
  /\ (-1 <= quality_trend a <= 1)%Q
  /\ (thought_count a = 1%nat -> quality_trend a = 0%Q)
  /\ (coherence_score a <= 1)%Q
  /\ (1 <= thought_count a)%nat.
Proof.
  intros Hreach. destruct (reachable_invariants p Hreach) as (Hfs & _ & _).
  unfold analyze_session_coherence.
  destruct (thought_sessions p !! _) as [ids|]; [|done].
  pose proof (resolve_scored p ids Hfs) as Hall.
  set (ts := resolve (thoughts p) ids) in *.
  destruct (content <$> ts) as [|c cs] eqn:Ec; [done|].
  assert (Forall unit_interval (avg_quality <$> ts)) as Hq.
  { apply Forall_fmap. eapply Forall_impl; [exact Hall|]. apply avg_quality_unit. }
  assert (List.length (avg_quality <$> ts) = S (List.length cs)) as Hlen.
  { rewrite length_fmap, <- (length_fmap content), Ec. done. }
  intros [= <-]. cbn [average_quality quality_trend thought_count coherence_score].
  split; [|split; [|split; [|split]]].
  - destruct (avg_quality <$> ts) eqn:Eq; [done|]. rewrite <- Eq in *.
    apply mean_unit; [done|]. by rewrite Eq.
  - destruct (Nat.ltb 1 _); [|lra].
    pose proof (Forall_unit_last _ Hq) as [? ?].
    pose proof (Forall_unit_hd _ Hq) as [? ?]. lra.
  - intros Hone. rewrite Hlen. cbn [List.length] in Hone.
    replace (List.length cs) with 0%nat by lia. done.
  - set (q := (Qnat _ / Qnat _)%Q).
    assert (0 <= q)%Q by (apply Qdiv_nonneg; apply Qnat_nonneg).
    clearbody q. lra.
  - cbn [List.length]. lia.
Qed.

(** X13.  The metacognitive analysis of a reachable processor answers
    "no thoughts" exactly when no thought has been created; otherwise
    its strategy effectiveness and its cognitive load lie in [0, 1]. *)
Theorem metacognitive_report_bounds (p : EnhancedThinkingProcessor)
    (focus : string) (depth : Z) :
  reachable p ->
  match snd (perform_metacognitive_analysis p focus depth) with
  | MetaNoThoughts _ => global_thought_counter p = 0%nat
  | MetaAnalysis a =>
      (1 <= global_thought_counter p)%nat
      /\ focus_area a = focus
      /\ unit_interval (strategy_effectiveness a)
      /\ unit_interval (cognitive_load a)
  end.
Proof.
  intros Hreach.
  destruct (reachable_invariants p Hreach) as (Hfs & _ & Hcur & _ & Hlen & _ & _).
  destruct (reachable_well_formed p Hreach) as (_ & _ & Hsess).
  simpl. rewrite Hcur.
  set (ids := default [] (thought_sessions p !! "default")) in *.
  assert (List.length (resolve (thoughts p) ids) = global_thought_counter p) as Hres.
  { rewrite <- Hlen. apply resolve_length. intros id Hid. subst ids.
    destruct (thought_sessions p !! "default") as [l|] eqn:E;
      [by eapply Hsess | by apply elem_of_nil in Hid]. }
  pose proof (resolve_scored p ids Hfs) as Hall.
  destruct (resolve (thoughts p) ids) as [|t ts] eqn:E; [done|].
  cbn [focus_area strategy_effectiveness cognitive_load].
  split; [simpl in Hres; lia|]. split; [done|].
  assert (0 < Qnat (List.length (t :: ts)))%Q as Hpos by (apply Qnat_pos; simpl; lia).
  split.
  - pose (quality := fun t0 : EnhancedThought =>
              ((clarity_score (metrics t0) + logical_coherence (metrics t0)
                + evidence_strength (metrics t0) + novelty_score (metrics t0)) / 4)%Q).
    change (_evaluate_strategy_effectiveness (t :: ts))
      with (foldl (fun acc x => acc + quality x) 0 (t :: ts)
            / Qnat (List.length (t :: ts)))%Q.
    rewrite (foldl_Qplus_fmap quality).
    assert (Forall unit_interval (quality <$> t :: ts)) as Hq.
    { apply Forall_fmap. eapply Forall_impl; [exact Hall|].
      intros t0 (Hc & Hl & He & Hn & _). unfold quality, unit_interval in *.
      split; [apply Qle_shift_div_l | apply Qle_shift_div_r]; lra. }
    destruct (foldl_Qplus_bounds _ 0 Hq) as [H0 H1]. rewrite length_fmap in H1.
    split; [apply Qle_shift_div_l | apply Qle_shift_div_r]; lra.
  - unfold _assess_cognitive_load. apply Qmin_1_unit.
    apply Qle_shift_div_l; [lra|]. rewrite Qmult_0_l.
    assert (0 <= Qsum ((fun t0 => complexity_score (metrics t0)) <$> t :: ts))%Q as Hc.
    { assert (Forall unit_interval ((fun t0 => complexity_score (metrics t0)) <$> t :: ts))
        as Hq.
      { apply Forall_fmap. eapply Forall_impl; [exact Hall|].
        by intros t0 (_ & _ & _ & _ & Hc & _). }
      by destruct (Qsum_bounds _ Hq). }
    assert (forall (l : list EnhancedThought) (a : Q),
              (0 <= a)%Q ->
              (0 <= foldl (fun total t0 =>
                             total + Qnat (List.length (supports t0)
                                           + List.length (contradicts t0)
                                           + List.length (builds_on t0)) / 10) a l)%Q)
      as Hconn.
    { induction l as [|x l IH]; intros a Ha; simpl; [done|]. apply IH.
      assert (0 <= Qnat (List.length (supports x) + List.length (contradicts x)
                         + List.length (builds_on x)) / 10)%Q
        by (apply Qdiv_nonneg; [apply Qnat_nonneg | lra]).
      lra. }
    specialize (Hconn (t :: ts) 0%Q (Qle_refl 0)).
    assert (forall x, (0 <= x)%Q -> (0 <= x / Qnat (List.length (t :: ts)))%Q) as Hdiv.
    { intros x Hx. apply Qle_shift_div_l; [done | lra]. }
    apply Hdiv in Hc. apply Hdiv in Hconn. lra.
Qed.

(** X14.  The metacognitive analysis changes nothing but the session map,
    where it enters the current session when it is missing; running it
    again changes nothing more and gives the same answer. *)
Theorem metacognitive_analysis_settles (p : EnhancedThinkingProcessor)
    (focus focus' : string) (depth depth' : Z) :
  let p1 := fst (perform_metacognitive_analysis p focus depth) in
  thoughts p1 = thoughts p
  /\ strategy_history p1 = strategy_history p
  /\ global_thought_counter p1 = global_thought_counter p
  /\ is_Some (thought_sessions p1 !! current_session_id p)
  /\ (forall sid, sid <> current_session_id p ->
        thought_sessions p1 !! sid = thought_sessions p !! sid)
  /\ fst (perform_metacognitive_analysis p1 focus' depth') = p1
  /\ snd (perform_metacognitive_analysis p1 focus depth)
     = snd (perform_metacognitive_analysis p focus depth).
Proof.
  simpl. unfold session_touch.
  destruct (thought_sessions p !! current_session_id p) as [ids|] eqn:E.
  - rewrite E. by split_and!.
  - rewrite !lookup_insert_eq. split_and!; try done.
    intros sid Hne. by rewrite lookup_insert_ne.
Qed.

(** X15.  A strategy adaptation always proposes between one and eight
    strategies and touches nothing but the strategy history. *)
Theorem suggestions_never_empty (p : EnhancedThinkingProcessor)
    (context_text : string) (effectiveness : Q) (current_strategy : ThinkingStrategy) :
  let served := suggest_next_thinking_strategy p context_text effectiveness
                  current_strategy in
  (1 <= List.length (suggested_strategies (snd served)) <= 8)%nat
  /\ thoughts (fst served) = thoughts p
  /\ thought_sessions (fst served) = thought_sessions p
  /\ global_thought_counter (fst served) = global_thought_counter p
  /\ language (fst served) = language p.
Proof.
  simpl. split; [|done].
  set (ca := analyze_context _ _).
  set (prev := previously_effective _).
  pose proof (previously_effective_length
                (_analyze_strategy_history
                   (record_effectiveness (strategy_history p) current_strategy effectiveness)))
    as Hprev.
  fold prev in Hprev.
  assert (List.length (context_strategies ca) <= 6)%nat as Hctx.
  { unfold context_strategies. repeat case_match; simpl; lia. }
  destruct (context_strategies ca ++ prev) as [|r recs] eqn:E.
  - unfold fallback_strategies. repeat case_match; simpl; lia.
  - rewrite <- E, length_app. split; [|lia].
    apply (f_equal List.length) in E. rewrite length_app in E. simpl in E. lia.
Qed.


End ReportFacts.

(* ------------------------------------------------------------------ *)
(** ** Counting dictionaries *)
(* ------------------------------------------------------------------ *)

Section Tally.
Context {K : Type} `{EqDecision K}.

Lemma count_of_bump (k k' : K) (d : list (K * nat)) :
  count_of k' (bump k d) = if decide (k = k') then S (count_of k' d) else count_of k' d.
Proof.
  induction d as [|[k0 n] d IH]; simpl.
  - by destruct (decide (k = k')).
  - destruct (decide (k0 = k)) as [->|Hne]; simpl.
    + by destruct (decide (k = k')).
    + destruct (decide (k0 = k')) as [->|Hne']; [|done].
      by destruct (decide (k = k')); [congruence|].
Qed.

Lemma bump_keys (k : K) (d : list (K * nat)) :
  fst <$> bump k d
  = if decide (k ∈ fst <$> d) then fst <$> d else (fst <$> d) ++ [k].
Proof.
  induction d as [|[k0 n] d IH]; csimpl.
  - destruct (decide (k ∈ [])) as [Hin|_]; [by apply elem_of_nil in Hin | done].
  - destruct (decide (k0 = k)) as [->|Hne]; csimpl.
    + destruct (decide (k ∈ k :: _)) as [_|Hnot]; [done|].
      exfalso. apply Hnot, list_elem_of_here.
    + rewrite IH. destruct (decide (k ∈ fst <$> d)) as [Hin|Hnot].
      * destruct (decide (k ∈ k0 :: _)) as [_|Hnot]; [done|].
        exfalso. by apply Hnot, list_elem_of_further.
      * destruct (decide (k ∈ k0 :: _)) as [Hin|_]; [|done].
        exfalso. apply elem_of_cons in Hin as [Heq|Hin]; [by apply Hne | by apply Hnot].
Qed.

Lemma bump_positive (k : K) (d : list (K * nat)) :
  Forall (fun kn => 0 < snd kn)%nat d -> Forall (fun kn => 0 < snd kn)%nat (bump k d).
Proof.
  induction 1 as [|[k0 n] d Hn Hd IH]; simpl.
  - repeat constructor.
  - destruct (decide (k0 = k)); constructor; simpl in *; try done; lia.
Qed.

Lemma count_of_elem_of (k : K) (n : nat) (d : list (K * nat)) :
  NoDup (fst <$> d) -> (k, n) ∈ d -> count_of k d = n.
Proof.
  induction d as [|[k0 m] d IH]; simpl; intros Hnd Hin.
  - by apply elem_of_nil in Hin.
  - apply NoDup_cons in Hnd as [Hk0 Hnd].
    apply elem_of_cons in Hin as [[= -> ->] | Hin].
    + by destruct (decide (k0 = k0)).
    + destruct (decide (k0 = k)) as [->|Hne]; [|by apply IH].
      exfalso. apply Hk0. apply list_elem_of_fmap. by exists (k, n).
Qed.

Lemma dominant_max (d : list (K * nat)) (k : K) (n : nat) :
  dominant d = Some (k, n) ->
  (k, n) ∈ d /\ forall k' n', (k', n') ∈ d -> (n' <= n)%nat.
Proof.
  revert k n. induction d as [|[k0 n0] d IH]; intros k n; simpl; [done|].
  destruct (dominant d) as [[k1 n1]|] eqn:E.
  - destruct (IH k1 n1 eq_refl) as [Hin Hmax].
    destruct (Nat.ltb n0 n1) eqn:Elt; intros [= <- <-].
    + apply Nat.ltb_lt in Elt. split; [by apply list_elem_of_further|].
      intros k' n' [[= -> ->] | Hin']%elem_of_cons; [lia | by eapply Hmax].
    + apply Nat.ltb_ge in Elt. split; [apply list_elem_of_here|].
      intros k' n' [[= -> ->] | Hin']%elem_of_cons; [lia|].
      specialize (Hmax k' n' Hin'). lia.
  - intros [= <- <-]. split; [apply list_elem_of_here|].
    destruct d as [|[k2 n2] d]; [|simpl in E; by destruct (dominant d) as [[? ?]|]; [destruct (Nat.ltb n2 _)|]].
    intros k' n' [[= -> ->] | Hin']%elem_of_cons; [lia | by apply elem_of_nil in Hin'].
Qed.

Lemma dominant_is_Some (d : list (K * nat)) : d <> [] -> is_Some (dominant d).
Proof.
  destruct d as [|[k n] d]; [done|]. intros _. simpl.
  destruct (dominant d) as [[k1 n1]|]; [destruct (Nat.ltb n n1)|]; eauto.
Qed.

Lemma count_of_zero_or_elem (k : K) (d : list (K * nat)) :
  count_of k d = 0%nat \/ (k, count_of k d) ∈ d.
Proof.
  induction d as [|[k0 n] d IH]; simpl; [by left|].
  destruct (decide (k0 = k)) as [->|Hne].
  - right. apply list_elem_of_here.
  - destruct IH as [?|?]; [by left | right; by apply list_elem_of_further].
Qed.

(** The dictionary built by [for x in l: d[f(x)] += 1]. *)
Lemma tally_spec {A} (f : A -> K) (l : list A) :
  let d := foldl (fun d x => bump (f x) d) [] l in
  (forall k, count_of k d = count_if (fun x => bool_decide (f x = k)) l)
  /\ NoDup (fst <$> d)
  /\ Forall (fun kn => 0 < snd kn)%nat d
  /\ (l <> [] -> d <> []).
Proof.
  induction l as [|x l IH] using rev_ind; simpl.
  - split; [done|]. split; [constructor|]. split; [constructor | done].
  - rewrite foldl_app. simpl. destruct IH as (Hc & Hnd & Hpos & _).
    set (d := foldl _ [] l) in *. split; [|split; [|split]].
    + intros k. rewrite count_of_bump, Hc.
      assert (forall (q : A -> bool) (a b : list A),
                count_if q (a ++ b) = (count_if q a + count_if q b)%nat) as Happ.
      { intros q a b. induction a as [|y a IHa]; simpl; [done|]. rewrite IHa. lia. }
      rewrite Happ. simpl.
      destruct (decide (f x = k)) as [Heq|Hne].
      * rewrite bool_decide_eq_true_2 by done. lia.
      * rewrite bool_decide_eq_false_2 by done. lia.
    + rewrite bump_keys. destruct (decide (f x ∈ fst <$> d)); [done|].
      apply NoDup_app. split; [done|]. split; [|apply NoDup_singleton].
      by intros y Hy ->%list_elem_of_singleton.
    + by apply bump_positive.
    + intros _. destruct d as [|[k0 n0] d']; simpl; [done|].
      by destruct (decide (k0 = f x)).
Qed.

End Tally.

Lemma size_list_to_set_le (l : list string) :
  (size (list_to_set l : gset string) <= List.length l)%nat.
Proof.
  induction l as [|x l IH].
  { rewrite list_to_set_nil, size_empty. done. }
  rewrite list_to_set_cons, size_union_alt, size_singleton. simpl.
  assert (size (list_to_set l ∖ {[x]} : gset string) <= size (list_to_set l : gset string))%nat
    by (by apply subseteq_size, subseteq_difference_l).
  lia.
Qed.

(** X17.  The pattern distributions count each thought once under its
    type and once under its strategy: the entry of a key is the number
    of thoughts with that key, absent keys count zero, no key is listed
    twice or with a zero count, and the dominant key of a non-empty list
    has the greatest count. *)
Theorem thinking_patterns_count (ts : list EnhancedThought) :
  let pat := _analyze_thinking_patterns ts in
  (forall ty, count_of ty (thought_type_distribution pat)
              = count_if (fun t => bool_decide (thought_type t = ty)) ts)
  /\ (forall s, count_of s (strategy_distribution pat)
                = count_if (fun t => bool_decide (strategy t = s)) ts)
  /\ NoDup (fst <$> thought_type_distribution pat)
  /\ NoDup (fst <$> strategy_distribution pat)
  /\ (forall ty n, (ty, n) ∈ thought_type_distribution pat -> (0 < n)%nat)
  /\ (forall s n, (s, n) ∈ strategy_distribution pat -> (0 < n)%nat)
  /\ (ts <> [] ->
      exists ty s,
        dominant_type pat = Some ty /\ dominant_strategy pat = Some s
        /\ (forall ty', count_of ty' (thought_type_distribution pat)
                        <= count_of ty (thought_type_distribution pat))%nat
        /\ (forall s', count_of s' (strategy_distribution pat)
                       <= count_of s (strategy_distribution pat))%nat).
Proof.
  intros pat.
  destruct (tally_spec thought_type ts) as (Hc1 & Hnd1 & Hpos1 & Hne1).
  destruct (tally_spec strategy ts) as (Hc2 & Hnd2 & Hpos2 & Hne2).
  subst pat. unfold _analyze_thinking_patterns.
  cbn [thought_type_distribution strategy_distribution dominant_type dominant_strategy].
  set (d1 := foldl (fun d t => bump (thought_type t) d) [] ts) in *.
  set (d2 := foldl (fun d t => bump (strategy t) d) [] ts) in *.
  split_and!; try done.
  - intros ty n Hin. rewrite Forall_forall in Hpos1. by apply (Hpos1 (ty, n)).
  - intros s n Hin. rewrite Forall_forall in Hpos2. by apply (Hpos2 (s, n)).
  - intros Hts.
    destruct (dominant_is_Some d1 (Hne1 Hts)) as [[ty n1] Hd1].
    destruct (dominant_is_Some d2 (Hne2 Hts)) as [[s n2] Hd2].
    exists ty, s. rewrite Hd1, Hd2. split; [done|]. split; [done|].
    destruct (dominant_max d1 ty n1 Hd1) as [Hin1 Hmax1].
    destruct (dominant_max d2 s n2 Hd2) as [Hin2 Hmax2].
    rewrite (count_of_elem_of ty n1 d1 Hnd1 Hin1).
    rewrite (count_of_elem_of s n2 d2 Hnd2 Hin2).
    split.
    + intros ty'. destruct (count_of_zero_or_elem ty' d1) as [-> | Hin]; [lia|].
      by eapply Hmax1.
    + intros s'. destruct (count_of_zero_or_elem s' d2) as [-> | Hin]; [lia|].
      by eapply Hmax2.
Qed.

(** X18.  The bias assessment counts every detected bias of every
    thought: the total is the sum over the thoughts, the distribution
    gives for each name the number of its occurrences, the set of
    detected names holds exactly the names that occur, and the number of
    unique names is at most the total. *)
Theorem bias_assessment_counts (ts : list EnhancedThought) :
  let b := _assess_cognitive_biases ts in
  total_biases b = foldr Nat.add 0%nat ((fun t => List.length (cognitive_biases t)) <$> ts)
  /\ (forall name, count_of name (bias_distribution b)
                   = count_if (fun x => bool_decide (x = name)) (ts ≫= cognitive_biases))
  /\ (forall name, name ∈ detected_biases b <->
                   exists t, t ∈ ts /\ name ∈ cognitive_biases t)
  /\ unique_biases b = size (detected_biases b)
  /\ (unique_biases b <= total_biases b)%nat
  /\ (total_biases b = 0%nat -> detected_biases b = ∅).
Proof.
  intros b. subst b. unfold _assess_cognitive_biases.
  cbn [total_biases bias_distribution detected_biases unique_biases].
  set (all := ts ≫= cognitive_biases).
  destruct (tally_spec (fun x : string => x) all) as (Hc & _ & _ & _).
  split_and!; try done.
  - subst all. clear Hc. induction ts as [|t ts IH]; [done|].
    rewrite bind_cons, length_app, IH. reflexivity.
  - intros name. rewrite elem_of_list_to_set. subst all.
    rewrite list_elem_of_bind. split; intros (t & ? & ?); by exists t.
  - apply size_list_to_set_le.
  - intros Hzero. apply length_zero_iff_nil in Hzero. by rewrite Hzero.
Qed.

(* ------------------------------------------------------------------ *)
(** ** Paths and exports *)
(* ------------------------------------------------------------------ *)

Lemma truthy_id_Some s x : truthy_id s = Some x -> s = Some x.
Proof.
  destruct s as [y|]; simpl; [|done]. destruct (Text.is_empty y); congruence.
Qed.

Lemma walk_parents_ancestry store fuel t acc path :
  walk_parents fuel store t acc = Some path ->
  exists visited,
    path = visited ++ acc
    /\ last visited = Some t
    /\ (List.length visited <= fuel)%nat
    /\ (forall root, head visited = Some root ->
          forall pid, truthy_id (parent_id root) = Some pid -> store !! pid = None)
    /\ (forall i x y, visited !! i = Some x -> visited !! S i = Some y ->
          exists pid, truthy_id (parent_id y) = Some pid /\ store !! pid = Some x).
Proof.
  revert t acc path. induction fuel as [|fuel IH]; intros t acc path; simpl; [done|].
  destruct (truthy_id (parent_id t)) as [pid|] eqn:Ep.
  - destruct (store !! pid) as [parent|] eqn:Es.
    + intros Hw. destruct (IH parent (t :: acc) path Hw)
        as (visited & -> & Hlast & Hlen & Hroot & Hlinks).
      exists (visited ++ [t]). rewrite <- app_assoc. split; [done|].
      split; [apply last_snoc|]. split; [rewrite length_app; simpl; lia|].
      apply last_Some in Hlast as (front & ->). split.
      * intros root Hhead. apply Hroot. destruct front; simpl in *; done.
      * intros i x y Hx Hy.
        destruct (decide (S i < List.length (front ++ [parent]))%nat) as [Hlt|Hge].
        -- rewrite lookup_app_l in Hy by done.
           rewrite lookup_app_l in Hx by lia. by eapply Hlinks.
        -- rewrite length_app in Hge. simpl in Hge.
           assert (i = List.length front) as ->.
           { apply lookup_lt_Some in Hy. rewrite !length_app in Hy. simpl in Hy. lia. }
           rewrite <- app_assoc in Hx, Hy. simpl in Hx, Hy.
           rewrite list_lookup_middle in Hx by done. injection Hx as <-.
           replace (S (List.length front)) with (List.length front + 1)%nat in Hy by lia.
           rewrite lookup_app_r in Hy by lia.
           replace (List.length front + 1 - List.length front)%nat with 1%nat in Hy by lia.
           simpl in Hy. injection Hy as <-. by exists pid.
    + intros [= <-]. exists [t]. split; [done|]. split; [done|]. split; [simpl; lia|].
      split.
      * intros root [= <-] pid' Hp'. congruence.
      * intros i x y Hx Hy. by destruct i.
  - intros [= <-]. exists [t]. split; [done|]. split; [done|]. split; [simpl; lia|].
    split.
    + intros root [= <-] pid' Hp'. congruence.
    + intros i x y Hx Hy. by destruct i.
Qed.

Lemma resolve_lookup store ids :
  (forall id, id ∈ ids -> is_Some (store !! id)) ->
  forall i id, ids !! i = Some id ->
    exists t, store !! id = Some t /\ resolve store ids !! i = Some t.
Proof.
  unfold resolve. induction ids as [|k ids IH]; intros Hall i id Hi; [done|].
  destruct (Hall k) as [tk Hk]; [apply list_elem_of_here|].
  simpl. rewrite Hk. simpl. destruct i as [|i]; simpl in *.
  - injection Hi as <-. by exists tk.
  - apply IH; [|done]. intros id' Hid'. apply Hall. by apply list_elem_of_further.
Qed.

Section PathAndExport.
Context `{Environment}.

Lemma serve_reachable p r : reachable p -> reachable (serve p r).
Proof.
  intros (lang & rs & ->). exists lang, (rs ++ [r]). by rewrite run_snoc.
Qed.

(** X19.  In a reachable processor, a path returned for a stored thought
    ends with that thought, starts at a thought whose parent (if it names
    one) is not stored, and each thought in it is the stored parent of
    the one after it; it has at least one and at most [fuel] thoughts. *)
Theorem thinking_path_is_ancestry (p : EnhancedThinkingProcessor)
    (fuel : nat) (id : string) (t : EnhancedThought) (path : list EnhancedThought) :
  reachable p ->
  thoughts p !! id = Some t ->
  get_thinking_path fuel p id = Some path ->
  last path = Some t
  /\ (1 <= List.length path <= fuel)%nat
  /\ (forall root, head path = Some root ->
        forall pid, parent_id root = Some pid -> pid <> "" -> thoughts p !! pid = None)
  /\ (forall i x y, path !! i = Some x -> path !! S i = Some y ->
        parent_id y = Some (thought_id x)
        /\ thoughts p !! thought_id x = Some x).
Proof.
  intros Hreach Hid. destruct (reachable_invariants p Hreach) as (Hfs & _ & _).
  unfold get_thinking_path. rewrite Hid. intros Hw.
  destruct (walk_parents_ancestry _ _ _ _ _ Hw) as (visited & -> & Hlast & Hlen & Hroot & Hl).
  rewrite app_nil_r. split; [done|]. split.
  { split; [|done]. apply last_Some in Hlast as (front & ->).
    rewrite length_app. simpl. lia. }
  split.
  - intros root Hhead pid Hp Hne. apply (Hroot root Hhead). rewrite Hp. simpl.
    by destruct pid.
  - intros i x y Hx Hy. destruct (Hl i x y Hx Hy) as (pid & Hp & Hs).
    destruct (Hfs pid x Hs) as [<- _]. split; [by apply truthy_id_Some | done].
Qed.

Lemma walk_parents_ends store fuel t path result :
  walk_parents fuel store t path = Some result ->
  exists n, chain_ends store t n /\ (n <= fuel)%nat.
Proof.
  revert t path. induction fuel as [|fuel IH]; intros t path; simpl; [done|].
  destruct (truthy_id (parent_id t)) as [pid|] eqn:Hp.
  - destruct (store !! pid) as [parent|] eqn:Hs.
    + intros Hw. apply IH in Hw as (n & Hn & Hle).
      exists (S n). split; [by econstructor 3 | lia].
    + intros _. exists 1%nat. split; [by econstructor 2 | lia].
  - intros _. exists 1%nat. split; [by constructor | lia].
Qed.

(** X20.  On an initialized server over a reachable processor the path
    tool answers "not found" for every id that is not stored.  For a
    stored id whose parent links end after [n] thoughts, every run of
    the loop that is given [n] iterations or more answers with path
    length [n] and [n] steps numbered from one, the last of which is
    the requested thought.  The tool gives no answer only when the
    parent links never end, and then for no number of iterations.
    Whenever it answers, "not found" means that the id is not stored. *)
Theorem path_tool_ends_at_request (srv : EnhancedThinkingServer)
    (id : string) (event_in_time : bool) :
  reachable (thinking_processor srv) ->
  ensure_initialized srv event_in_time = true ->
  let store := thoughts (thinking_processor srv) in
  (store !! id = None ->
     forall fuel,
       get_thinking_path_tool fuel srv id event_in_time = Some (PathNotFound id))
  /\ (forall t n,
        store !! id = Some t -> chain_ends store t n ->
        forall fuel, (n <= fuel)%nat ->
          exists steps,
            get_thinking_path_tool fuel srv id event_in_time
            = Some (PathFound id n steps)
            /\ List.length steps = n /\ (1 <= n)%nat
            /\ (forall i s, steps !! i = Some s -> step s = S i)
            /\ (exists s, last steps = Some s /\ step_thought_id s = id))
  /\ (forall t,
        store !! id = Some t -> (forall n, ~ chain_ends store t n) ->
        forall fuel, get_thinking_path_tool fuel srv id event_in_time = None)
  /\ (forall fuel r,
        get_thinking_path_tool fuel srv id event_in_time = Some r ->
        match r with
        | PathNotFound requested => requested = id /\ store !! id = None
        | PathFound requested path_length steps =>
            requested = id /\ is_Some (store !! id)
            /\ path_length = List.length steps /\ (1 <= path_length)%nat
            /\ (forall i s, steps !! i = Some s -> step s = S i)
            /\ (exists s, last steps = Some s /\ step_thought_id s = id)
        | PathFailed _ => False
        end).
Proof.
  intros Hreach Hinit store. destruct (reachable_invariants _ Hreach) as (Hfs & _ & _).
  assert (forall fuel t path,
            store !! id = Some t -> walk_parents fuel store t [] = Some path ->
            exists front,
              path = front ++ [t]
              /\ get_thinking_path_tool fuel srv id event_in_time
                 = Some (PathFound id (List.length path) (imap path_step path))
              /\ (forall i s, imap path_step path !! i = Some s -> step s = S i)
              /\ (exists s, last (imap path_step path) = Some s
                            /\ step_thought_id s = id)) as Hfound.
  { intros fuel t path Hid Hw.
    destruct (walk_parents_ancestry _ _ _ _ _ Hw) as (visited & -> & Hlast & _).
    rewrite app_nil_r in *. apply last_Some in Hlast as (front & ->).
    exists front. split; [done|]. split.
    - unfold get_thinking_path_tool, get_thinking_path. rewrite Hinit. simpl.
      fold store. rewrite Hid, Hw. simpl.
      destruct (front ++ [t]) as [|x l] eqn:E; [by destruct front | done].
    - split.
      + intros i s Hs. apply list_lookup_imap_Some in Hs as (x' & _ & ->). done.
      + exists (path_step (List.length front) t). split.
        * rewrite imap_app. simpl. rewrite Nat.add_0_r. apply last_snoc.
        * simpl. by destruct (Hfs id t Hid). }
  split; [|split; [|split]].
  - intros Hid fuel. unfold get_thinking_path_tool, get_thinking_path.
    rewrite Hinit. simpl. fold store. by rewrite Hid.
  - intros t n Hid Hc fuel Hfuel.
    destruct (walk_parents_chain _ _ _ Hc fuel [] Hfuel) as (visited & Hw & Hlen).
    rewrite app_nil_r in Hw.
    destruct (Hfound fuel t visited Hid Hw) as (front & _ & Htool & Hnum & Hlast).
    exists (imap path_step visited). rewrite Hlen in Htool.
    split; [done|]. split; [by rewrite length_imap|].
    split; [by eapply chain_ends_pos | done].
  - intros t Hid Hnever fuel.
    unfold get_thinking_path_tool, get_thinking_path. rewrite Hinit. simpl.
    fold store. rewrite Hid.
    destruct (walk_parents fuel store t []) as [path|] eqn:Hw; [|done].
    apply walk_parents_ends in Hw as (n & Hn & _). by destruct (Hnever n).
  - intros fuel r.
    destruct (store !! id) as [t|] eqn:Hid.
    + destruct (walk_parents fuel store t []) as [path|] eqn:Hw.
      * destruct (Hfound fuel t path eq_refl Hw) as (front & Hpath & -> & Hnum & Hlast).
        intros [= <-]. split; [done|]. split; [by eexists|].
        split; [by rewrite length_imap|]. split; [|done].
        rewrite Hpath, length_app. simpl. lia.
      * unfold get_thinking_path_tool, get_thinking_path. rewrite Hinit. simpl.
        fold store. by rewrite Hid, Hw.
    + unfold get_thinking_path_tool, get_thinking_path. rewrite Hinit. simpl.
      fold store. rewrite Hid. by intros [= <-].
Qed.

Lemma export_json_reachable (srv : EnhancedThinkingServer) (session_id : option string)
    (now : Clock) (event_in_time : bool) (ids : list string) :
  reachable (thinking_processor srv) ->
  ensure_initialized srv event_in_time = true ->
  let p := thinking_processor srv in
  let name := default (current_session_id p) session_id in
  thought_sessions p !! name = Some ids ->
  exists exported,
    export_thinking_session srv session_id "json" now event_in_time
    = ExportJson name (isoformat now) (List.length ids) exported
    /\ ex_id <$> exported = ids
    /\ (forall i id, ids !! i = Some id ->
          exists t, thoughts p !! id = Some t /\ exported !! i = Some (export_thought t)).
Proof.
  intros Hreach Hinit p name Hids.
  destruct (reachable_invariants _ Hreach) as (Hfs & _ & _).
  destruct (reachable_well_formed _ Hreach) as (_ & _ & Hsess).
  assert (forall id, id ∈ ids -> is_Some (thoughts p !! id)) as Hall
    by (intros id; by apply Hsess with name).
  unfold export_thinking_session. rewrite Hinit. simpl. fold p. fold name. rewrite Hids.
  eexists. split; [by rewrite resolve_length|].
  assert (forall i id, ids !! i = Some id ->
            exists t, thoughts p !! id = Some t
                      /\ (export_thought <$> resolve (thoughts p) ids) !! i
                         = Some (export_thought t)) as Hentries.
  { intros i id Hi. destruct (resolve_lookup _ _ Hall i id Hi) as (t & Ht & Hr).
    exists t. split; [done|]. by rewrite list_lookup_fmap, Hr. }
  split; [|done].
  apply list_eq. intros i. rewrite list_lookup_fmap.
  destruct (ids !! i) as [id|] eqn:Hi.
  - destruct (Hentries i id Hi) as (t & Ht & ->). simpl. f_equal. by destruct (Hfs id t Ht).
  - apply lookup_ge_None in Hi.
    rewrite (lookup_ge_None_2 (export_thought <$> _)); [done|].
    by rewrite length_fmap, resolve_length.
Qed.

(** X21.  On an initialized server over a reachable processor, the json
    export of a known session holds one entry per id of the session, in
    session order, each being the stored thought of that id. *)
Theorem export_json_lists_session (srv : EnhancedThinkingServer)
    (session_id : option string) (now : Clock) (event_in_time : bool)
    (ids : list string) :
  reachable (thinking_processor srv) ->
  ensure_initialized srv event_in_time = true ->
  let p := thinking_processor srv in
  let name := default (current_session_id p) session_id in
  thought_sessions p !! name = Some ids ->
  exists exported,
    export_thinking_session srv session_id "json" now event_in_time
    = ExportJson name (isoformat now) (List.length ids) exported
    /\ ex_id <$> exported = ids
    /\ (forall i id, ids !! i = Some id ->
          exists t, thoughts p !! id = Some t /\ exported !! i = Some (export_thought t)).
Proof. apply export_json_reachable. Qed.

(** X22.  A thought accepted by the tool [enhanced_thinking] is the last
    entry of the next json export of the current session, whose thought
    count is the number of thoughts created so far. *)
Theorem created_thought_is_exported_last (srv srv' : EnhancedThinkingServer)
    (input : EnhancedThinkingInput) (now now' : Clock) (event_in_time : bool)
    (t : EnhancedThought) :
  reachable (thinking_processor srv) ->
  _initialized srv = true ->
  enhanced_thinking srv input now event_in_time = (srv', ThoughtCreated t) ->
  exists exported,
    export_thinking_session srv' None "json" now' event_in_time
    = ExportJson "default" (isoformat now')
        (S (global_thought_counter (thinking_processor srv))) exported
    /\ last exported = Some (export_thought t).
Proof.
  intros Hreach Hinit. unfold enhanced_thinking, ensure_initialized. rewrite Hinit. simpl.
  destruct (is_blank (thought input)) eqn:Hblank; [done|].
  intros Hcreated.
  set (p := thinking_processor srv) in *.
  set (p' := fst (create_thought p input now)).
  assert (srv' = with_processor srv p') as ->
    by (simpl in Hcreated; injection Hcreated as <- _; reflexivity).
  assert (t = snd (create_thought p input now)) as ->
    by (simpl in Hcreated; injection Hcreated as <-; reflexivity).
  clear Hcreated.
  assert (reachable p') as Hreach'.
  { replace p' with (serve p (Think input now)); [by apply serve_reachable|].
    simpl. by rewrite Hblank. }
  destruct (reachable_invariants p Hreach) as (_ & _ & Hcur & _ & Hlen & _ & _).
  set (ids := default [] (thought_sessions p !! "default")) in *.
  set (id := format_thought_id (S (global_thought_counter p)) now).
  assert (thought_sessions p' !! "default" = Some (ids ++ [id])) as Hids.
  { subst p'. simpl. unfold session_append. by rewrite Hcur, lookup_insert_eq. }
  destruct (export_json_reachable (with_processor srv p') None now' event_in_time
              (ids ++ [id])) as (exported & Hexp & Hmap & Hentries).
  { done. }
  { unfold ensure_initialized. simpl. by rewrite Hinit. }
  { change (thought_sessions p' !! current_session_id p = Some (ids ++ [id])).
    by rewrite Hcur. }
  exists exported. split.
  - rewrite Hexp. simpl. rewrite Hcur, length_app, Hlen. simpl.
    by rewrite Nat.add_1_r.
  - destruct (Hentries (List.length ids) id) as (t' & Ht' & Hlast).
    { by rewrite list_lookup_middle. }
    assert (List.length exported = S (List.length ids)) as Hlen'.
    { rewrite <- (length_fmap ex_id), Hmap, length_app. simpl. lia. }
    rewrite last_lookup, Hlen'. simpl. rewrite Hlast. f_equal. f_equal.
    subst p'. simpl in Ht'. rewrite lookup_insert_eq in Ht'. congruence.
Qed.

(** X23.  The export looks the session up before it looks at the format:
    an unknown session is reported as not found whatever the format, a
    format other than json, markdown and summary on a known session is
    reported as unsupported, and only a missed initialization gives the
    failure payload. *)
Theorem export_checks_session_first (srv : EnhancedThinkingServer)
    (session_id : option string) (format_type : string) (now : Clock)
    (event_in_time : bool) :
  let p := thinking_processor srv in
  let name := default (current_session_id p) session_id in
  let r := export_thinking_session srv session_id format_type now event_in_time in
  (ensure_initialized srv event_in_time = false <-> r = ExportFailed ERROR_INIT_TIMEOUT)
  /\ (ensure_initialized srv event_in_time = true ->
      (thought_sessions p !! name = None <-> r = ExportError ERROR_SESSION_NOT_FOUND)
      /\ (is_Some (thought_sessions p !! name) ->
          format_type <> "json" -> format_type <> "markdown" -> format_type <> "summary" ->
          r = ExportError EXPORT_UNSUPPORTED_FORMAT)).
Proof.
  intros p name r. subst r. unfold export_thinking_session. fold p.
  destruct (ensure_initialized srv event_in_time); simpl; fold name.
  - destruct (thought_sessions p !! name) as [ids|].
    + split.
      * split; [done|]. repeat case_bool_decide; discriminate.
      * intros _. split.
        -- split; [done|]. repeat case_bool_decide; discriminate.
        -- intros _ Hj Hm Hs. by rewrite !bool_decide_eq_false_2.
    + split; [done|]. intros _. split; [done|]. by intros [? ?].
  - split; [done|]. done.
Qed.

End PathAndExport.

(* ------------------------------------------------------------------ *)
(** ** The further properties on the example states *)
(* ------------------------------------------------------------------ *)

Lemma two_thought_processor_reachable : @reachable plain_environment two_thought_processor.
Proof.
  exists En, [Think (example_input "The data shows 95% improvement" None) example_clock;
              Think (example_input "Possibly this result is not reproducible"
                       (Some "thought_1_120000")) example_clock].
  reflexivity.
Qed.

Lemma check_logical_consistency_sound_witness :
  let texts := ["this is not right"; "yes it is right"] in
  conflict_justified (H := similarity_environment) En texts
    (similarity_matrix (@check_logical_consistency similarity_environment En texts))
    {| conflict_thoughts := (0%nat, 1%nat); conflict_confidence := (1 - 0)%Q |}.
Proof.
  intros texts.
  apply (@check_logical_consistency_sound similarity_environment En texts).
  vm_compute. apply list_elem_of_here.
Defined.

Lemma reachable_store_consistent_witness :
  exists child,
    thoughts two_thought_processor !! "thought_2_120000" = Some child
    /\ parent_id child = Some "thought_1_120000".
Proof.
  destruct (@reachable_store_consistent plain_environment two_thought_processor
              two_thought_processor_reachable) as [_ Hmirror].
  assert (exists t, thoughts two_thought_processor !! "thought_1_120000" = Some t
                    /\ "thought_2_120000" ∈ children_ids t) as (t & Ht & Hc).
  { eexists. split; [vm_compute; reflexivity|]. apply list_elem_of_here. }
  exact (Hmirror "thought_1_120000" t "thought_2_120000" Ht Hc).
Defined.

Lemma reachable_single_session_witness :
  size (thoughts two_thought_processor) = 2%nat
  /\ NoDup (default [] (thought_sessions two_thought_processor !! "default")).
Proof.
  destruct (@reachable_single_session plain_environment two_thought_processor
              two_thought_processor_reachable) as (_ & _ & _ & Hsize & _ & Hnd).
  split; [exact Hsize | exact Hnd].
Defined.

Lemma create_thought_adds_one_witness :
  let created := @create_thought plain_environment two_thought_processor
                   (example_input "A third remark" None) example_clock in
  size (thoughts (fst created)) = 3%nat
  /\ thoughts two_thought_processor !! thought_id (snd created) = None.
Proof.
  intros created.
  destruct (@create_thought_adds_one plain_environment two_thought_processor
              (example_input "A third remark" None) example_clock
              two_thought_processor_reachable) as (Hfresh & _ & Hsize & _).
  subst created. split; [|exact Hfresh].
  rewrite Hsize. vm_compute. reflexivity.
Defined.

Lemma stored_thoughts_only_gain_children_witness :
  let later := [Think (example_input "A follow-up" (Some "thought_1_120000")) example_clock;
                Adapt CRITICAL 0.4 "review"] in
  exists t t',
    thoughts two_thought_processor !! "thought_1_120000" = Some t
    /\ thoughts (@run plain_environment two_thought_processor later) !! "thought_1_120000"
       = Some t'
    /\ t' = with_children t (children_ids t')
    /\ children_ids t `prefix_of` children_ids t'.
Proof.
  intros later.
  assert (exists t, thoughts two_thought_processor !! "thought_1_120000" = Some t)
    as (t & Ht) by (eexists; vm_compute; reflexivity).
  destruct (@stored_thoughts_only_gain_children plain_environment two_thought_processor
              later "thought_1_120000" t two_thought_processor_reachable Ht)
    as (t' & Ht' & Heq & Hpre).
  by exists t, t'.
Defined.

Lemma coherence_report_bounds_witness :
  exists a,
    @analyze_session_coherence plain_environment two_thought_processor None
    = CoherenceAnalysis a
    /\ unit_interval (average_quality a) /\ (-1 <= quality_trend a <= 1)%Q.
Proof.
  eexists. split; [reflexivity|].
  destruct (@coherence_report_bounds plain_environment two_thought_processor None _
              two_thought_processor_reachable eq_refl) as (Havg & Htrend & _).
  split; [exact Havg | exact Htrend].
Defined.

Lemma metacognitive_report_bounds_witness :
  exists a,
    snd (perform_metacognitive_analysis two_thought_processor "planning" 3) = MetaAnalysis a
    /\ unit_interval (strategy_effectiveness a) /\ unit_interval (cognitive_load a).
Proof.
  pose proof (@metacognitive_report_bounds plain_environment two_thought_processor
                "planning" 3 two_thought_processor_reachable) as Hb.
  destruct (snd (perform_metacognitive_analysis two_thought_processor "planning" 3))
    as [msg|a] eqn:E.
  - exfalso. revert Hb. vm_compute. discriminate.
  - exists a. destruct Hb as (_ & _ & He & Hl). by split.
Defined.

Lemma metacognitive_analysis_settles_witness :
  thought_sessions
    (fst (perform_metacognitive_analysis (new_processor En) "planning" 3)) !! "other"
  = None.
Proof.
  destruct (metacognitive_analysis_settles (new_processor En) "planning" "planning" 3 3)
    as (_ & _ & _ & _ & Hother & _).
  rewrite Hother; [reflexivity | discriminate].
Defined.


Lemma thinking_patterns_count_witness :
  exists ty s,
    dominant_type (_analyze_thinking_patterns
                     (resolve (thoughts two_thought_processor)
                        ["thought_1_120000"; "thought_2_120000"])) = Some ty
    /\ dominant_strategy (_analyze_thinking_patterns
                            (resolve (thoughts two_thought_processor)
                               ["thought_1_120000"; "thought_2_120000"])) = Some s.
Proof.
  destruct (thinking_patterns_count
              (resolve (thoughts two_thought_processor)
                 ["thought_1_120000"; "thought_2_120000"]))
    as (_ & _ & _ & _ & _ & _ & Hdom).
  destruct Hdom as (ty & s & Hty & Hs & _); [vm_compute; discriminate|].
  by exists ty, s.
Defined.

Lemma bias_assessment_counts_witness :
  detected_biases
    (_assess_cognitive_biases
       (resolve (thoughts two_thought_processor) ["thought_1_120000"; "thought_2_120000"]))
  = ∅.
Proof.
  apply (bias_assessment_counts
           (resolve (thoughts two_thought_processor)
              ["thought_1_120000"; "thought_2_120000"])).
  vm_compute. reflexivity.
Defined.

Lemma thinking_path_is_ancestry_witness :
  exists t path,
    thoughts two_thought_processor !! "thought_2_120000" = Some t
    /\ get_thinking_path 5 two_thought_processor "thought_2_120000" = Some path
    /\ last path = Some t /\ (1 <= List.length path <= 5)%nat.
Proof.
  assert (exists t, thoughts two_thought_processor !! "thought_2_120000" = Some t)
    as (t & Ht) by (eexists; vm_compute; reflexivity).
  assert (exists path, get_thinking_path 5 two_thought_processor "thought_2_120000"
                       = Some path)
    as (path & Hpath) by (eexists; vm_compute; reflexivity).
  destruct (@thinking_path_is_ancestry plain_environment two_thought_processor 5
              "thought_2_120000" t path two_thought_processor_reachable Ht Hpath)
    as (Hlast & Hlen & _).
  by exists t, path.
Defined.

Lemma path_tool_ends_at_request_witness :
  get_thinking_path_tool 5 two_thought_server "thought_9_120000" true
  = Some (PathNotFound "thought_9_120000")
  /\ (exists steps s,
        get_thinking_path_tool 2 two_thought_server "thought_2_120000" true
        = Some (PathFound "thought_2_120000" 2 steps)
        /\ last steps = Some s /\ step_thought_id s = "thought_2_120000")
  /\ (forall fuel,
        get_thinking_path_tool fuel
          (with_processor (started_server En) self_parent_processor)
          "thought_1_120000" true
        = None).
Proof.
  split; [|split].
  - apply (@path_tool_ends_at_request plain_environment two_thought_server
             "thought_9_120000" true two_thought_processor_reachable eq_refl).
    vm_compute. reflexivity.
  - assert (exists t1 t2,
              thoughts two_thought_processor !! "thought_1_120000" = Some t1
              /\ thoughts two_thought_processor !! "thought_2_120000" = Some t2
              /\ truthy_id (parent_id t1) = None
              /\ truthy_id (parent_id t2) = Some "thought_1_120000")
      as (t1 & t2 & H1 & H2 & Hp1 & Hp2).
    { do 2 eexists. split; [vm_compute; reflexivity|].
      split; [vm_compute; reflexivity|]. split; reflexivity. }
    destruct (@path_tool_ends_at_request plain_environment two_thought_server
                "thought_2_120000" true two_thought_processor_reachable eq_refl)
      as (_ & Hfound & _).
    destruct (Hfound t2 2%nat H2) with (fuel := 2%nat)
      as (steps & Htool & _ & _ & _ & s & Hlast & Hid).
    { eapply chain_parent; [exact Hp2 | exact H1 | by apply chain_root]. }
    { lia. }
    by exists steps, s.
  - assert (@reachable plain_environment self_parent_processor) as Hreach.
    { exists En, [Think (example_input "A thought that names itself as parent"
                           (Some "thought_1_120000")) example_clock].
      reflexivity. }
    assert (exists t,
              thoughts self_parent_processor !! "thought_1_120000" = Some t
              /\ truthy_id (parent_id t) = Some "thought_1_120000")
      as (t & Ht & Hp).
    { eexists. split; [vm_compute; reflexivity | reflexivity]. }
    destruct (@path_tool_ends_at_request plain_environment
                (with_processor (started_server En) self_parent_processor)
                "thought_1_120000" true Hreach eq_refl)
      as (_ & _ & Hnever & _).
    apply (Hnever t Ht).
    assert (forall t' n,
              chain_ends (thoughts self_parent_processor) t' n -> t' <> t) as Hloop.
    { induction 1 as [t' Hr|t' pid Hp' Hs|t' pid parent n Hp' Hs Hn IH]; intros ->.
      - congruence.
      - assert (pid = "thought_1_120000") as -> by congruence. congruence.
      - assert (pid = "thought_1_120000") as -> by congruence.
        apply IH. congruence. }
    intros n Hn. by apply (Hloop t n).
Defined.

Lemma export_json_lists_session_witness :
  exists exported,
    @export_thinking_session plain_environment two_thought_server None "json"
      example_clock true
    = ExportJson "default" "2024-01-01T12:00:00" 2 exported
    /\ ex_id <$> exported = ["thought_1_120000"; "thought_2_120000"].
Proof.
  destruct (@export_json_lists_session plain_environment two_thought_server None
              example_clock true ["thought_1_120000"; "thought_2_120000"]
              two_thought_processor_reachable eq_refl)
    as (exported & Hexp & Hids & _).
  { vm_compute. reflexivity. }
  by exists exported.
Defined.

Lemma created_thought_is_exported_last_witness :
  let served := @enhanced_thinking plain_environment two_thought_server
                  (example_input "A third remark" None) example_clock true in
  exists t exported,
    snd served = ThoughtCreated t
    /\ @export_thinking_session plain_environment (fst served) None "json"
         example_clock true
       = ExportJson "default" "2024-01-01T12:00:00" 3 exported
    /\ last exported = Some (export_thought t).
Proof.
  intros served.
  assert (exists srv' t, served = (srv', ThoughtCreated t)) as (srv' & t & Hserved)
    by (do 2 eexists; reflexivity).
  destruct (@created_thought_is_exported_last plain_environment two_thought_server srv'
              (example_input "A third remark" None) example_clock example_clock true t
              two_thought_processor_reachable eq_refl Hserved)
    as (exported & Hexp & Hlast).
  exists t, exported. rewrite Hserved. simpl. split; [done|]. split; [|done].
  rewrite Hexp. reflexivity.
Defined.

Lemma export_checks_session_first_witness :
  @export_thinking_session plain_environment two_thought_server None "yaml"
    example_clock true
  = ExportError EXPORT_UNSUPPORTED_FORMAT
  /\ @export_thinking_session plain_environment two_thought_server (Some "review") "yaml"
       example_clock true
     = ExportError ERROR_SESSION_NOT_FOUND.
Proof.
  split.
  - apply (@export_checks_session_first plain_environment two_thought_server None "yaml"
             example_clock true); [reflexivity | vm_compute; eauto | done..].
  - apply (@export_checks_session_first plain_environment two_thought_server
             (Some "review") "yaml" example_clock true); [reflexivity|].
    vm_compute. reflexivity.
Defined.
